(** * Money Manager MCP server: response decoding, resilient requests, handlers

    A shallow embedding of the TypeScript sources
      - [src/errors/index.ts]       (the error taxonomy and [wrapError]),
      - [src/config/index.ts]       (the bounds of [ConfigSchema], the sources
                                     of the configuration and their merge),
      - [src/client/http-client.ts] (the [HttpClient] class),
      - [src/tools/handlers.ts]     (the tool handlers),
    followed by the properties proved about them.

    Conventions.
    - A JavaScript string is the list of its UTF-16 code units.
    - A JavaScript value is plain data ([value]); numbers are kept as exact
      decimals, the rounding to binary64 is not modelled.
    - Asynchronous code is sequential here: a computation takes the state of
      the client and returns an outcome (a result or a thrown value) together
      with the new state.  Everything observable that the client does (issuing
      a request, sleeping, logging, saving cookies) is appended to the event
      list of that state. *)

From Stdlib Require Import List ZArith NArith Bool String Ascii Lia.
From Stdlib Require Import DecimalString Sorted Permutation.
Import ListNotations.

Set Implicit Arguments.
Set Warnings "-register-all".

(* ================================================================== *)
(** * JavaScript strings *)
(* ================================================================== *)

Definition code_unit := N.
Definition jsstring := list code_unit.

(** The JavaScript string written by an ASCII literal. *)
Definition js (s : string) : jsstring :=
  map N_of_ascii (list_ascii_of_string s).

Fixpoint str_eqb (a b : jsstring) : bool :=
  match a, b with
  | [], [] => true
  | x :: a', y :: b' => N.eqb x y && str_eqb a' b'
  | _, _ => false
  end.

(** The decimal rendering of an integer, as in a template literal. *)
Definition dec (z : Z) : jsstring :=
  js (NilZero.string_of_int (Z.to_int z)).

Definition among (c : code_unit) (l : list N) : bool :=
  existsb (N.eqb c) l.

Definition between (lo hi c : N) : bool :=
  N.leb lo c && N.leb c hi.

(** ECMAScript [WhiteSpace]: TAB, VT, FF, SP, NBSP, ZWNBSP and category Zs. *)
Definition isWhiteSpace (c : code_unit) : bool :=
  among c [9; 11; 12; 32; 160; 5760; 8239; 8287; 12288; 65279]%N
  || between 8192 8202 c.

(** ECMAScript [LineTerminator]: LF, CR, LS, PS. *)
Definition isLineTerminator (c : code_unit) : bool :=
  among c [10; 13; 8232; 8233]%N.

(** What [String.prototype.trim] strips and what [\s] matches. *)
Definition isSpace (c : code_unit) : bool :=
  isWhiteSpace c || isLineTerminator c.

Fixpoint trimStart (s : jsstring) : jsstring :=
  match s with
  | c :: s' => if isSpace c then trimStart s' else s
  | [] => []
  end.

Definition trimEnd (s : jsstring) : jsstring := rev (trimStart (rev s)).

Definition trim (s : jsstring) : jsstring := trimEnd (trimStart s).

(** [s.substring(0, n)]. *)
Definition substring0 (n : nat) (s : jsstring) : jsstring := firstn n s.

(** [s.includes(t)]. *)
Fixpoint starts_with (t s : jsstring) : bool :=
  match t, s with
  | [], _ => true
  | x :: t', y :: s' => N.eqb x y && starts_with t' s'
  | _ :: _, [] => false
  end.

Fixpoint includes (s t : jsstring) : bool :=
  starts_with t s ||
  match s with
  | [] => false
  | _ :: s' => includes s' t
  end.

(* ================================================================== *)
(** * JavaScript values *)
(* ================================================================== *)

(** A number: NaN, or the exact decimal [m * 10^e]. *)
Inductive number :=
| NaN
| Dec (m e : Z).

Inductive value :=
| VUndefined
| VNull
| VBool (b : bool)
| VNum (n : number)
| VStr (s : jsstring)
| VArr (items : list value)
| VObj (props : list (jsstring * value)).

Definition object := list (jsstring * value).

Fixpoint lookup (k : jsstring) (o : object) : option value :=
  match o with
  | [] => None
  | (k', v) :: o' => if str_eqb k k' then Some v else lookup k o'
  end.

(** [o[k] = v]: an existing property keeps its place, a new one goes last. *)
Fixpoint obj_set (k : jsstring) (v : value) (o : object) : object :=
  match o with
  | [] => [(k, v)]
  | (k', v') :: o' =>
      if str_eqb k k' then (k, v) :: o' else (k', v') :: obj_set k v o'
  end.

(** ToBoolean. *)
Definition truthy (v : value) : bool :=
  match v with
  | VUndefined | VNull => false
  | VBool b => b
  | VNum NaN => false
  | VNum (Dec m _) => negb (Z.eqb m 0)
  | VStr s => match s with [] => false | _ => true end
  | VArr _ | VObj _ => true
  end.

(** [a || b]. *)
Definition js_or (a b : value) : value := if truthy a then a else b.

(** [v !== false]. *)
Definition is_not_false (v : value) : bool :=
  match v with VBool false => false | _ => true end.

(** [v !== s] for a string [s]. *)
Definition is_not_string (s : jsstring) (v : value) : bool :=
  match v with VStr t => negb (str_eqb t s) | _ => true end.

(** [typeof v === "string"]. *)
Definition is_string (v : value) : bool :=
  match v with VStr _ => true | _ => false end.

(** [Array.isArray(v)]. *)
Definition isArray (v : value) : bool :=
  match v with VArr _ => true | _ => false end.

(** Reading a property of a value that is known not to be null or undefined.
    None of the property names read in this program is defined by a built-in
    prototype, so a primitive or an array answers [undefined]. *)
Definition prop (v : value) (k : string) : value :=
  match v with
  | VObj o => match lookup (js k) o with Some x => x | None => VUndefined end
  | _ => VUndefined
  end.

(* ================================================================== *)
(** * [JSON.parse] *)
(* ================================================================== *)

(** The platform's [JSON.parse] on a string, as the JSON grammar defines it:
    a pushdown recogniser that reads the text one code unit at a time.  It
    answers the parsed value, or the index of the code unit at which the text
    stops being JSON (the length of the text when it ends too early).
    The properties of an object are kept in the order of their first
    appearance; the place JavaScript gives to index-like keys is not
    modelled. *)
Module JSON.

Inductive parsed :=
| Parsed (v : value)
| SyntaxError (pos : nat).

(** An open container: the array elements read so far, or the object
    members read so far with the key that awaits its value; most recent
    first. *)
Inductive frame :=
| InArray (done : list value)
| InObject (done : object) (key : option jsstring).

Inductive numstate :=
| AfterMinus | AfterZero | IntDigits | AfterDot | FracDigits
| AfterE | AfterESign | ExpDigits.

Record numacc := { neg : bool; mant : Z; scale : Z; eneg : bool; expo : Z }.

Inductive strstate :=
| Plain
| Escape
| Hex (more : nat) (acc : N).

Inductive mode :=
| MValue (first : bool)
| MKey (first : bool)
| MString (is_key : bool) (acc : jsstring) (st : strstate)
| MColon
| MNumber (st : numstate) (acc : numacc)
| MLiteral (rest : jsstring) (v : value)
| MAfter
| MDone (v : value).

Definition state := (list frame * mode)%type.

Definition isJsonSpace (c : code_unit) : bool := among c [32; 10; 13; 9]%N.

Definition digit (c : code_unit) : option Z :=
  if between 48 57 c then Some (Z.of_N c - 48)%Z else None.

Definition hexdigit (c : code_unit) : option N :=
  if between 48 57 c then Some (c - 48)%N
  else if between 97 102 c then Some (c - 87)%N
  else if between 65 70 c then Some (c - 55)%N
  else None.

(** A value is complete: it becomes the result, the next array element, or
    the value of the pending key (a repeated key keeps its first place and
    takes the last value). *)
Definition complete (v : value) (stack : list frame) : option state :=
  match stack with
  | [] => Some ([], MDone v)
  | InArray done :: up => Some (InArray (v :: done) :: up, MAfter)
  | InObject done (Some k) :: up =>
      Some (InObject (rev (obj_set k v (rev done))) None :: up, MAfter)
  | InObject _ None :: _ => None
  end.

Definition number_of (a : numacc) : value :=
  VNum (Dec (if neg a then - mant a else mant a)
            ((if eneg a then - expo a else expo a) - scale a))%Z.

Definition num0 : numacc :=
  {| neg := false; mant := 0; scale := 0; eneg := false; expo := 0 |}.

Definition accepting (st : numstate) : bool :=
  match st with
  | AfterZero | IntDigits | FracDigits | ExpDigits => true
  | _ => false
  end.

(** One more code unit of a number, if the number goes on. *)
Definition step_number (st : numstate) (a : numacc) (c : code_unit)
  : option (numstate * numacc) :=
  let int_digit d := {| neg := neg a; mant := mant a * 10 + d;
                        scale := scale a; eneg := eneg a; expo := expo a |}%Z in
  let frac_digit d := {| neg := neg a; mant := mant a * 10 + d;
                         scale := scale a + 1; eneg := eneg a; expo := expo a |}%Z in
  let exp_digit d := {| neg := neg a; mant := mant a;
                        scale := scale a; eneg := eneg a; expo := expo a * 10 + d |}%Z in
  let exp_minus := {| neg := neg a; mant := mant a;
                      scale := scale a; eneg := true; expo := expo a |} in
  let is_e := among c [101; 69]%N in
  match st with
  | AfterMinus =>
      match digit c with
      | Some d => if Z.eqb d 0 then Some (AfterZero, a) else Some (IntDigits, int_digit d)
      | None => None
      end
  | AfterZero =>
      if N.eqb c 46 then Some (AfterDot, a)
      else if is_e then Some (AfterE, a) else None
  | IntDigits =>
      match digit c with
      | Some d => Some (IntDigits, int_digit d)
      | None => if N.eqb c 46 then Some (AfterDot, a)
                else if is_e then Some (AfterE, a) else None
      end
  | AfterDot =>
      match digit c with
      | Some d => Some (FracDigits, frac_digit d)
      | None => None
      end
  | FracDigits =>
      match digit c with
      | Some d => Some (FracDigits, frac_digit d)
      | None => if is_e then Some (AfterE, a) else None
      end
  | AfterE =>
      match digit c with
      | Some d => Some (ExpDigits, exp_digit d)
      | None => if N.eqb c 43 then Some (AfterESign, a)
                else if N.eqb c 45 then Some (AfterESign, exp_minus) else None
      end
  | AfterESign | ExpDigits =>
      match digit c with
      | Some d => Some (ExpDigits, exp_digit d)
      | None => None
      end
  end.

(** After a complete value: a separator, a closing bracket, or space. *)
Definition step_after (stack : list frame) (m : mode) (c : code_unit)
  : option state :=
  match m with
  | MDone v => if isJsonSpace c then Some (stack, MDone v) else None
  | _ =>
      if isJsonSpace c then Some (stack, MAfter)
      else match stack with
           | InArray done :: up =>
               if N.eqb c 44 then Some (stack, MValue false)
               else if N.eqb c 93 then complete (VArr (rev done)) up
               else None
           | InObject done None :: up =>
               if N.eqb c 44 then Some (stack, MKey false)
               else if N.eqb c 125 then complete (VObj (rev done)) up
               else None
           | _ => None
           end
  end.

Definition step_string (stack : list frame) (is_key : bool) (acc : jsstring)
           (st : strstate) (c : code_unit) : option state :=
  let more x := Some (stack, MString is_key (x :: acc) Plain) in
  match st with
  | Plain =>
      if N.eqb c 34 then
        if is_key then
          match stack with
          | InObject done None :: up =>
              Some (InObject done (Some (rev acc)) :: up, MColon)
          | _ => None
          end
        else complete (VStr (rev acc)) stack
      else if N.eqb c 92 then Some (stack, MString is_key acc Escape)
      else if N.ltb c 32 then None
      else more c
  | Escape =>
      if among c [34; 92; 47]%N then more c
      else if N.eqb c 98 then more 8%N
      else if N.eqb c 102 then more 12%N
      else if N.eqb c 110 then more 10%N
      else if N.eqb c 114 then more 13%N
      else if N.eqb c 116 then more 9%N
      else if N.eqb c 117 then Some (stack, MString is_key acc (Hex 3 0))
      else None
  | Hex n h =>
      match hexdigit c with
      | Some d =>
          match n with
          | O => more (h * 16 + d)%N
          | S n' => Some (stack, MString is_key acc (Hex n' (h * 16 + d)%N))
          end
      | None => None
      end
  end.

Definition step_value (stack : list frame) (first : bool) (c : code_unit)
  : option state :=
  if isJsonSpace c then Some (stack, MValue first)
  else if N.eqb c 123 then Some (InObject [] None :: stack, MKey true)
  else if N.eqb c 91 then Some (InArray [] :: stack, MValue true)
  else if N.eqb c 93 then
    match first, stack with
    | true, InArray done :: up => complete (VArr (rev done)) up
    | _, _ => None
    end
  else if N.eqb c 34 then Some (stack, MString false [] Plain)
  else if N.eqb c 45 then
    Some (stack, MNumber AfterMinus
                   {| neg := true; mant := 0; scale := 0; eneg := false; expo := 0 |})
  else if N.eqb c 116 then Some (stack, MLiteral (js "rue") (VBool true))
  else if N.eqb c 102 then Some (stack, MLiteral (js "alse") (VBool false))
  else if N.eqb c 110 then Some (stack, MLiteral (js "ull") VNull)
  else match step_number AfterMinus num0 c with
       | Some (st, a) => Some (stack, MNumber st a)
       | None => None
       end.

Definition step (s : state) (c : code_unit) : option state :=
  let (stack, m) := s in
  match m with
  | MValue first => step_value stack first c
  | MKey first =>
      if isJsonSpace c then Some (stack, MKey first)
      else if N.eqb c 34 then Some (stack, MString true [] Plain)
      else if N.eqb c 125 then
        match first, stack with
        | true, InObject done None :: up => complete (VObj (rev done)) up
        | _, _ => None
        end
      else None
  | MString is_key acc st => step_string stack is_key acc st c
  | MColon =>
      if isJsonSpace c then Some (stack, MColon)
      else if N.eqb c 58 then Some (stack, MValue false)
      else None
  | MNumber st a =>
      match step_number st a c with
      | Some (st', a') => Some (stack, MNumber st' a')
      | None =>
          if accepting st then
            match complete (number_of a) stack with
            | Some (stack', m') => step_after stack' m' c
            | None => None
            end
          else None
      end
  | MLiteral rest v =>
      match rest with
      | x :: rest' =>
          if N.eqb c x then
            match rest' with
            | [] => complete v stack
            | _ => Some (stack, MLiteral rest' v)
            end
          else None
      | [] => None
      end
  | MAfter | MDone _ => step_after stack m c
  end.

Definition finish (s : state) (pos : nat) : parsed :=
  match s with
  | ([], MDone v) => Parsed v
  | ([], MNumber st a) => if accepting st then Parsed (number_of a) else SyntaxError pos
  | _ => SyntaxError pos
  end.

Fixpoint run (s : state) (pos : nat) (text : jsstring) : parsed :=
  match text with
  | [] => finish s pos
  | c :: text' =>
      match step s c with
      | Some s' => run s' (S pos) text'
      | None => SyntaxError pos
      end
  end.

Definition parse (text : jsstring) : parsed := run ([], MValue false) 0 text.

End JSON.

(* ================================================================== *)
(** * [HttpClient.convertJsLiteralToJson] *)
(* ================================================================== *)

Definition DQUOTE : code_unit := 34%N.
Definition SQUOTE : code_unit := 39%N.
Definition COLON : code_unit := 58%N.

(** [[a-zA-Z_]] and [[a-zA-Z0-9_]]. *)
Definition isIdentStart (c : code_unit) : bool :=
  between 97 122 c || between 65 90 c || N.eqb c 95.

Definition isIdentPart (c : code_unit) : bool :=
  isIdentStart c || between 48 57 c.

(** [[{,\[]]. *)
Definition isOpener (c : code_unit) : bool := among c [123; 44; 91]%N.

(** The longest prefix of code units in a class, and the rest. *)
Fixpoint span (p : code_unit -> bool) (s : jsstring) : jsstring * jsstring :=
  match s with
  | c :: s' => if p c then let (a, b) := span p s' in (c :: a, b) else ([], s)
  | [] => ([], [])
  end.

(** A match, at the head of [s], of the part the two key-quoting patterns
    share: white space ([\s], any number), an identifier (a letter or
    underscore, then letters, digits and underscores), white space again, and
    a colon.  The answer is the identifier it captures and the number of code units it spans.  The three
    greedy runs are over disjoint classes and none contains the colon, so the
    regular expression has no other way to match. *)
Definition matchKey (s : jsstring) : option (jsstring * nat) :=
  let (ws1, s1) := span isSpace s in
  match s1 with
  | c :: s2 =>
      if isIdentStart c then
        let (id, s3) := span isIdentPart s2 in
        let (ws2, s4) := span isSpace s3 in
        match s4 with
        | d :: _ =>
            if N.eqb d COLON
            then Some (c :: id,
                       List.length ws1 + 1 + List.length id + List.length ws2 + 1)%nat
            else None
        | [] => None
        end
      else None
  | [] => None
  end.

(** Step 1: every single quote becomes a double quote
    ([replace] with the pattern [/'/g]). *)
Definition replaceSingleQuotes (s : jsstring) : jsstring :=
  map (fun c => if N.eqb c SQUOTE then DQUOTE else c) s.

(** Step 2: global [replace] of an opener (brace, comma or bracket) followed
    by a key as in [matchKey]: the opener is kept and the identifier is
    written between double quotes, followed by a colon.
    [skip] counts the code units of the current match still to be dropped. *)
Fixpoint quoteKeysAfterOpener (skip : nat) (s : jsstring) : jsstring :=
  match s with
  | [] => []
  | c :: s' =>
      match skip with
      | S k => quoteKeysAfterOpener k s'
      | O =>
          if isOpener c then
            match matchKey s' with
            | Some (id, n) =>
                c :: DQUOTE :: id ++ DQUOTE :: COLON :: quoteKeysAfterOpener n s'
            | None => c :: quoteKeysAfterOpener 0 s'
            end
          else c :: quoteKeysAfterOpener 0 s'
      end
  end.

(** Step 3: global multi-line [replace] of a key as in [matchKey] at the
    start of a line: the identifier is written between double quotes,
    followed by a colon.  With the [m] flag the anchor holds at index 0 and
    after a line terminator. *)
Fixpoint quoteKeysAtLineStart (skip : nat) (lineStart : bool) (s : jsstring)
  : jsstring :=
  match s with
  | [] => []
  | c :: s' =>
      match skip with
      | S k => quoteKeysAtLineStart k false s'
      | O =>
          match (if lineStart then matchKey s else None) with
          | Some (id, n) =>
              DQUOTE :: id ++ DQUOTE :: COLON
                :: quoteKeysAtLineStart (n - 1) false s'
          | None => c :: quoteKeysAtLineStart 0 (isLineTerminator c) s'
          end
      end
  end.

(** Step 4: two double quotes in a row become one, from left to right. *)
Fixpoint collapseDoubledQuotes (s : jsstring) : jsstring :=
  match s with
  | [] => []
  | c :: s' =>
      match s' with
      | d :: s'' =>
          if N.eqb c DQUOTE && N.eqb d DQUOTE
          then DQUOTE :: collapseDoubledQuotes s''
          else c :: collapseDoubledQuotes s'
      | [] => [c]
      end
  end.

Definition convertJsLiteralToJson (jsLiteral : jsstring) : jsstring :=
  let result := jsLiteral in
  let result := replaceSingleQuotes result in
  let result := quoteKeysAfterOpener 0 result in
  let result := quoteKeysAtLineStart 0 true result in
  let result := collapseDoubledQuotes result in
  result.

(* ================================================================== *)
(** * Numbers *)
(* ================================================================== *)

(** The executor compares the count of retries with integers and
    multiplies the base delay by powers of two.  Both are computed exactly
    here, as they are on binary64 within the bounds of [ConfigSchema]; and
    every value of binary64 is a decimal, so that what holds for every
    decimal holds for every number the program can be configured with. *)

(** [z <= n] and [n <= z] for an integer [z] and a number [n]; every
    comparison with [NaN] is false. *)
Definition int_leb_num (z : Z) (n : number) : bool :=
  match n with
  | NaN => false
  | Dec m e => if Z.leb 0 e then Z.leb z (m * 10 ^ e)
               else Z.leb (z * 10 ^ (- e)) m
  end.

Definition num_leb_int (n : number) (z : Z) : bool :=
  match n with
  | NaN => false
  | Dec m e => if Z.leb 0 e then Z.leb (m * 10 ^ e) z
               else Z.leb m (z * 10 ^ (- e))
  end.

(** [Math.floor(n)] of a number that is not [NaN]. *)
Definition floor (n : number) : Z :=
  match n with
  | NaN => 0
  | Dec m e => if Z.leb 0 e then m * 10 ^ e else m / 10 ^ (- e)
  end.

(** [n * Math.pow(2, k)] for an integer [k] that is not negative. *)
Definition times_pow2 (n : number) (k : Z) : number :=
  match n with
  | NaN => NaN
  | Dec m e => Dec (m * 2 ^ k) e
  end.

(** The text of a number in a template literal ([Number::toString]): the
    digits without trailing zeros, laid out by the place [n] of the decimal
    point, in exponent notation when [n] is above 21 or below -5.  The
    digits are those of the decimal, which are the ones the engine prints
    for a decimal of up to 15 significant digits. *)
Definition show_number (x : number) : jsstring :=
  match x with
  | NaN => js "NaN"
  | Dec m e =>
      if Z.eqb m 0 then js "0"
      else
        let all := dec (Z.abs m) in
        let zeros := List.length (fst (span (N.eqb 48) (rev all))) in
        let digits := firstn (List.length all - zeros) all in
        let k := Z.of_nat (List.length digits) in
        let n := (k + (e + Z.of_nat zeros))%Z in
        (if Z.ltb m 0 then js "-" else [])
          ++ (if Z.leb k n && Z.leb n 21
              then digits ++ repeat 48%N (Z.to_nat (n - k))
              else if Z.ltb 0 n && Z.leb n 21
              then firstn (Z.to_nat n) digits ++ js "."
                     ++ skipn (Z.to_nat n) digits
              else if Z.ltb (-6) n && Z.leb n 0
              then js "0." ++ repeat 48%N (Z.to_nat (- n)) ++ digits
              else
                match digits with
                | [] => []
                | d :: rest =>
                    d :: (match rest with [] => [] | _ => js "." ++ rest end)
                end
                  ++ js "e" ++ (if Z.ltb (n - 1) 0 then js "-" else js "+")
                  ++ dec (Z.abs (n - 1)))
  end.

(* ================================================================== *)
(** * [src/errors/index.ts] *)
(* ================================================================== *)

Inductive ErrorCategory :=
| NETWORK | API | VALIDATION | SESSION | FILE | INTERNAL.

(** An instance of [McpError] (or of one of its subclasses, told apart by
    [name]); [statusCode] and [filePath] are the extra fields of [APIError]
    and [FileError]. *)
Record McpError := {
  name : jsstring;
  code : jsstring;
  category : ErrorCategory;
  message : jsstring;
  retryable : bool;
  details : option object;
  statusCode : option Z;
  filePath : option jsstring
}.

(** Any other instance of [Error]. *)
Record JsError := {
  error_name : jsstring;
  error_code : option jsstring;
  error_message : jsstring;
  error_stack : option jsstring
}.

(** What a [throw] may carry: a classified error, an error raised by axios
    (with the status of the response, when there was one, and the URL of the
    request), another [Error], or a value that is not an [Error] (given with
    its [String(...)] rendering). *)
Inductive thrown :=
| ThrownMcp (e : McpError)
| ThrownAxios (e : JsError) (response_status : option Z) (config_url : option jsstring)
| ThrownError (e : JsError)
| ThrownValue (text : jsstring).

Definition opt_str (o : option jsstring) : value :=
  match o with Some s => VStr s | None => VUndefined end.

Definition opt_num (o : option Z) : value :=
  match o with Some z => VNum (Dec z 0) | None => VUndefined end.

Definition new_McpError (name code : string) (category : ErrorCategory)
           (message : jsstring) (retryable : bool) (details : option object)
  : McpError :=
  {| name := js name; code := js code; category := category;
     message := message; retryable := retryable; details := details;
     statusCode := None; filePath := None |}.

Definition NetworkError (message : jsstring) (details : option object) : McpError :=
  new_McpError "NetworkError" "NETWORK_ERROR" NETWORK message true details.

Definition NetworkError_timeout (url : jsstring) (timeoutMs : number)
           (hint : option jsstring) : McpError :=
  let message :=
    js "Request to " ++ url ++ js " timed out after " ++ show_number timeoutMs
       ++ js "ms" in
  NetworkError message
    (Some [(js "url", VStr url);
           (js "timeoutMs", VNum timeoutMs);
           (js "errorType", VStr (js "TIMEOUT"));
           (js "hint", opt_str hint)]).

Definition transaction_list_hint : jsstring :=
  js "Note: The Money Manager server may hang when querying date ranges with no transactions. "
  ++ js "This is a known server-side limitation. Try a date range that has recorded transactions.".

Definition NetworkError_timeoutForTransactionList (url : jsstring)
           (timeoutMs : number)
  : McpError :=
  NetworkError_timeout url timeoutMs (Some transaction_list_hint).

Definition NetworkError_connectionRefused (url : jsstring) : McpError :=
  NetworkError (js "Connection refused to " ++ url)
    (Some [(js "url", VStr url); (js "errorType", VStr (js "CONNECTION_REFUSED"))]).

Definition NetworkError_unreachable (url : jsstring) (originalError : option jsstring)
  : McpError :=
  NetworkError (js "Cannot connect to Money Manager server at " ++ url)
    (Some [(js "url", VStr url);
           (js "originalError", opt_str originalError);
           (js "errorType", VStr (js "UNREACHABLE"))]).

(** [new APIError(message, statusCode, details)]: retryable exactly when a
    status code is given and is at least 500. *)
Definition APIError (message : jsstring) (status : option Z) (details : option object)
  : McpError :=
  let retryable := match status with Some s => Z.leb 500 s | None => false end in
  {| name := js "APIError"; code := js "API_ERROR"; category := API;
     message := message; retryable := retryable;
     details := Some (obj_set (js "statusCode") (opt_num status)
                              (match details with Some d => d | None => [] end));
     statusCode := status; filePath := None |}.

Definition defaultMessages (status : Z) : option jsstring :=
  if Z.eqb status 400 then Some (js "Bad Request")
  else if Z.eqb status 401 then Some (js "Unauthorized")
  else if Z.eqb status 403 then Some (js "Forbidden")
  else if Z.eqb status 404 then Some (js "Not Found")
  else if Z.eqb status 500 then Some (js "Internal Server Error")
  else if Z.eqb status 502 then Some (js "Bad Gateway")
  else if Z.eqb status 503 then Some (js "Service Unavailable")
  else None.

Definition APIError_fromStatusCode (status : Z) (message : option jsstring)
  : McpError :=
  let errorMessage :=
    match message with
    | Some m => m
    | None => match defaultMessages status with
              | Some m => m
              | None => js "Unknown Error"
              end
    end in
  APIError errorMessage (Some status) None.

Definition SessionError (message : jsstring) (details : option object) : McpError :=
  new_McpError "SessionError" "SESSION_ERROR" SESSION message true details.

Definition SessionError_unauthorized : McpError :=
  SessionError (js "Unauthorized access. Please check your credentials.") None.

Definition FileError (message : jsstring) (path : option jsstring)
           (details : option object) : McpError :=
  {| name := js "FileError"; code := js "FILE_ERROR"; category := FILE;
     message := message; retryable := false;
     details := Some (obj_set (js "filePath") (opt_str path)
                              (match details with Some d => d | None => [] end));
     statusCode := None; filePath := path |}.

Definition FileError_notFound (path : jsstring) : McpError :=
  FileError (js "File not found: '" ++ path ++ js "'") (Some path)
    (Some [(js "operation", VStr (js "access"))]).

Definition InternalError (message : jsstring) (details : option object) : McpError :=
  new_McpError "InternalError" "INTERNAL_ERROR" INTERNAL message false details.

Definition InternalError_unexpected (originalError : option JsError) : McpError :=
  InternalError (js "An unexpected error occurred")
    (match originalError with
     | Some e => Some [(js "originalError", VStr (error_message e));
                       (js "stack", opt_str (error_stack e))]
     | None => None
     end).

Definition code_is (e : JsError) (c : string) : bool :=
  match error_code e with Some x => str_eqb x (js c) | None => false end.

(** The branch of [wrapError] for an instance of [Error] that is not an
    [McpError]. *)
Definition wrapJsError (e : JsError) : McpError :=
  if code_is e "ECONNREFUSED" then NetworkError_connectionRefused (js "unknown")
  else if code_is e "ETIMEDOUT" || code_is e "ECONNABORTED"
       then NetworkError_timeout (js "unknown") (Dec 0 0) None
  else if code_is e "ENOTFOUND"
       then NetworkError_unreachable (js "unknown") (Some (error_message e))
  else InternalError_unexpected (Some e).

Definition wrapError (error : thrown) : McpError :=
  match error with
  | ThrownMcp e => e
  | ThrownAxios e _ _ => wrapJsError e
  | ThrownError e => wrapJsError e
  | ThrownValue text => InternalError text None
  end.

(* ================================================================== *)
(** * [src/config/index.ts] *)
(* ================================================================== *)

Inductive LogLevel := level_debug | level_info | level_warn | level_error.

Definition levelIndex (l : LogLevel) : nat :=
  match l with
  | level_debug => 0 | level_info => 1 | level_warn => 2 | level_error => 3
  end.

(** The part of [Config] the client reads: the [server] section, whether
    the session is persisted, and the log level.  The three numbers of the
    [server] section are any numbers: the schema does not ask for
    integers. *)
Record Config := {
  baseUrl : jsstring;
  timeout : number;
  retryCount : number;
  retryDelay : number;
  session_persist : bool;
  logging_level : option LogLevel
}.

(** [z.number().min(lo).max(hi)]: a number, not [NaN], within the bounds. *)
Definition number_min_max (lo hi : Z) (n : number) : bool :=
  int_leb_num lo n && num_leb_int n hi.

(** What [ConfigSchema] asks of the numbers of the [server] section. *)
Definition ConfigSchema (c : Config) : bool :=
  number_min_max 1000 120000 (timeout c)
  && number_min_max 0 10 (retryCount c)
  && number_min_max 100 10000 (retryDelay c).

(* ================================================================== *)
(** * Outcomes, requests, events *)
(* ================================================================== *)

(** A computation ends by returning or by throwing. *)
Inductive outcome (A : Type) :=
| Return (a : A)
| Throw (t : thrown).

Arguments Return {A} a.
Arguments Throw {A} t.

Inductive Method := GET | POST.

Inductive ResponseType := rt_text | rt_json | rt_arraybuffer.

(** The payload of a request: none, the form fields that [toFormData]
    encodes, or a multipart form with one file field. *)
Inductive Payload :=
| NoPayload
| Form (fields : object)
| Multipart (fieldName filePath : jsstring).

Record Request := {
  method : Method;
  url : jsstring;
  params : option object;
  payload : Payload;
  responseType : ResponseType;
  accept : option jsstring
}.

Record AxiosResponse := {
  status : Z;
  statusText : jsstring;
  data : value
}.

(** What the client does that can be observed from outside. *)
Inductive event :=
| Requested (r : Request)
| Slept (ms : number)
| Logged (level : LogLevel) (message : jsstring) (args : list jsstring)
| CookiesSaved.

(** The requests issued and the delays slept, in order. *)
Inductive beat :=
| Attempt
| Wait (ms : number).

Fixpoint beats (evs : list event) : list beat :=
  match evs with
  | [] => []
  | Requested _ :: evs' => Attempt :: beats evs'
  | Slept ms :: evs' => Wait ms :: beats evs'
  | _ :: evs' => beats evs'
  end.

Fixpoint attempts (bs : list beat) : nat :=
  match bs with
  | [] => 0
  | Attempt :: bs' => S (attempts bs')
  | Wait _ :: bs' => attempts bs'
  end.

Fixpoint delays (bs : list beat) : list number :=
  match bs with
  | [] => []
  | Attempt :: bs' => delays bs'
  | Wait ms :: bs' => ms :: delays bs'
  end.

Fixpoint logged (evs : list event) : list (LogLevel * jsstring * list jsstring) :=
  match evs with
  | [] => []
  | Logged l m a :: evs' => (l, m, a) :: logged evs'
  | _ :: evs' => logged evs'
  end.

(* ================================================================== *)
(** * [src/client/http-client.ts] *)
(* ================================================================== *)

(** The class [HttpClient].  The cookie jar is outside this model (saving
    it is an event); the two methods that download files follow the
    handlers. *)
Section HttpClient.

(** The world outside the process: the upstream server behind axios, and
    the file system. *)
Variable World : Type.

(** The transport under the interceptors: what axios answers to a request,
    a response or the error it rejects with, and the world afterwards. *)
Variable send : Request -> World -> (AxiosResponse + thrown) * World.

(** [fs.existsSync]. *)
Variable existsSync : World -> jsstring -> bool.

(** The message the engine gives the [SyntaxError] that [JSON.parse]
    throws, for a text and the index found by [JSON.parse]. *)
Variable syntaxErrorMessage : jsstring -> nat -> jsstring.

(** Calling the function that [new Function] builds from a body text, as
    the callers of the decoder see it: nothing when building or calling it
    throws; otherwise what its result settles to when [get] and [post],
    which are [async], return it: the value itself, or for a thenable the
    value it resolves to or what it rejects with.  The value is given by the
    properties that a read finds on it, its own and the inherited ones.  (A
    thenable that never settles leaves the call pending for ever; the
    computations here always end, so such a body is outside the model.) *)
Variable evalFunction : jsstring -> option (outcome value).

(** [parseStringPromise] of xml2js with the options the client passes: the
    parsed document, or the [String(...)] of the error it rejects with. *)
Variable parseStringPromise : jsstring -> value + jsstring.

Variable config : Config.

(** The state the methods of the client act on. *)
Record Client := {
  world : World;
  this_retryCount : Z;
  events : list event
}.

Definition M (A : Type) : Type := Client -> outcome A * Client.

Definition ret {A} (a : A) : M A := fun st => (Return a, st).

Definition throw {A} (t : thrown) : M A := fun st => (Throw t, st).

Definition bind {A B} (m : M A) (k : A -> M B) : M B :=
  fun st =>
    match m st with
    | (Return a, st') => k a st'
    | (Throw t, st') => (Throw t, st')
    end.

(** [try { m } catch (error) { handler(error) }]. *)
Definition try_catch {A} (m : M A) (handler : thrown -> M A) : M A :=
  fun st =>
    match m st with
    | (Return a, st') => (Return a, st')
    | (Throw t, st') => handler t st'
    end.

Definition lift {A} (o : outcome A) : M A := fun st => (o, st).

Definition emit (e : event) (st : Client) : Client :=
  {| world := world st; this_retryCount := this_retryCount st;
     events := events st ++ [e] |}.

(** [this.log(level, message, ...args)]. *)
Definition log (level : LogLevel) (message : jsstring) (args : list jsstring)
           (st : Client) : Client :=
  let configLevel :=
    match logging_level config with Some l => l | None => level_info end in
  if Nat.leb (levelIndex configLevel) (levelIndex level)
  then emit (Logged level message args) st
  else st.

(** [this.sleep(ms)]. *)
Definition sleep (ms : number) (st : Client) : Client := emit (Slept ms) st.

Definition methodName (m : Method) : jsstring :=
  match m with GET => js "GET" | POST => js "POST" end.

(** [HttpClient.handleResponseError]: the error the response interceptor
    throws in place of the one axios rejected with. *)
Definition handleResponseError (error : thrown) : thrown :=
  match error with
  | ThrownAxios axiosError response config_url =>
      match response with
      | None =>
          if code_is axiosError "ECONNREFUSED" then
            ThrownMcp (NetworkError_connectionRefused (baseUrl config))
          else if code_is axiosError "ETIMEDOUT" || code_is axiosError "ECONNABORTED" then
            let url := match config_url with Some u => u | None => js "unknown" end in
            if includes url (js "/getDataByPeriod") then
              ThrownMcp (NetworkError_timeoutForTransactionList url (timeout config))
            else ThrownMcp (NetworkError_timeout url (timeout config) None)
          else if code_is axiosError "ENOTFOUND" then
            ThrownMcp (NetworkError_unreachable (baseUrl config)
                                                (Some (error_message axiosError)))
          else
            ThrownMcp (NetworkError (error_message axiosError)
                                    (Some [(js "code", opt_str (error_code axiosError))]))
      | Some status =>
          if Z.eqb status 401 || Z.eqb status 403 then
            ThrownMcp SessionError_unauthorized
          else
            ThrownMcp (APIError_fromStatusCode status (Some (error_message axiosError)))
      end
  | _ => ThrownMcp (wrapError error)
  end.

(** A call [this.client.get(...)] or [this.client.post(...)] of the axios
    instance built by the constructor: the request interceptor logs, the
    transport runs, and the response interceptor logs and saves the
    cookies, or rethrows through [handleResponseError]. *)
Definition client_request (r : Request) : M AxiosResponse :=
  fun st =>
    let st := log level_debug (js "Request: " ++ methodName (method r) ++ js " " ++ url r) [] st in
    let (answer, w) := send r (world st) in
    let st := emit (Requested r)
                   {| world := w; this_retryCount := this_retryCount st;
                      events := events st |} in
    match answer with
    | inl response =>
        let st := log level_debug (js "Response: " ++ dec (status response) ++ js " "
                                ++ statusText response) [] st in
        let st := if session_persist config then emit CookiesSaved st else st in
        (Return response, st)
    | inr error => (Throw (handleResponseError error), st)
    end.

(** The [for] loop of [executeWithRetry] from [attempt] on, and the [throw]
    after the loop.  [fuel] bounds the number of turns; the loop itself
    ends by its test [attempt <= maxRetries]. *)
Fixpoint retry_loop {A} (requestFn : M A) (fuel : nat) (attempt : Z)
         (lastError : option McpError) : M A :=
  let maxRetries := retryCount config in
  let after_loop :=
    throw (ThrownMcp (match lastError with
                      | Some e => e
                      | None => NetworkError (js "Request failed after all retries") None
                      end)) in
  match fuel with
  | O => after_loop
  | S fuel' =>
      if int_leb_num attempt maxRetries then
        fun st =>
          let st := {| world := world st; this_retryCount := attempt;
                       events := events st |} in
          match requestFn st with
          | (Return response, st) => (Return response, st)
          | (Throw error, st) =>
              let mcpError := wrapError error in
              if negb (retryable mcpError) || num_leb_int maxRetries attempt then
                (Throw (ThrownMcp mcpError), st)
              else
                let delay := times_pow2 (retryDelay config) attempt in
                let st := log level_warn
                              (js "Request failed, retrying in " ++ show_number delay
                                  ++ js "ms (attempt " ++ dec (attempt + 1)
                                  ++ js "/" ++ show_number maxRetries ++ js ")")
                              [] st in
                let st := sleep delay st in
                retry_loop requestFn fuel' (attempt + 1) (Some mcpError) st
          end
      else after_loop
  end.

(** The number of values of [attempt], from 0 on, that pass the test
    [attempt <= maxRetries]. *)
Definition turns (maxRetries : number) : nat := Z.to_nat (floor maxRetries + 1).

(** [HttpClient.executeWithRetry]: [attempt] runs from 0 while
    [attempt <= maxRetries]. *)
Definition executeWithRetry {A} (requestFn : M A) : M A :=
  retry_loop requestFn (turns (retryCount config)) 0 None.

(** [String(e)] for the [SyntaxError] of [JSON.parse] on [source]. *)
Definition String_of_SyntaxError (source : jsstring) (pos : nat) : jsstring :=
  js "SyntaxError: " ++ syntaxErrorMessage source pos.

(** [HttpClient.parseJsLiteralResponse], whose result [get] and [post]
    return from their [async] bodies: a thenable that the evaluator made is
    settled there. *)
Definition parseJsLiteralResponse (responseText : jsstring) : M value :=
  if match responseText with [] => true | _ => false end
     || str_eqb (trim responseText) []
  then ret (VObj [])
  else
    match JSON.parse responseText with
    | JSON.Parsed v => ret v
    | JSON.SyntaxError _ =>
        let jsonString := convertJsLiteralToJson responseText in
        match JSON.parse jsonString with
        | JSON.Parsed v => ret v
        | JSON.SyntaxError pos =>
            let conversionError := String_of_SyntaxError jsonString pos in
            match evalFunction (js "return (" ++ responseText ++ js ");") with
            | Some (Return v) => ret v
            | Some (Throw rejection) => throw rejection
            | None =>
                fun st =>
                  let st := log level_error (js "Failed to parse response:")
                                [substring0 200 responseText] st in
                  (Throw (ThrownMcp
                            (APIError (js "Failed to parse API response: "
                                          ++ conversionError) None None)), st)
            end
        end
    end.

(** [HttpClient.parseXmlResponse]. *)
Definition parseXmlResponse (xmlString : jsstring) : M value :=
  if match xmlString with [] => true | _ => false end
     || str_eqb (trim xmlString) []
  then ret (VObj [])
  else
    match parseStringPromise xmlString with
    | inl result =>
        match result with
        | VNull | VUndefined => ret (VObj [])
        | _ => ret result
        end
    | inr error =>
        throw (ThrownMcp (APIError (js "Failed to parse XML response: " ++ error)
                                   None None))
    end.

(** [HttpClient.filterUndefinedParams]. *)
Definition filterUndefinedParams (params : option object) : option object :=
  match params with
  | None => None
  | Some ps =>
      let filtered :=
        filter (fun kv => match snd kv with VUndefined => false | _ => true end) ps in
      match filtered with [] => None | _ => Some filtered end
  end.

(** [HttpClient.toFormData], before the URL encoding: the fields that are
    neither undefined nor null. *)
Definition toFormData (fields : option object) : Payload :=
  match fields with
  | None => NoPayload
  | Some fs =>
      Form (filter (fun kv => match snd kv with
                              | VUndefined | VNull => false
                              | _ => true
                              end) fs)
  end.

(** The body of a response asked for with [responseType: "text"]. *)
Definition body_text (response : AxiosResponse) : jsstring :=
  match data response with VStr s => s | _ => [] end.

(** [HttpClient.get]. *)
Definition get (endpoint : jsstring) (params : option object) : M value :=
  let filteredParams := filterUndefinedParams params in
  bind (executeWithRetry
          (client_request {| method := GET; url := endpoint;
                             params := filteredParams; payload := NoPayload;
                             responseType := rt_text; accept := None |}))
       (fun response => parseJsLiteralResponse (body_text response)).

(** [HttpClient.getXml]. *)
Definition getXml (endpoint : jsstring) (params : option object) : M value :=
  let filteredParams := filterUndefinedParams params in
  bind (executeWithRetry
          (client_request {| method := GET; url := endpoint;
                             params := filteredParams; payload := NoPayload;
                             responseType := rt_text;
                             accept := Some (js "text/xml") |}))
       (fun response => parseXmlResponse (body_text response)).

(** [HttpClient.post]. *)
Definition post (endpoint : jsstring) (fields : option object) : M value :=
  let formData := toFormData fields in
  bind (executeWithRetry
          (client_request {| method := POST; url := endpoint;
                             params := None; payload := formData;
                             responseType := rt_text; accept := None |}))
       (fun response => parseJsLiteralResponse (body_text response)).

(** [HttpClient.uploadFile]. *)
Definition uploadFile (endpoint filePath fieldName : jsstring) : M value :=
  fun st =>
    if negb (existsSync (world st) filePath) then
      (Throw (ThrownError {| error_name := js "Error"; error_code := None;
                             error_message := js "File not found: " ++ filePath;
                             error_stack := None |}), st)
    else
      bind (executeWithRetry
              (client_request {| method := POST; url := endpoint;
                                 params := None;
                                 payload := Multipart fieldName filePath;
                                 responseType := rt_json; accept := None |}))
           (fun response => ret (data response)) st.

(** The methods of the client that the handlers call. *)
Record HttpClient := {
  client_get : jsstring -> option object -> M value;
  client_getXml : jsstring -> option object -> M value;
  client_post : jsstring -> option object -> M value;
  client_uploadFile : jsstring -> jsstring -> jsstring -> M value
}.

(** [createHttpClient(config)]. *)
Definition createHttpClient : HttpClient :=
  {| client_get := get; client_getXml := getXml; client_post := post;
     client_uploadFile := uploadFile |}.

End HttpClient.

Arguments ret {World A} a _.
Arguments throw {World A} t _.
Arguments lift {World A} o _.
Arguments bind {World A B} m k _.
Arguments try_catch {World A} m handler _.

Notation "x <- m ;; k" := (bind m (fun x => k))
  (at level 61, m at next level, right associativity).

(* ================================================================== *)
(** * [src/tools/handlers.ts] *)
(* ================================================================== *)

Section Handlers.

Variable World : Type.

(** [Schema.parse(input)] of the named zod schema: the validated input, or
    the [ZodError] it throws. *)
Variable zodParse : string -> value -> outcome value.

(** [parseInt(x, 10)] and [parseFloat(x)]. *)
Variable parseInt10 : value -> number.
Variable parseFloat : value -> number.

Variable httpClient : HttpClient World.

Local Abbreviation M := (M World).

(** Reading a property: a [TypeError] on null and undefined. *)
Definition read (v : value) (k : string) : outcome value :=
  match v with
  | VUndefined | VNull =>
      Throw (ThrownError
               {| error_name := js "TypeError"; error_code := None;
                  error_message :=
                    js "Cannot read properties of "
                       ++ (match v with VNull => js "null" | _ => js "undefined" end)
                       ++ js " (reading '" ++ js k ++ js "')";
                  error_stack := None |})
  | _ => Return (prop v k)
  end.

(** The expression every mutating handler computes its flag with:
    [response.success !== false && response.result !== "fail"]. *)
Definition succeeded (response : value) : M bool :=
  success <- lift (read response "success") ;;
  if is_not_false success then
    result <- lift (read response "result") ;;
    ret (is_not_string (js "fail") result)
  else ret false.

(** A string of the validated input (the schema admits nothing else
    there). *)
Definition as_str (v : value) : jsstring :=
  match v with VStr s => s | _ => [] end.

(** [items.join(sep)] for an array of strings. *)
Fixpoint join (sep : jsstring) (items : list value) : jsstring :=
  match items with
  | [] => []
  | [x] => as_str x
  | x :: rest => as_str x ++ sep ++ join sep rest
  end.

Definition array_items (v : value) : list value :=
  match v with VArr l => l | _ => [] end.

Definition empty : value := VStr [].

Fixpoint map_M {A B} (f : A -> M B) (l : list A) : M (list B) :=
  match l with
  | [] => ret []
  | x :: l' => y <- f x ;; ys <- map_M f l' ;; ret (y :: ys)
  end.

Definition no_transactions : value :=
  VObj [(js "count", VNum (Dec 0 0)); (js "transactions", VArr [])].

(** The transaction built from one row of the XML response. *)
Definition transaction_of_row (row : value) : M value :=
  id <- lift (read row "id") ;;
  ret (VObj [(js "id", id);
             (js "mbDate", prop row "mbDate");
             (js "assetId", prop row "assetId");
             (js "toAssetId", prop row "toAssetId");
             (js "targetAssetId", prop row "targetAssetId");
             (js "payType", prop row "payType");
             (js "mcid", prop row "mcid");
             (js "mbCategory", prop row "mbCategory");
             (js "mcscid", prop row "mcscid");
             (js "subCategory", prop row "subCategory");
             (js "mbContent", prop row "mbContent");
             (js "mbCash", js_or (VNum (parseFloat (prop row "mbCash")))
                                 (VNum (Dec 0 0)));
             (js "inOutCode", prop row "inOutCode");
             (js "inOutType", prop row "inOutType");
             (js "mbDetailContent", prop row "mbDetailContent")]).

(** The query of [handleTransactionList]. *)
Definition period_params (validated : value) : object :=
  [(js "startDate", prop validated "startDate");
   (js "endDate", prop validated "endDate");
   (js "mbid", prop validated "mbid");
   (js "assetId", prop validated "assetId")].

Definition handleTransactionList (input : value) : M value :=
  validated <- lift (zodParse "TransactionListInputSchema" input) ;;
  let params := period_params validated in
  rawResponse <- client_getXml httpClient (js "/getDataByPeriod") (Some params) ;;
  if negb (truthy rawResponse) || negb (truthy (prop rawResponse "dataset")) then
    ret no_transactions
  else if is_string (prop rawResponse "dataset") then
    ret no_transactions
  else
    let dataset := prop rawResponse "dataset" in
    let count := parseInt10 (js_or (prop dataset "results") (VStr (js "0"))) in
    transactions <-
      (if truthy (prop dataset "row") then
         let rows := if isArray (prop dataset "row")
                     then array_items (prop dataset "row")
                     else [prop dataset "row"] in
         map_M transaction_of_row rows
       else ret []) ;;
    ret (VObj [(js "count", VNum count); (js "transactions", VArr transactions)]).

Definition transaction_fields (validated : value) : object :=
  [(js "mbDate", prop validated "mbDate");
   (js "assetId", prop validated "assetId");
   (js "payType", prop validated "payType");
   (js "mcid", prop validated "mcid");
   (js "mbCategory", prop validated "mbCategory");
   (js "mbCash", prop validated "mbCash");
   (js "inOutCode", prop validated "inOutCode");
   (js "inOutType", prop validated "inOutType");
   (js "mcscid", js_or (prop validated "mcscid") empty);
   (js "subCategory", js_or (prop validated "subCategory") empty);
   (js "mbContent", js_or (prop validated "mbContent") empty);
   (js "mbDetailContent", js_or (prop validated "mbDetailContent") empty)].

Definition handleTransactionCreate (input : value) : M value :=
  validated <- lift (zodParse "TransactionCreateInputSchema" input) ;;
  response <- client_post httpClient (js "/create")
                (Some (transaction_fields validated)) ;;
  success <- succeeded response ;;
  ret (VObj [(js "success", VBool success);
             (js "transactionId", prop response "id");
             (js "message", prop response "message")]).

Definition handleTransactionUpdate (input : value) : M value :=
  validated <- lift (zodParse "TransactionUpdateInputSchema" input) ;;
  response <- client_post httpClient (js "/update")
                (Some ((js "id", prop validated "id") :: transaction_fields validated)) ;;
  success <- succeeded response ;;
  ret (VObj [(js "success", VBool success);
             (js "transactionId", prop validated "id");
             (js "message", prop response "message")]).

Definition handleTransactionDelete (input : value) : M value :=
  validated <- lift (zodParse "TransactionDeleteInputSchema" input) ;;
  let ids := array_items (prop validated "ids") in
  let idsString := js ":" ++ join (js ":") ids in
  response <- client_post httpClient (js "/delete")
                (Some [(js "ids", VStr idsString)]) ;;
  success <- succeeded response ;;
  ret (VObj [(js "success", VBool success);
             (js "deletedCount", VNum (Dec (Z.of_nat (List.length ids)) 0));
             (js "message", prop response "message")]).

Definition asset_fields (validated : value) : object :=
  [(js "assetGroupId", prop validated "assetGroupId");
   (js "assetGroupName", prop validated "assetGroupName");
   (js "assetName", prop validated "assetName");
   (js "assetMoney", prop validated "assetMoney");
   (js "linkAssetId", js_or (prop validated "linkAssetId") empty);
   (js "linkAssetName", js_or (prop validated "linkAssetName") empty)].

Definition handleAssetCreate (input : value) : M value :=
  validated <- lift (zodParse "AssetCreateInputSchema" input) ;;
  response <- client_post httpClient (js "/assetAdd")
                (Some (asset_fields validated)) ;;
  success <- succeeded response ;;
  ret (VObj [(js "success", VBool success);
             (js "assetId", prop response "assetId");
             (js "message", prop response "message")]).

Definition handleAssetUpdate (input : value) : M value :=
  validated <- lift (zodParse "AssetUpdateInputSchema" input) ;;
  response <- client_post httpClient (js "/assetModify")
                (Some ((js "assetId", prop validated "assetId")
                         :: asset_fields validated)) ;;
  success <- succeeded response ;;
  ret (VObj [(js "success", VBool success);
             (js "assetId", prop validated "assetId");
             (js "message", prop response "message")]).

Definition handleAssetDelete (input : value) : M value :=
  validated <- lift (zodParse "AssetDeleteInputSchema" input) ;;
  response <- client_post httpClient (js "/removeAsset")
                (Some [(js "assetId", prop validated "assetId")]) ;;
  success <- succeeded response ;;
  ret (VObj [(js "success", VBool success);
             (js "assetId", prop validated "assetId");
             (js "message", prop response "message")]).

Definition handleCardCreate (input : value) : M value :=
  validated <- lift (zodParse "CardCreateInputSchema" input) ;;
  response <- client_post httpClient (js "/addAssetCard")
                (Some [(js "cardName", prop validated "cardName");
                       (js "linkAssetId", prop validated "linkAssetId");
                       (js "linkAssetName", prop validated "linkAssetName");
                       (js "notPayMoney", prop validated "notPayMoney");
                       (js "jungsanDay", prop validated "jungsanDay");
                       (js "paymentDay", prop validated "paymentDay")]) ;;
  success <- succeeded response ;;
  ret (VObj [(js "success", VBool success);
             (js "cardId", js_or (prop response "cardId") (prop response "assetId"));
             (js "message", prop response "message")]).

Definition handleCardUpdate (input : value) : M value :=
  validated <- lift (zodParse "CardUpdateInputSchema" input) ;;
  response <- client_post httpClient (js "/modifyCard")
                (Some [(js "assetId", prop validated "assetId");
                       (js "cardName", prop validated "cardName");
                       (js "linkAssetId", prop validated "linkAssetId");
                       (js "linkAssetName", prop validated "linkAssetName");
                       (js "jungsanDay", prop validated "jungsanDay");
                       (js "paymentDay", prop validated "paymentDay")]) ;;
  success <- succeeded response ;;
  ret (VObj [(js "success", VBool success);
             (js "cardId", prop validated "assetId");
             (js "message", prop response "message")]).

Definition transfer_fields (validated : value) : object :=
  [(js "moveDate", prop validated "moveDate");
   (js "fromAssetId", prop validated "fromAssetId");
   (js "fromAssetName", prop validated "fromAssetName");
   (js "toAssetId", prop validated "toAssetId");
   (js "toAssetName", prop validated "toAssetName");
   (js "moveMoney", prop validated "moveMoney");
   (js "moneyContent", js_or (prop validated "moneyContent") empty);
   (js "mbDetailContent", js_or (prop validated "mbDetailContent") empty)].

Definition handleTransferCreate (input : value) : M value :=
  validated <- lift (zodParse "TransferCreateInputSchema" input) ;;
  response <- client_post httpClient (js "/moveAsset")
                (Some (transfer_fields validated)) ;;
  success <- succeeded response ;;
  ret (VObj [(js "success", VBool success);
             (js "transferId", js_or (prop response "transferId") (prop response "id"));
             (js "message", prop response "message")]).

(** The default message of [handleTransferUpdate]. *)
Definition transfer_update_warning : jsstring :=
  js "WARNING: The server creates a new transfer with a NEW ID. The provided ID is now invalid. Use transaction_list to get the new ID.".

Definition handleTransferUpdate (input : value) : M value :=
  validated <- lift (zodParse "TransferUpdateInputSchema" input) ;;
  response <- client_post httpClient (js "/modifyMoveAsset")
                (Some ((js "id", prop validated "id") :: transfer_fields validated)) ;;
  success <- succeeded response ;;
  ret (VObj [(js "success", VBool success);
             (js "transferId", prop validated "id");
             (js "message", js_or (prop response "message")
                                  (VStr transfer_update_warning))]).

(** [error instanceof Error ? error.message : undefined]. *)
Definition message_of_Error (t : thrown) : option jsstring :=
  match t with
  | ThrownMcp e => Some (message e)
  | ThrownAxios e _ _ => Some (error_message e)
  | ThrownError e => Some (error_message e)
  | ThrownValue _ => None
  end.

Definition handleBackupRestore (input : value) : M value :=
  validated <- lift (zodParse "BackupRestoreInputSchema" input) ;;
  try_catch
    (response <- client_uploadFile httpClient (js "/uploadSqlFile")
                   (as_str (prop validated "filePath")) (js "file") ;;
     success <- succeeded response ;;
     ret (VObj [(js "success", VBool success);
                (js "message", js_or (prop response "message")
                                     (VStr (js "Database restored successfully")))]))
    (fun error =>
       if match message_of_Error error with
          | Some m => includes m (js "File not found")
          | None => false
          end
       then throw (ThrownMcp (FileError_notFound (as_str (prop validated "filePath"))))
       else throw (ThrownMcp (wrapError error))).

(** The entries of [toolHandlers] that change the upstream state. *)
Definition mutatingHandlers : list (string * (value -> M value)) :=
  [("transaction_create"%string, handleTransactionCreate);
   ("transaction_update"%string, handleTransactionUpdate);
   ("transaction_delete"%string, handleTransactionDelete);
   ("asset_create"%string, handleAssetCreate);
   ("asset_update"%string, handleAssetUpdate);
   ("asset_delete"%string, handleAssetDelete);
   ("card_create"%string, handleCardCreate);
   ("card_update"%string, handleCardUpdate);
   ("transfer_create"%string, handleTransferCreate);
   ("transfer_update"%string, handleTransferUpdate);
   ("backup_restore"%string, handleBackupRestore)].

End Handlers.

(* ================================================================== *)
(** * The vocabulary of the properties *)
(* ================================================================== *)

(** The text is empty or made of white space only. *)
Definition blank (s : jsstring) : bool := forallb isSpace s.

(** Null and undefined, the values no property can be read from. *)
Definition nullish (v : value) : bool :=
  match v with VUndefined | VNull => true | _ => false end.

(** The beats of a call that makes [retries] retries from attempt [k]: an
    attempt, and before each further attempt a wait of [base * 2^k]. *)
Fixpoint schedule (base : number) (k : Z) (retries : nat) : list beat :=
  Attempt ::
  match retries with
  | O => []
  | S n => Wait (times_pow2 base k) :: schedule base (k + 1) n
  end.

(** The state after events [evs] and with the world [w]. *)
Definition after {World : Type} (st : Client World) (w : World)
           (evs : list event) : Client World :=
  {| world := w; this_retryCount := this_retryCount st;
     events := events st ++ evs |}.

(** The error a rejected request is classified as. *)
Definition classify (config : Config) (error : thrown) : McpError :=
  wrapError (handleResponseError config error).

(** The upstream answers every request with an empty body. *)
Definition empty_bodies {World : Type}
           (send : Request -> World -> (AxiosResponse + thrown) * World) : Prop :=
  forall r w, exists code reason w',
      send r w = (inl {| status := code; statusText := reason; data := VStr [] |}, w').

(** The plain error of [uploadFile] for a file that is not there. *)
Definition file_not_found (path : jsstring) : thrown :=
  ThrownError {| error_name := js "Error"; error_code := None;
                 error_message := js "File not found: " ++ path;
                 error_stack := None |}.

(* ================================================================== *)
(** * Concrete configurations, upstreams and engines *)
(* ================================================================== *)

(** [DEFAULT_CONFIG]. *)
Definition DEFAULT_CONFIG : Config :=
  {| baseUrl := js "http://192.168.1.1:8888";
     timeout := Dec 30000 0; retryCount := Dec 3 0; retryDelay := Dec 1000 0;
     session_persist := true; logging_level := Some level_info |}.

(** The default configuration with two and a half retries, which
    [ConfigSchema] accepts. *)
Definition HALF_CONFIG : Config :=
  {| baseUrl := js "http://192.168.1.1:8888";
     timeout := Dec 30000 0; retryCount := Dec 25 (-1); retryDelay := Dec 1000 0;
     session_persist := true; logging_level := Some level_info |}.

(** A client that has done nothing yet. *)
Definition fresh {World : Type} (w : World) : Client World :=
  {| world := w; this_retryCount := 0; events := [] |}.

(** The error axios rejects with when the response has an error status. *)
Definition status_error (status : Z) : thrown :=
  ThrownAxios {| error_name := js "AxiosError";
                 error_code := Some (js "ERR_BAD_REQUEST");
                 error_message := js "Request failed with status code " ++ dec status;
                 error_stack := None |}
              (Some status) None.

(** The error axios rejects with when the connection is refused. *)
Definition connection_refused : thrown :=
  ThrownAxios {| error_name := js "Error";
                 error_code := Some (js "ECONNREFUSED");
                 error_message := js "connect ECONNREFUSED 192.168.1.1:8888";
                 error_stack := None |}
              None None.

(** The response of status 200 with a body. *)
Definition ok_response (body : value) : AxiosResponse :=
  {| status := 200; statusText := js "OK"; data := body |}.

(** Upstreams whose world is the number of requests served so far: one that
    knows no endpoint, one that refuses the first two connections, and one
    that answers every request with the same body. *)
Definition upstream_404 (r : Request) (served : nat)
  : (AxiosResponse + thrown) * nat :=
  (inr (status_error 404), S served).

Definition upstream_recovering (body : value) (r : Request) (served : nat)
  : (AxiosResponse + thrown) * nat :=
  if Nat.ltb served 2 then (inr connection_refused, S served)
  else (inl (ok_response body), S served).

Definition upstream_answering (body : value) (r : Request) (served : nat)
  : (AxiosResponse + thrown) * nat :=
  (inl (ok_response body), S served).

(** The wording of V8 in Node 18 for the [SyntaxError] of [JSON.parse]. *)
Definition v8_message (source : jsstring) (pos : nat) : jsstring :=
  match nth_error source pos with
  | Some c => js "Unexpected token " ++ [c] ++ js " in JSON at position "
                 ++ dec (Z.of_nat pos)
  | None => js "Unexpected end of JSON input"
  end.

(** The wording of later versions of V8, which quote the text around the
    offending code unit, up to ten code units on either side, when the text
    has more than twenty. *)
Definition v8_message_with_context (source : jsstring) (pos : nat) : jsstring :=
  match nth_error source pos with
  | Some c =>
      let len := List.length source in
      let head := js "Unexpected token '" ++ [c] ++ js "', " in
      let tail := js " is not valid JSON" in
      let quote s := DQUOTE :: s ++ [DQUOTE] in
      let dots := js "..." in
      if Nat.ltb len 21 then head ++ quote source ++ tail
      else if Nat.ltb pos 10 then
        head ++ quote (firstn (pos + 10) source) ++ dots ++ tail
      else if Nat.ltb pos (len - 10) then
        head ++ dots ++ quote (firstn 20 (skipn (pos - 10) source)) ++ dots ++ tail
      else head ++ dots ++ quote (skipn (pos - 10) source) ++ tail
  | None => js "Unexpected end of JSON input"
  end.

(** An evaluator for bodies that are no JavaScript: it throws. *)
Definition no_expression (body : jsstring) : option (outcome value) := None.

(** An XML parser for bodies that are no XML: it rejects. *)
Definition no_document (xml : jsstring) : value + jsstring :=
  inr (js "Error: Non-whitespace before first tag.").

(** A validator that accepts the input as it is. *)
Definition accept_input (schema : string) (input : value) : outcome value :=
  Return input.

(** A file system that has the files listed. *)
Definition has_files (files : list jsstring) (served : nat) (path : jsstring) : bool :=
  existsb (str_eqb path) files.

(** The request of [get("/getInitData")]. *)
Definition a_request : Request :=
  {| method := GET; url := js "/getInitData"; params := None;
     payload := NoPayload; responseType := rt_text; accept := None |}.

(** A text between double quotes. *)
Definition quoted (s : string) : jsstring := DQUOTE :: js s ++ [DQUOTE].

(** A body that is neither JSON nor an object literal. *)
Definition garbled : jsstring := js "[1,2,3,4,5,6,7,8,9,10,11,12,#]".

(** A short body that is neither. *)
Definition short_garbled : jsstring := js "#oops".

(** xml2js on a document whose root [dataset] has no content: with the
    options of the client the root collapses to the empty string. *)
Definition empty_dataset (xml : jsstring) : value + jsstring :=
  inl (VObj [(js "dataset", VStr [])]).

(** A number parser for runs that parse no number. *)
Definition not_a_number (v : value) : number := NaN.

(** The client of this program over an upstream that answers every request
    with [body], a file system [fs] and an XML parser [xml2js]. *)
Definition client_over (body : value) (fs : nat -> jsstring -> bool)
           (xml2js : jsstring -> value + jsstring) : HttpClient nat :=
  createHttpClient (upstream_answering body) fs
                   v8_message no_expression xml2js DEFAULT_CONFIG.

(** A file system in which every path exists. *)
Definition every_file (served : nat) (path : jsstring) : bool := true.

(** Validated inputs of [transaction_list], [transfer_update] and
    [backup_restore]. *)
Definition a_period : value :=
  VObj [(js "startDate", VStr (js "2024-01-01"));
        (js "endDate", VStr (js "2024-01-31"));
        (js "mbid", VStr (js "book"))].

Definition a_transfer : value :=
  VObj [(js "id", VStr (js "t1"));
        (js "moveDate", VStr (js "2024-01-15"));
        (js "fromAssetId", VStr (js "a1"));
        (js "fromAssetName", VStr (js "Cash"));
        (js "toAssetId", VStr (js "a2"));
        (js "toAssetName", VStr (js "Bank"));
        (js "moveMoney", VNum (Dec 500 0))].

Definition a_backup : value :=
  VObj [(js "filePath", VStr (js "/tmp/backup.sqlite"))].

Unset Implicit Arguments.

(* ================================================================== *)
(** * More vocabulary: classification, totals, outcomes *)
(* ================================================================== *)

(** The retryability the taxonomy gives a category: network and session
    errors are retryable, API errors from status 500 on, the rest never. *)
Definition retryable_by_category (err : McpError) : bool :=
  match category err with
  | NETWORK | SESSION => true
  | API => match statusCode err with Some s => Z.leb 500 s | None => false end
  | VALIDATION | FILE | INTERNAL => false
  end.

(** The sum of two numbers, and [n * z] for an integer [z]. *)
Definition num_add (a b : number) : number :=
  match a, b with
  | Dec m1 e1, Dec m2 e2 =>
      let e := Z.min e1 e2 in
      Dec (m1 * 10 ^ (e1 - e) + m2 * 10 ^ (e2 - e)) e
  | _, _ => NaN
  end.

Definition times (n : number) (z : Z) : number :=
  match n with
  | NaN => NaN
  | Dec m e => Dec (m * z) e
  end.

(** [a <= b] on numbers. *)
Definition num_leb (a b : number) : bool :=
  match a, b with
  | Dec m1 e1, Dec m2 e2 =>
      let e := Z.min e1 e2 in
      Z.leb (m1 * 10 ^ (e1 - e)) (m2 * 10 ^ (e2 - e))
  | _, _ => false
  end.

(** [a < b] on numbers. *)
Definition num_ltb (a b : number) : bool :=
  match a, b with
  | Dec m1 e1, Dec m2 e2 =>
      let e := Z.min e1 e2 in
      Z.ltb (m1 * 10 ^ (e1 - e)) (m2 * 10 ^ (e2 - e))
  | _, _ => false
  end.

(** The sum of the waits: zero when there is none. *)
Definition total_wait (bs : list beat) : number :=
  match delays bs with
  | [] => Dec 0 0
  | first :: others => fold_left num_add others first
  end.

(** The beats of a call that makes [retries] retries from attempt [k] and,
    when [trailing], sleeps once more after its last attempt. *)
Definition call_beats (base : number) (k : Z) (retries : nat) (trailing : bool)
  : list beat :=
  schedule base k retries
    ++ (if trailing then [Wait (times_pow2 base (k + Z.of_nat retries))] else []).

(** The number is an integer. *)
Definition is_integer (n : number) : bool :=
  match n with
  | NaN => false
  | Dec m e => Z.leb 0 e || Z.eqb (m mod 10 ^ (- e)) 0
  end.

(** An outcome that, when it is a throw, throws a classified error. *)
Definition throws_only_classified {A : Type} (o : outcome A) : Prop :=
  match o with
  | Return _ => True
  | Throw t => exists e, t = ThrownMcp e
  end.

(** An outcome that, when it is a throw, throws a classified error or
    something that is [allowed]. *)
Definition throws_classified_or {A : Type} (allowed : thrown -> Prop)
           (o : outcome A) : Prop :=
  match o with
  | Return _ => True
  | Throw t => (exists e, t = ThrownMcp e) \/ allowed t
  end.

(** What is thrown is what a thenable rejects with, the thenable being what
    the evaluator builds from the body of a response that the upstream has
    sent. *)
Definition rejection_of_a_body {World : Type}
           (send : Request -> World -> (AxiosResponse + thrown) * World)
           (evalFunction : jsstring -> option (outcome value))
           (t : thrown) : Prop :=
  exists r w response w',
    send r w = (inl response, w')
    /\ evalFunction (js "return (" ++ body_text response ++ js ");")
       = Some (Throw t).

(** The number of waits of a call that makes [retries] retries. *)
Definition waits (retries : nat) (trailing : bool) : nat :=
  if trailing then S retries else retries.


(** The upstream fails every request in a way that is classified as
    retryable. *)
Definition always_failing {World : Type}
           (send : Request -> World -> (AxiosResponse + thrown) * World)
           (config : Config) (r : Request) : Prop :=
  forall w, exists e w',
      send r w = (inr e, w') /\ retryable (classify config e) = true.

(** An upstream that refuses every connection. *)
Definition upstream_refusing (r : Request) (served : nat)
  : (AxiosResponse + thrown) * nat :=
  (inr connection_refused, S served).

(* ================================================================== *)
(** * [src/tools/handlers.ts]: the handlers that read *)
(* ================================================================== *)

Section ReadingHandlers.

Variable World : Type.

Variable zodParse : string -> value -> outcome value.

(** [parseFloat(x)], the sum of two numbers, [Math.abs], and the elements a
    [for ... of] loop visits (or the [TypeError] of a value that is not
    iterable). *)
Variable parseFloat : value -> number.
Variable add : number -> number -> number.
Variable abs : number -> number.
Variable iterate : value -> outcome (list value).

Variable httpClient : HttpClient World.

Local Abbreviation M := (M World).

(** The default [[]] of a list the upstream left out. *)
Definition no_items : value := VArr [].

Definition handleInitGetData (input : value) : M value :=
  validated <- lift (zodParse "InitGetDataInputSchema" input) ;;
  let params := if truthy (prop validated "mbid")
                then [(js "mbid", prop validated "mbid")]
                else [] in
  rawResponse <- client_get httpClient (js "/getInitData") (Some params) ;;
  initData <- lift (read rawResponse "initData") ;;
  ret (VObj [(js "initData", initData);
             (js "categories",
              VObj [(js "income", js_or (prop rawResponse "category_0") no_items);
                    (js "expense", js_or (prop rawResponse "category_1") no_items)]);
             (js "paymentTypes", js_or (prop rawResponse "payType") no_items);
             (js "multiBooks", js_or (prop rawResponse "multiBooks") no_items);
             (js "assetGroups", js_or (prop rawResponse "assetGroups") no_items);
             (js "assetNames", js_or (prop rawResponse "assetNames") no_items)]).

Definition handleSummaryGetPeriod (input : value) : M value :=
  validated <- lift (zodParse "SummaryGetPeriodInputSchema" input) ;;
  rawResponse <- client_get httpClient (js "/getSummaryDataByPeriod")
                   (Some [(js "startDate", prop validated "startDate");
                          (js "endDate", prop validated "endDate")]) ;;
  summary <- lift (read rawResponse "summary") ;;
  ret (VObj [(js "summary", summary);
             (js "incomeByCategory", js_or (prop rawResponse "income") no_items);
             (js "expenseByCategory", js_or (prop rawResponse "outcome") no_items)]).

(** [toNumber]. *)
Definition toNumber (v : value) : number :=
  match v with
  | VNum n => n
  | VStr _ => let n := parseFloat v in if truthy (VNum n) then n else Dec 0 0
  | _ => Dec 0 0
  end.

(** The two nested loops of [handleAssetList] and of [handleCardList]: over
    the children of every group that has some, the total grows by the
    weighed number of the property [money] ([assetMoney] as it is,
    [notPayMoney] through [Math.abs]). *)
Fixpoint add_children (money : string) (weigh : number -> number)
         (total : number) (children : list value) : outcome number :=
  match children with
  | [] => Return total
  | child :: rest =>
      match read child money with
      | Return m => add_children money weigh (add total (weigh (toNumber m))) rest
      | Throw t => Throw t
      end
  end.

Fixpoint add_groups (money : string) (weigh : number -> number)
         (total : number) (groups : list value) : outcome number :=
  match groups with
  | [] => Return total
  | group :: rest =>
      match read group "children" with
      | Throw t => Throw t
      | Return children =>
          if truthy children then
            match iterate children with
            | Throw t => Throw t
            | Return items =>
                match add_children money weigh total items with
                | Return total' => add_groups money weigh total' rest
                | Throw t => Throw t
                end
            end
          else add_groups money weigh total rest
      end
  end.

Definition handleAssetList (input : value) : M value :=
  _ <- lift (zodParse "AssetListInputSchema" input) ;;
  rawResponse <- client_get httpClient (js "/getAssetData") None ;;
  let assetGroups := if isArray rawResponse then array_items rawResponse else [] in
  totalBalance <- lift (add_groups "assetMoney" (fun n => n) (Dec 0 0) assetGroups) ;;
  ret (VObj [(js "assetGroups", VArr assetGroups);
             (js "totalBalance", VNum totalBalance)]).

Definition handleCardList (input : value) : M value :=
  _ <- lift (zodParse "CardListInputSchema" input) ;;
  rawResponse <- client_get httpClient (js "/getCardData") None ;;
  let cardGroups := if isArray rawResponse then array_items rawResponse else [] in
  totalUnpaid <- lift (add_groups "notPayMoney" abs (Dec 0 0) cardGroups) ;;
  ret (VObj [(js "cardGroups", VArr cardGroups);
             (js "totalUnpaid", VNum totalUnpaid)]).

Definition handleDashboardGetOverview (input : value) : M value :=
  _ <- lift (zodParse "DashboardGetOverviewInputSchema" input) ;;
  rawResponse <- client_get httpClient (js "/getDashBoardData") None ;;
  assetSummary <- lift (read rawResponse "assetSummary") ;;
  ret (VObj [(js "assetSummary", assetSummary);
             (js "monthlyTrend", js_or (prop rawResponse "assetLine") no_items);
             (js "assetRatio", js_or (prop rawResponse "assetRatio") no_items);
             (js "debtRatio", js_or (prop rawResponse "debtRatio") no_items)]).

Definition handleDashboardGetAssetChart (input : value) : M value :=
  validated <- lift (zodParse "DashboardGetAssetChartInputSchema" input) ;;
  rawResponse <- client_post httpClient (js "/getEachAssetChartData")
                   (Some [(js "assetId", prop validated "assetId")]) ;;
  assetChartData <- lift (read rawResponse "assetChartData") ;;
  ret (VObj [(js "assetId", prop validated "assetId");
             (js "chartData", js_or assetChartData no_items)]).

End ReadingHandlers.

(* ================================================================== *)
(** * [src/client/http-client.ts]: the downloads *)
(* ================================================================== *)

Definition FileError_writeFailed (path : jsstring) (originalError : option jsstring)
  : McpError :=
  FileError (js "Cannot write file to '" ++ path ++ js "'") (Some path)
    (Some [(js "originalError", opt_str originalError);
           (js "operation", VStr (js "write"))]).

Section Downloads.

Variable World : Type.

(** The transport under the interceptors, as for the other methods. *)
Variable send : Request -> World -> (AxiosResponse + thrown) * World.

(** [path.dirname], [fs.existsSync], [fs.mkdirSync] with [recursive],
    [fs.writeFileSync] and the size of [fs.statSync]; the three that can fail
    answer with what they throw. *)
Variable dirname : jsstring -> jsstring.
Variable existsSync : World -> jsstring -> bool.
Variable mkdirSync : jsstring -> World -> option thrown * World.
Variable writeFileSync : jsstring -> value -> World -> option thrown * World.
Variable statSync : World -> jsstring -> Z + thrown.

Variable config : Config.

Local Abbreviation M := (M World).

(** A call of the file system that may throw. *)
Definition fs_call (f : World -> option thrown * World) : M unit :=
  fun st =>
    let (failure, w) := f (world st) in
    let st := {| world := w; this_retryCount := this_retryCount st;
                 events := events st |} in
    match failure with
    | None => (Return tt, st)
    | Some t => (Throw t, st)
    end.

(** The end that [downloadFile] and [downloadFileGet] share: make the
    directory if it is missing, write the file, read its size. *)
Definition writeDownload (outputPath : jsstring) (response : AxiosResponse)
  : M value :=
  let dir := dirname outputPath in
  _ <- (fun st => if existsSync (world st) dir
                  then ret tt st
                  else fs_call (mkdirSync dir) st) ;;
  _ <- fs_call (writeFileSync outputPath (data response)) ;;
  size <- (fun st => match statSync (world st) outputPath with
                     | inl n => (Return n, st)
                     | inr t => (Throw t, st)
                     end) ;;
  ret (VObj [(js "filePath", VStr outputPath);
             (js "fileSize", VNum (Dec size 0))]).

(** [HttpClient.downloadFile]. *)
Definition downloadFile (endpoint outputPath : jsstring) (fields : option object)
  : M value :=
  let formData := toFormData fields in
  response <- executeWithRetry config
                (client_request send config
                   {| method := POST; url := endpoint; params := None;
                      payload := formData; responseType := rt_arraybuffer;
                      accept := None |}) ;;
  writeDownload outputPath response.

(** [HttpClient.downloadFileGet]. *)
Definition downloadFileGet (endpoint outputPath : jsstring) (params : option object)
  : M value :=
  let filteredParams := filterUndefinedParams params in
  response <- executeWithRetry config
                (client_request send config
                   {| method := GET; url := endpoint; params := filteredParams;
                      payload := NoPayload; responseType := rt_arraybuffer;
                      accept := None |}) ;;
  writeDownload outputPath response.

(** The two methods of the client that the file handlers call. *)
Record FileClient := {
  client_downloadFile : jsstring -> jsstring -> option object -> M value;
  client_downloadFileGet : jsstring -> jsstring -> option object -> M value
}.

Definition createFileClient : FileClient :=
  {| client_downloadFile := downloadFile;
     client_downloadFileGet := downloadFileGet |}.

End Downloads.

Arguments client_downloadFile {World} f _ _ _ _.
Arguments client_downloadFileGet {World} f _ _ _ _.

(* ================================================================== *)
(** * [src/tools/handlers.ts]: the handlers that write files *)
(* ================================================================== *)

(** [s.endsWith(suffix)] and [s.slice(0, -n)]. *)
Definition endsWith (s suffix : jsstring) : bool :=
  str_eqb (skipn (List.length s - List.length suffix) s) suffix.

Definition slice_off (n : nat) (s : jsstring) : jsstring :=
  firstn (List.length s - n) s.

(** The note of [handleSummaryExportExcel] on a corrected extension. *)
Definition extension_note : jsstring :=
  js " (Note: Extension was changed from .xlsx to .xls because the server returns HTML-based Excel format which requires .xls extension for proper compatibility)".

Section FileHandlers.

Variable World : Type.
Variable zodParse : string -> value -> outcome value.

(** [String.prototype.toLowerCase]. *)
Variable toLowerCase : jsstring -> jsstring.

Variable fileClient : FileClient World.

Local Abbreviation M := (M World).

(** The [catch] of both file handlers: an [Error] of any kind becomes a
    write failure of the file, anything else is wrapped. *)
Definition as_write_failure (outputPath : jsstring) (error : thrown) : M value :=
  match message_of_Error error with
  | Some m => throw (ThrownMcp (FileError_writeFailed outputPath (Some m)))
  | None => throw (ThrownMcp (wrapError error))
  end.

Definition handleSummaryExportExcel (input : value) : M value :=
  validated <- lift (zodParse "SummaryExportExcelInputSchema" input) ;;
  let given := as_str (prop validated "outputPath") in
  let extensionCorrected := endsWith (toLowerCase given) (js ".xlsx") in
  let outputPath := if extensionCorrected
                    then slice_off 5 given ++ js ".xls"
                    else given in
  try_catch
    (result <- client_downloadFile fileClient (js "/getExcelFile") outputPath
                 (Some [(js "startDate", prop validated "startDate");
                        (js "endDate", prop validated "endDate");
                        (js "mbid", prop validated "mbid");
                        (js "assetId", js_or (prop validated "assetId") empty);
                        (js "inOutType", js_or (prop validated "inOutType") empty)]) ;;
     filePath <- lift (read result "filePath") ;;
     let message := js "Excel file exported successfully to " ++ as_str filePath in
     let message := if extensionCorrected then message ++ extension_note
                    else message in
     ret (VObj [(js "success", VBool true);
                (js "filePath", filePath);
                (js "fileSize", prop result "fileSize");
                (js "message", VStr message)]))
    (as_write_failure outputPath).

Definition handleBackupDownload (input : value) : M value :=
  validated <- lift (zodParse "BackupDownloadInputSchema" input) ;;
  let outputPath := as_str (prop validated "outputPath") in
  try_catch
    (result <- client_downloadFileGet fileClient (js "/money.sqlite") outputPath None ;;
     filePath <- lift (read result "filePath") ;;
     ret (VObj [(js "success", VBool true);
                (js "filePath", filePath);
                (js "fileSize", prop result "fileSize");
                (js "message",
                 VStr (js "Database backup downloaded successfully to "
                          ++ as_str filePath))]))
    (as_write_failure outputPath).

End FileHandlers.

(* ================================================================== *)
(** * More vocabulary: traces and registries *)
(* ================================================================== *)

(** The requests issued, in order. *)
Fixpoint requested (evs : list event) : list Request :=
  match evs with
  | [] => []
  | Requested r :: evs' => r :: requested evs'
  | _ :: evs' => requested evs'
  end.

(** Events that are neither a request nor a wait. *)
Definition quiet (evs : list event) : bool :=
  forallb (fun e => match e with
                    | Logged _ _ _ | CookiesSaved => true
                    | _ => false
                    end) evs.

(** The request behind [post(endpoint, fields)]. *)
Definition post_request (endpoint : jsstring) (fields : option object) : Request :=
  {| method := POST; url := endpoint; params := None;
     payload := toFormData fields; responseType := rt_text; accept := None |}.

(** The request behind [get(endpoint, params)]. *)
Definition get_request (endpoint : jsstring) (params : option object) : Request :=
  {| method := GET; url := endpoint; params := filterUndefinedParams params;
     payload := NoPayload; responseType := rt_text; accept := None |}.

(** The request behind [getXml(endpoint, params)]. *)
Definition getXml_request (endpoint : jsstring) (params : option object) : Request :=
  {| method := GET; url := endpoint; params := filterUndefinedParams params;
     payload := NoPayload; responseType := rt_text;
     accept := Some (js "text/xml") |}.

(** The identifiers of [transaction_delete] as the upstream wants them: each
    one after a colon. *)
Definition colon_list (ids : list jsstring) : jsstring :=
  List.concat (map (fun id => js ":" ++ id) ids).

(** The rows of a data set: the array, or the one row that stands alone. *)
Definition rows_of (row : value) : list value :=
  if isArray row then array_items row else [row].

(** A validator that rejects every input. *)
Definition reject_input (schema : string) (input : value) : outcome value :=
  Throw (ThrownError {| error_name := js "ZodError"; error_code := None;
                        error_message := js "[]"; error_stack := None |}).

(** ASCII letters to lower case, the rest as it is: what
    [String.prototype.toLowerCase] does on ASCII text. *)
Definition ascii_lower (s : jsstring) : jsstring :=
  map (fun c => if between 65 90 c then (c + 32)%N else c) s.

(** The entries of [toolHandlers], each with the schema it parses its input
    with. *)
Definition allHandlers {World : Type}
           (zodParse : string -> value -> outcome value)
           (parseInt10 parseFloat : value -> number)
           (add : number -> number -> number) (abs : number -> number)
           (iterate : value -> outcome (list value))
           (toLowerCase : jsstring -> jsstring)
           (httpClient : HttpClient World) (fileClient : FileClient World)
  : list (string * string * (value -> M World value)) :=
  [("init_get_data", "InitGetDataInputSchema",
    handleInitGetData World zodParse httpClient);
   ("transaction_list", "TransactionListInputSchema",
    handleTransactionList zodParse parseInt10 parseFloat httpClient);
   ("transaction_create", "TransactionCreateInputSchema",
    handleTransactionCreate zodParse httpClient);
   ("transaction_update", "TransactionUpdateInputSchema",
    handleTransactionUpdate zodParse httpClient);
   ("transaction_delete", "TransactionDeleteInputSchema",
    handleTransactionDelete zodParse httpClient);
   ("summary_get_period", "SummaryGetPeriodInputSchema",
    handleSummaryGetPeriod World zodParse httpClient);
   ("summary_export_excel", "SummaryExportExcelInputSchema",
    handleSummaryExportExcel World zodParse toLowerCase fileClient);
   ("asset_list", "AssetListInputSchema",
    handleAssetList World zodParse parseFloat add iterate httpClient);
   ("asset_create", "AssetCreateInputSchema",
    handleAssetCreate zodParse httpClient);
   ("asset_update", "AssetUpdateInputSchema",
    handleAssetUpdate zodParse httpClient);
   ("asset_delete", "AssetDeleteInputSchema",
    handleAssetDelete zodParse httpClient);
   ("card_list", "CardListInputSchema",
    handleCardList World zodParse parseFloat add abs iterate httpClient);
   ("card_create", "CardCreateInputSchema",
    handleCardCreate zodParse httpClient);
   ("card_update", "CardUpdateInputSchema",
    handleCardUpdate zodParse httpClient);
   ("transfer_create", "TransferCreateInputSchema",
    handleTransferCreate zodParse httpClient);
   ("transfer_update", "TransferUpdateInputSchema",
    handleTransferUpdate zodParse httpClient);
   ("dashboard_get_overview", "DashboardGetOverviewInputSchema",
    handleDashboardGetOverview World zodParse httpClient);
   ("dashboard_get_asset_chart", "DashboardGetAssetChartInputSchema",
    handleDashboardGetAssetChart World zodParse httpClient);
   ("backup_download", "BackupDownloadInputSchema",
    handleBackupDownload World zodParse fileClient);
   ("backup_restore", "BackupRestoreInputSchema",
    handleBackupRestore zodParse httpClient)]%string.

(** xml2js on a document with two rows. *)
Definition two_rows (xml : jsstring) : value + jsstring :=
  inl (VObj [(js "dataset",
              VObj [(js "results", VStr (js "2"));
                    (js "row",
                     VArr [VObj [(js "id", VStr (js "r1"));
                                 (js "mbCash", VStr (js "12.5"))];
                           VObj [(js "id", VStr (js "r2"));
                                 (js "mbCash", VStr (js "n/a"))]])])]).

(** The upstream answers every request with the body [null]. *)
Definition null_bodies {World : Type}
           (send : Request -> World -> (AxiosResponse + thrown) * World) : Prop :=
  forall r w, exists code reason w',
      send r w = (inl {| status := code; statusText := reason;
                         data := VStr (js "null") |}, w').

(** The upstream answers every request with the body [body]. *)
Definition answering_with {World : Type}
           (send : Request -> World -> (AxiosResponse + thrown) * World)
           (body : jsstring) : Prop :=
  forall r w, exists code reason w',
      send r w = (inl {| status := code; statusText := reason;
                         data := VStr body |}, w').

(** The [TypeError] of reading a property of [null]. *)
Definition null_has_no (k : string) : thrown :=
  ThrownError {| error_name := js "TypeError"; error_code := None;
                 error_message := js "Cannot read properties of null (reading '"
                                     ++ js k ++ js "')";
                 error_stack := None |}.

(** A validated input of [transaction_delete]. *)
Definition two_ids : value :=
  VObj [(js "ids", VArr [VStr (js "a"); VStr (js "b")])].

(** The upstream rejects every request. *)
Definition all_refused {World : Type}
           (send : Request -> World -> (AxiosResponse + thrown) * World) : Prop :=
  forall r w, exists e w', send r w = (inr e, w').

(** The requests of [downloadFile] and [downloadFileGet]. *)
Definition download_request (endpoint : jsstring) (fields : option object)
  : Request :=
  {| method := POST; url := endpoint; params := None;
     payload := toFormData fields; responseType := rt_arraybuffer;
     accept := None |}.

Definition downloadGet_request (endpoint : jsstring) (params : option object)
  : Request :=
  {| method := GET; url := endpoint; params := filterUndefinedParams params;
     payload := NoPayload; responseType := rt_arraybuffer; accept := None |}.

(** The request of [summary_export_excel] for a validated input, and that
    of [backup_download]. *)
Definition export_request (validated : value) : Request :=
  download_request (js "/getExcelFile")
    (Some [(js "startDate", prop validated "startDate");
           (js "endDate", prop validated "endDate");
           (js "mbid", prop validated "mbid");
           (js "assetId", js_or (prop validated "assetId") empty);
           (js "inOutType", js_or (prop validated "inOutType") empty)]).

Definition backup_request : Request :=
  downloadGet_request (js "/money.sqlite") None.

(** The path [summary_export_excel] writes to when it is given [given]. *)
Definition export_path (toLowerCase : jsstring -> jsstring) (given : jsstring)
  : jsstring :=
  if endsWith (toLowerCase given) (js ".xlsx")
  then slice_off 5 given ++ js ".xls"
  else given.

(** A file system on which every call succeeds, and one whose writes are
    denied. *)
Definition parent_dir (path : jsstring) : jsstring := js ".".
Definition mkdir_ok (dir : jsstring) (w : nat) : option thrown * nat := (None, w).
Definition write_ok (path : jsstring) (content : value) (w : nat)
  : option thrown * nat := (None, S w).
Definition write_denied (path : jsstring) (content : value) (w : nat)
  : option thrown * nat :=
  (Some (ThrownError {| error_name := js "Error"; error_code := Some (js "EACCES");
                        error_message := js "EACCES: permission denied";
                        error_stack := None |}), w).
Definition size_7 (w : nat) (path : jsstring) : Z + thrown := inl 7%Z.

(** Validated inputs of the two file handlers. *)
Definition an_export : value :=
  VObj [(js "startDate", VStr (js "2024-01-01"));
        (js "endDate", VStr (js "2024-01-31"));
        (js "mbid", VStr (js "book"));
        (js "outputPath", VStr (js "out/Report.XLSX"))].

Definition a_download : value :=
  VObj [(js "outputPath", VStr (js "out/money.sqlite"))].

(** The children a group is visited for, and the groups whose nested loops
    run through: every group can be read, its [children] is falsy or an
    array, and every child can be read. *)
Definition children_of (group : value) : list value :=
  array_items (prop group "children").

Definition readable_groups (groups : list value) : Prop :=
  Forall (fun group =>
            nullish group = false
            /\ (truthy (prop group "children") = false
                \/ isArray (prop group "children") = true)
            /\ Forall (fun child => nullish child = false) (children_of group))
         groups.

(** The total over the children of all groups, in the order of the loops. *)
Definition money_sum (add : number -> number -> number)
           (amount : value -> number) (money : string) (groups : list value)
  : number :=
  fold_left (fun total child => add total (amount (prop child money)))
            (flat_map children_of groups) (Dec 0 0).

(** The elements a [for ... of] loop visits in an array. *)
Definition iterate_array (v : value) : outcome (list value) :=
  match v with
  | VArr items => Return items
  | _ => Throw (ThrownError {| error_name := js "TypeError"; error_code := None;
                               error_message := js "children is not iterable";
                               error_stack := None |})
  end.

(** An addition and an absolute value of whole numbers. *)
Definition add_whole (a b : number) : number :=
  match a, b with
  | Dec m 0, Dec n 0 => Dec (m + n) 0
  | _, _ => NaN
  end.

Definition abs_whole (a : number) : number :=
  match a with
  | Dec m e => Dec (Z.abs m) e
  | NaN => NaN
  end.

(** Two groups of assets, the second without children. *)
Definition some_groups : list value :=
  [VObj [(js "children", VArr [VObj [(js "assetMoney", VNum (Dec 5 0));
                                     (js "notPayMoney", VNum (Dec (-5) 0))];
                               VObj [(js "assetMoney", VNum (Dec 7 0));
                                     (js "notPayMoney", VNum (Dec 7 0))]])];
   VObj [(js "assetGroupName", VStr (js "Empty"))]].

(** A client whose [get] answers with the groups above. *)
Definition groups_client : HttpClient nat :=
  {| client_get := fun endpoint params st => (Return (VArr some_groups), st);
     client_getXml := fun endpoint params st => (Return (VObj []), st);
     client_post := fun endpoint fields st => (Return (VObj []), st);
     client_uploadFile := fun endpoint path field st => (Return (VObj []), st) |}.

(* ================================================================== *)
(** * [src/config/index.ts]: the sources of the configuration *)
(* ================================================================== *)

Module ConfigLoader.

(** [DEFAULT_CONFIG], as the object the merge starts from. *)
Definition DEFAULT_CONFIG : value :=
  VObj [(js "server",
         VObj [(js "baseUrl", VStr (js "http://192.168.1.1:8888"));
               (js "timeout", VNum (Dec 30000 0));
               (js "retryCount", VNum (Dec 3 0));
               (js "retryDelay", VNum (Dec 1000 0))]);
        (js "session",
         VObj [(js "persist", VBool true);
               (js "cookieFile", VStr (js ".session-cookies.json"))]);
        (js "logging",
         VObj [(js "level", VStr (js "info"));
               (js "format", VStr (js "json"))]);
        (js "defaults",
         VObj [(js "dateFormat", VStr (js "YYYY-MM-DD"))])].

(** [a ?? b] and [v?.k]. *)
Definition nullish_or (a b : value) : value :=
  match a with VUndefined | VNull => b | _ => a end.

Definition opt_prop (v : value) (k : string) : value :=
  match v with VUndefined | VNull => VUndefined | _ => prop v k end.

(** The fields [...v] spreads into an object literal, for an object or
    [undefined], and an object literal written after a spread. *)
Definition spread (v : value) : object :=
  match v with VObj o => o | _ => [] end.

Definition literal (spreaded : object) (fields : object) : value :=
  VObj (fold_left (fun o kv => obj_set (fst kv) (snd kv) o) fields spreaded).

(** [o[k] = v] on an object. *)
Definition assign (o : value) (k : string) (v : value) : value :=
  match o with VObj fields => VObj (obj_set (js k) v fields) | _ => o end.

(** What [loadConfigFile] finds at the path of the configuration file. *)
Inductive ConfigFile :=
| Absent
| Unreadable
| Content (fileContent : jsstring).

(** [loadConfigFile]: the parsed content, or [{}] when there is no file or
    reading or parsing it throws. *)
Definition loadConfigFile (file : ConfigFile) : value :=
  match file with
  | Absent => VObj []
  | Unreadable => VObj []
  | Content fileContent =>
      match JSON.parse fileContent with
      | JSON.Parsed v => v
      | JSON.SyntaxError _ => VObj []
      end
  end.

(** [process.env[name]] where it is truthy. *)
Definition set_in (env : string -> option jsstring) (name : string)
  : option jsstring :=
  match env name with
  | Some [] => None
  | found => found
  end.

Section Environment.

(** [parseInt(x, 10)]. *)
Variable parseInt10 : value -> number.

Variable env : string -> option jsstring.

Local Abbreviation default_server := (opt_prop (prop DEFAULT_CONFIG "server")).

(** [loadEnvConfig]. *)
Definition loadEnvConfig : value :=
  let envConfig := VObj [] in
  let envConfig :=
    match set_in env "MONEY_MANAGER_BASE_URL" with
    | Some url =>
        assign envConfig "server"
          (literal (spread (prop envConfig "server"))
             [(js "baseUrl", VStr url);
              (js "timeout",
               nullish_or (default_server "timeout") (VNum (Dec 30000 0)));
              (js "retryCount",
               nullish_or (default_server "retryCount") (VNum (Dec 3 0)));
              (js "retryDelay",
               nullish_or (default_server "retryDelay") (VNum (Dec 1000 0)))])
    | None => envConfig
    end in
  let envConfig :=
    match set_in env "MONEY_MANAGER_TIMEOUT" with
    | Some text =>
        assign envConfig "server"
          (literal (spread (prop envConfig "server"))
             [(js "baseUrl",
               nullish_or (opt_prop (prop envConfig "server") "baseUrl")
                 (nullish_or (default_server "baseUrl")
                             (VStr (js "http://192.168.1.100:8888"))));
              (js "timeout", VNum (parseInt10 (VStr text)));
              (js "retryCount",
               nullish_or (default_server "retryCount") (VNum (Dec 3 0)));
              (js "retryDelay",
               nullish_or (default_server "retryDelay") (VNum (Dec 1000 0)))])
    | None => envConfig
    end in
  let envConfig :=
    match set_in env "MONEY_MANAGER_RETRY_COUNT" with
    | Some text =>
        assign envConfig "server"
          (literal (spread (prop envConfig "server"))
             [(js "baseUrl",
               nullish_or (opt_prop (prop envConfig "server") "baseUrl")
                 (nullish_or (default_server "baseUrl")
                             (VStr (js "http://192.168.1.100:8888"))));
              (js "timeout",
               nullish_or (opt_prop (prop envConfig "server") "timeout")
                 (nullish_or (default_server "timeout") (VNum (Dec 30000 0))));
              (js "retryCount", VNum (parseInt10 (VStr text)));
              (js "retryDelay",
               nullish_or (default_server "retryDelay") (VNum (Dec 1000 0)))])
    | None => envConfig
    end in
  let envConfig :=
    match set_in env "MONEY_MANAGER_LOG_LEVEL" with
    | Some level =>
        assign envConfig "logging"
          (literal (spread (prop envConfig "logging"))
             [(js "level", VStr level);
              (js "format",
               nullish_or (opt_prop (prop DEFAULT_CONFIG "logging") "format")
                          (VStr (js "json")))])
    | None => envConfig
    end in
  let envConfig :=
    match set_in env "MONEY_MANAGER_SESSION_PERSIST" with
    | Some text =>
        assign envConfig "session"
          (literal (spread (prop envConfig "session"))
             [(js "persist", VBool (str_eqb text (js "true")));
              (js "cookieFile",
               nullish_or (opt_prop (prop DEFAULT_CONFIG "session") "cookieFile")
                          (VStr (js ".session-cookies.json")))])
    | None => envConfig
    end in
  envConfig.

End Environment.

(** ** The objects of the merge

    [deepMerge] reads and writes the properties of its [result] with
    [result[key]], which follows the chain of prototypes, and the key
    [__proto__], which [JSON.parse] makes an own property of a source,
    reaches the accessor of [Object.prototype] when it is read or written
    on a [result] that has no such own property.  So the objects of the
    merge carry their prototype. *)

(** A value of the merge: an object has its own properties, in the order
    they were made, and its prototype, which is an object, an array or
    [null]; the last constructor is the object [Object.prototype].  The
    prototype of an array is [Array.prototype]. *)
Inductive data :=
| DUndefined
| DNull
| DBool (b : bool)
| DNum (n : number)
| DStr (s : jsstring)
| DArr (items : list data)
| DObj (own : list (jsstring * data)) (prototype : data)
| ObjectPrototype.

(** A value of a source, which a literal or [JSON.parse] has made: every
    object in it has the prototype [Object.prototype]. *)
Fixpoint of_value (v : value) : data :=
  match v with
  | VUndefined => DUndefined
  | VNull => DNull
  | VBool b => DBool b
  | VNum n => DNum n
  | VStr s => DStr s
  | VArr items => DArr (map of_value items)
  | VObj props => DObj (map (fun kv => (fst kv, of_value (snd kv))) props)
                       ObjectPrototype
  end.

(** The own property [k] of a list of properties, and the list after the
    property has been defined: an existing property keeps its place, a new
    one goes last. *)
Fixpoint assoc {A : Type} (k : jsstring) (o : list (jsstring * A)) : option A :=
  match o with
  | [] => None
  | (k', v) :: o' => if str_eqb k k' then Some v else assoc k o'
  end.

Fixpoint define {A : Type} (k : jsstring) (v : A) (o : list (jsstring * A))
  : list (jsstring * A) :=
  match o with
  | [] => [(k, v)]
  | (k', v') :: o' =>
      if str_eqb k k' then (k, v) :: o' else (k', v') :: define k v o'
  end.

(** The key that reaches the accessor of [Object.prototype]. *)
Definition proto_key : jsstring := js "__proto__".

(** The array index a key is, if it is one: a decimal numeral without a
    leading zero, up to 2^32 - 2. *)
Fixpoint numeral (acc : N) (s : jsstring) : option N :=
  match s with
  | [] => Some acc
  | c :: s' => if between 48 57 c then numeral (acc * 10 + (c - 48)) s' else None
  end.

Definition array_index (k : jsstring) : option N :=
  match k with
  | [] => None
  | c :: rest =>
      if N.eqb c 48 && negb (Nat.eqb (List.length rest) 0) then None
      else match numeral 0 k with
           | Some n => if N.leb n 4294967294 then Some n else None
           | None => None
           end
  end.

(** The order in which [for ... in] visits the own properties of an object:
    the array indices in ascending order, then the other keys in the order
    they were made. *)
Fixpoint insert_index {A : Type} (i : N) (entry : jsstring * A)
         (sorted : list (N * (jsstring * A))) : list (N * (jsstring * A)) :=
  match sorted with
  | [] => [(i, entry)]
  | (j, other) :: rest =>
      if N.leb i j then (i, entry) :: sorted
      else (j, other) :: insert_index i entry rest
  end.

Fixpoint indexed {A : Type} (entries : list (jsstring * A))
  : list (N * (jsstring * A)) :=
  match entries with
  | [] => []
  | entry :: rest =>
      match array_index (fst entry) with
      | Some i => insert_index i entry (indexed rest)
      | None => indexed rest
      end
  end.

Definition named {A : Type} (entries : list (jsstring * A)) : list (jsstring * A) :=
  filter (fun entry => match array_index (fst entry) with
                       | Some _ => false
                       | None => true
                       end) entries.

Definition for_in {A : Type} (entries : list (jsstring * A)) : list (jsstring * A) :=
  map snd (indexed entries) ++ named entries.

(** [{...target}]: the own properties of an object; [Object.prototype] has
    none that a spread copies. *)
Definition own_properties (target : data) : list (jsstring * data) :=
  match target with
  | DObj own _ => own
  | _ => []
  end.

(** The element of an array at a key that is an index within its length. *)
Definition element (items : list data) (key : jsstring) : option data :=
  match array_index key with
  | Some i => nth_error items (N.to_nat i)
  | None => None
  end.

(** [result[key]] from [holder] upwards, for a [result] with the prototype
    [receiver_prototype]: the value of the first property along the chain.
    At [Object.prototype], and at [Array.prototype] before it, the key
    [__proto__] is the accessor, which answers the prototype of [result];
    every other property of the two is a function or a number, and like
    [undefined] nothing that [deepMerge] merges into: the answer is [None]
    for all of these. *)
Fixpoint get_from (receiver_prototype holder : data) (key : jsstring)
  : option data :=
  match holder with
  | DObj own above =>
      match assoc key own with
      | Some v => Some v
      | None => get_from receiver_prototype above key
      end
  | DArr items =>
      match element items key with
      | Some v => Some v
      | None => if str_eqb key proto_key then Some receiver_prototype else None
      end
  | ObjectPrototype =>
      if str_eqb key proto_key then Some receiver_prototype else None
  | _ => None
  end.

Definition get (result : data) (key : jsstring) : option data :=
  match result with
  | DObj _ above => get_from above result key
  | _ => None
  end.

(** The chain from [holder] upwards reaches the accessor [__proto__] of
    [Object.prototype] before any data property of that name. *)
Fixpoint reaches_accessor (holder : data) : bool :=
  match holder with
  | DObj own above =>
      match assoc proto_key own with
      | Some _ => false
      | None => reaches_accessor above
      end
  | DArr _ => true
  | ObjectPrototype => true
  | _ => false
  end.

(** [result[key] = v].  A write through the accessor [__proto__] sets the
    prototype when [v] is an object, an array or [null], and does nothing
    otherwise; every other write defines an own property, since every
    other property on a chain is a writable data property. *)
Definition set (result : data) (key : jsstring) (v : data) : data :=
  match result with
  | DObj own above =>
      if str_eqb key proto_key && reaches_accessor result then
        match v with
        | DObj _ _ | DArr _ | DNull | ObjectPrototype => DObj own v
        | _ => result
        end
      else DObj (define key v own) above
  | _ => result
  end.

(** [targetValue !== null && typeof targetValue === "object" &&
    !Array.isArray(targetValue)]. *)
Definition mergeable (targetValue : data) : bool :=
  match targetValue with
  | DObj _ _ | ObjectPrototype => true
  | _ => false
  end.

(** The body of the loop of [deepMerge] for one key of the source;
    [merge_into targetValue] is [deepMerge(targetValue, sourceValue)]. *)
Definition merge_field (result : data) (key : jsstring) (sourceValue : value)
           (merge_into : data -> data) : data :=
  match sourceValue with
  | VObj _ =>
      match get result key with
      | Some targetValue =>
          if mergeable targetValue then set result key (merge_into targetValue)
          else set result key (of_value sourceValue)
      | None => set result key (of_value sourceValue)
      end
  | VUndefined => result
  | _ => set result key (of_value sourceValue)
  end.

(** The loop of [deepMerge] over the properties of the source, each with
    its own [deepMerge]. *)
Definition merge_fields (entries : list (jsstring * (value * (data -> data))))
           (result : data) : data :=
  fold_left (fun result entry =>
               merge_field result (fst entry) (fst (snd entry)) (snd (snd entry)))
            (for_in entries) result.

(** [deepMerge]: the result starts as a new object with the own properties
    of the target, and the loop runs over the own properties of the source,
    which are the indices for an array and for a string; there are none for
    any other value that is no object. *)
Fixpoint deepMerge (target : data) (source : value) {struct source} : data :=
  let result := DObj (own_properties target) ObjectPrototype in
  match source with
  | VObj fields =>
      merge_fields
        ((fix each (fields : object) : list (jsstring * (value * (data -> data))) :=
            match fields with
            | [] => []
            | (key, sourceValue) :: rest =>
                (key, (sourceValue,
                       fun targetValue => deepMerge targetValue sourceValue))
                  :: each rest
            end) fields)
        result
  | VArr items =>
      (fix each (items : list value) (index : nat) (result : data)
           {struct items} : data :=
         match items with
         | [] => result
         | sourceValue :: rest =>
             each rest (S index)
                  (merge_field result (dec (Z.of_nat index)) sourceValue
                               (fun targetValue => deepMerge targetValue sourceValue))
         end) items 0%nat result
  | VStr units =>
      (fix each (units : jsstring) (index : nat) (result : data)
           {struct units} : data :=
         match units with
         | [] => result
         | unit :: rest =>
             each rest (S index)
                  (set result (dec (Z.of_nat index)) (DStr [unit]))
         end) units 0%nat result
  | _ => result
  end.

(** The [mergedConfig] of [loadConfig]. *)
Definition mergedConfig (parseInt10 : value -> number)
           (env : string -> option jsstring) (file : ConfigFile) : data :=
  let fileConfig := loadConfigFile file in
  let envConfig := loadEnvConfig parseInt10 env in
  deepMerge (deepMerge (of_value DEFAULT_CONFIG) fileConfig) envConfig.

End ConfigLoader.

(** The own property [k] of a value of the merge, [undefined] when it has
    none. *)
Definition own_prop (v : ConfigLoader.data) (k : string) : ConfigLoader.data :=
  match ConfigLoader.assoc (js k) (ConfigLoader.own_properties v) with
  | Some x => x
  | None => ConfigLoader.DUndefined
  end.

(** The source of one property of an object, with its own [deepMerge]. *)
Definition with_merge (kv : jsstring * value)
  : jsstring * (value * (ConfigLoader.data -> ConfigLoader.data)) :=
  (fst kv, (snd kv, fun targetValue => ConfigLoader.deepMerge targetValue (snd kv))).

(** The loop of [deepMerge] over a list of properties, in the order of the
    list. *)
Definition steps
           (entries : list (jsstring * (value * (ConfigLoader.data -> ConfigLoader.data))))
           (result : ConfigLoader.data) : ConfigLoader.data :=
  fold_left (fun result entry =>
               ConfigLoader.merge_field result (fst entry) (fst (snd entry))
                                        (snd (snd entry)))
            entries result.

(** What [deepMerge] leaves at a key that the source has with [sourceValue],
    where the target has [targetValue] or nothing. *)
Definition merged_value (sourceValue : value)
           (targetValue : option ConfigLoader.data) : option ConfigLoader.data :=
  match sourceValue with
  | VUndefined => targetValue
  | VObj _ =>
      match targetValue with
      | Some t => if ConfigLoader.mergeable t
                  then Some (ConfigLoader.deepMerge t sourceValue)
                  else Some (ConfigLoader.of_value sourceValue)
      | None => Some (ConfigLoader.of_value sourceValue)
      end
  | _ => Some (ConfigLoader.of_value sourceValue)
  end.

(** A value that is a setting: defined, and no object to merge into. *)
Definition setting (v : value) : bool :=
  match v with VUndefined | VObj _ => false | _ => true end.

(** The keys of an object are distinct. *)
Definition distinct_keys (o : object) : Prop := NoDup (map fst o).

(** An environment given by the variables that are set. *)
Definition environment (vars : list (string * string)) (name : string)
  : option jsstring :=
  match find (fun kv => String.eqb (fst kv) name) vars with
  | Some kv => Some (js (snd kv))
  | None => None
  end.

(** [parseInt] of the decimal numerals the examples use. *)
Definition parse_numeral (v : value) : number :=
  match v with
  | VStr s => if str_eqb s (js "5000") then Dec 5000 0
              else if str_eqb s (js "7") then Dec 7 0 else NaN
  | _ => NaN
  end.

(** A configuration file that sets its own server. *)
Definition a_config_file : ConfigLoader.ConfigFile :=
  ConfigLoader.Content
    (js "{" ++ quoted "server" ++ js ":{"
        ++ quoted "baseUrl" ++ js ":" ++ quoted "http://10.0.0.2:8888"
        ++ js "," ++ quoted "retryDelay" ++ js ":250}}").

(** A configuration file with a key [__proto__] before a block [extra], and
    the same file with its two keys the other way round. *)
Definition a_proto_file : ConfigLoader.ConfigFile :=
  ConfigLoader.Content
    (js "{" ++ quoted "__proto__" ++ js ":{" ++ quoted "extra" ++ js ":{"
        ++ quoted "a" ++ js ":1}}," ++ quoted "extra" ++ js ":{"
        ++ quoted "b" ++ js ":2}}").

Definition a_late_proto_file : ConfigLoader.ConfigFile :=
  ConfigLoader.Content
    (js "{" ++ quoted "extra" ++ js ":{" ++ quoted "b" ++ js ":2},"
        ++ quoted "__proto__" ++ js ":{" ++ quoted "extra" ++ js ":{"
        ++ quoted "a" ++ js ":1}}}").

(* ================================================================== *)
(** * Object literals with string values *)
(* ================================================================== *)

(** A key the two key-quoting patterns capture: a letter or an underscore,
    then letters, digits and underscores. *)
Definition identifier (id : jsstring) : bool :=
  match id with
  | c :: rest => isIdentStart c && forallb isIdentPart rest
  | [] => false
  end.

(** A code unit that stands for itself in a string literal and that no step
    of the normalization looks at: no quote, no backslash, no opener, no
    line terminator and no control character. *)
Definition plain_unit (c : code_unit) : bool :=
  negb (among c [39; 34; 92]%N) && negb (isOpener c)
  && negb (isLineTerminator c) && negb (N.ltb c 32).

(** A field whose key is an identifier and whose value is made of plain
    code units. *)
Definition plain_field (kv : jsstring * jsstring) : bool :=
  identifier (fst kv) && forallb plain_unit (snd kv).

(** The text of a field: the key, between double quotes or bare, a colon,
    and the value between quotes [q]. *)
Definition field_text (q : code_unit) (quoteKeys : bool) (kv : jsstring * jsstring)
  : jsstring :=
  (if quoteKeys then DQUOTE :: fst kv ++ [DQUOTE] else fst kv)
    ++ COLON :: q :: snd kv ++ [q].

(** The fields of an object, each after its opener: [open] for the first
    and a comma for the others. *)
Fixpoint fields_text (q : code_unit) (quoteKeys : bool) (open : code_unit)
         (fields : list (jsstring * jsstring)) : jsstring :=
  match fields with
  | [] => []
  | kv :: rest =>
      open :: field_text q quoteKeys kv ++ fields_text q quoteKeys 44%N rest
  end.

Definition object_text (q : code_unit) (quoteKeys : bool)
           (fields : list (jsstring * jsstring)) : jsstring :=
  match fields with
  | [] => [123; 125]%N
  | _ => fields_text q quoteKeys 123%N fields ++ [125%N]
  end.

(** The object literal the upstream writes, with bare keys and single
    quotes, and the JSON text of the same fields. *)
Definition literal_text : list (jsstring * jsstring) -> jsstring :=
  object_text SQUOTE false.

Definition json_text : list (jsstring * jsstring) -> jsstring :=
  object_text DQUOTE true.

(** The object the fields denote: a repeated key keeps its first place and
    takes its last value. *)
Definition object_of (fields : list (jsstring * jsstring)) : value :=
  VObj (fold_left (fun o kv => obj_set (fst kv) (VStr (snd kv)) o) fields []).

(* ================================================================== *)
(** * Properties of the response decoder *)
(* ================================================================== *)

Lemma trimStart_blank (s : jsstring) : blank s = true -> trimStart s = [].
Proof.
  induction s as [|c s IH]; simpl; [reflexivity|].
  destruct (isSpace c); simpl; [exact IH | discriminate].
Qed.

Lemma trim_blank (s : jsstring) : blank s = true -> trim s = [].
Proof.
  intros H. unfold trim, trimEnd. rewrite (trimStart_blank s H). reflexivity.
Qed.

Lemma trimStart_nil_blank (s : jsstring) : trimStart s = [] -> blank s = true.
Proof.
  induction s as [|c s IH]; simpl; [reflexivity|].
  destruct (isSpace c); simpl; [exact IH | discriminate].
Qed.

Lemma trimStart_head (s : jsstring) :
  trimStart s = [] \/ exists c t, trimStart s = c :: t /\ isSpace c = false.
Proof.
  induction s as [|c s IH]; simpl; [left; reflexivity|].
  destruct (isSpace c) eqn:E; [exact IH|].
  right. exists c, s. split; [reflexivity | exact E].
Qed.

Lemma blank_rev (s : jsstring) : blank (rev s) = true -> blank s = true.
Proof.
  unfold blank. rewrite !forallb_forall. intros H x Hx.
  apply H. apply in_rev. rewrite rev_involutive. exact Hx.
Qed.

Lemma trim_nil_blank (s : jsstring) : trim s = [] -> blank s = true.
Proof.
  unfold trim, trimEnd. intros H.
  assert (Hr : trimStart (rev (trimStart s)) = []).
  { rewrite <- (rev_involutive (trimStart (rev (trimStart s)))), H. reflexivity. }
  apply trimStart_nil_blank, blank_rev in Hr.
  destruct (trimStart_head s) as [E | (c & t & E & Hc)].
  - apply trimStart_nil_blank; exact E.
  - rewrite E in Hr. simpl in Hr. rewrite Hc in Hr. discriminate.
Qed.

Lemma str_eqb_nil (s : jsstring) : str_eqb s [] = true <-> s = [].
Proof. destruct s; simpl; split; congruence. Qed.

(** The test that opens both decoders: [!text || text.trim() === ""]. *)
Lemma blank_test (s : jsstring) :
  (match s with [] => true | _ => false end || str_eqb (trim s) []) = blank s.
Proof.
  destruct (blank s) eqn:B.
  - rewrite (trim_blank s B). apply orb_true_r.
  - destruct s as [|c s]; [discriminate|]. simpl orb.
    destruct (str_eqb (trim (c :: s)) []) eqn:E; [|reflexivity].
    apply str_eqb_nil, trim_nil_blank in E. congruence.
Qed.

(** The white-space code units, one by one. *)
Lemma isSpace_cases (c : code_unit) :
  isSpace c = true ->
  (In c [9; 11; 12; 32; 160; 5760; 8239; 8287; 12288; 65279; 10; 13; 8232; 8233]
   \/ (8192 <= c <= 8202))%N.
Proof.
  unfold isSpace, isWhiteSpace, isLineTerminator, among, between. simpl.
  rewrite !orb_true_iff, !andb_true_iff, !N.eqb_eq, !N.leb_le.
  intros H. simpl.
  repeat match goal with H : _ \/ _ |- _ => destruct H end;
    try (subst c; left; tauto); try discriminate.
  right; lia.
Qed.

(** Where a value must start, white space is skipped when JSON knows it and
    is an error otherwise. *)
Lemma step_value_space stack first (c : code_unit) :
  isSpace c = true ->
  JSON.step_value stack first c = Some (stack, JSON.MValue first)
  \/ JSON.step_value stack first c = None.
Proof.
  intros H. apply isSpace_cases in H. destruct H as [H | H].
  - simpl in H.
    repeat match goal with H : _ \/ _ |- _ => destruct H end;
      try contradiction; subst c;
      first [ left; reflexivity | right; reflexivity ].
  - right. unfold JSON.step_value, JSON.isJsonSpace, among. simpl.
    repeat match goal with
           | |- context [N.eqb c ?k] =>
               destruct (N.eqb_spec c k) as [E | _]; [lia |]
           end.
    simpl. unfold JSON.step_number, JSON.digit, between.
    replace (N.leb c 57) with false by (symmetry; apply N.leb_gt; lia).
    rewrite andb_false_r. reflexivity.
Qed.

(** No blank text is JSON. *)
Lemma JSON_run_blank (s : jsstring) (pos : nat) :
  blank s = true ->
  exists p, JSON.run ([], JSON.MValue false) pos s = JSON.SyntaxError p.
Proof.
  revert pos. induction s as [|c s IH]; intros pos H; simpl.
  - eexists; reflexivity.
  - simpl in H. apply andb_true_iff in H. destruct H as [Hc Hs].
    destruct (step_value_space [] false c Hc) as [E | E]; rewrite E.
    + apply IH; exact Hs.
    + eexists; reflexivity.
Qed.

Lemma JSON_parse_not_blank (s : jsstring) (v : value) :
  JSON.parse s = JSON.Parsed v -> blank s = false.
Proof.
  intros H. destruct (blank s) eqn:B; [|reflexivity].
  destruct (JSON_run_blank s 0 B) as [p E].
  unfold JSON.parse in H. congruence.
Qed.

Section Decoder.

Variable World : Type.
Variable config : Config.

(** A line at the level [error] passes every configured level. *)
Lemma log_error_emits (message : jsstring) (args : list jsstring)
      (st : Client World) :
  log config level_error message args st
  = emit (Logged level_error message args) st.
Proof.
  unfold log. destruct (logging_level config) as [[]|]; reflexivity.
Qed.

End Decoder.

(* ================================================================== *)
(** * Properties of the resilient request executor *)
(* ================================================================== *)

Lemma beats_app (a b : list event) : beats (a ++ b) = beats a ++ beats b.
Proof.
  induction a as [|e a IH]; simpl; [reflexivity|].
  destruct e; simpl; rewrite ?IH; reflexivity.
Qed.

Lemma attempts_schedule (base : number) (k : Z) (n : nat) :
  attempts (schedule base k n) = S n.
Proof.
  revert k. induction n as [|n IH]; intros k; simpl; [reflexivity|].
  f_equal. apply IH.
Qed.

Lemma attempts_app (a b : list beat) : attempts (a ++ b) = (attempts a + attempts b)%nat.
Proof.
  induction a as [|x a IH]; simpl; [reflexivity|].
  destruct x; simpl; rewrite IH; reflexivity.
Qed.

Lemma delays_app (a b : list beat) : delays (a ++ b) = delays a ++ delays b.
Proof.
  induction a as [|x a IH]; simpl; [reflexivity|].
  destruct x; simpl; rewrite IH; reflexivity.
Qed.

(** ** Numbers *)

Lemma pow10_pos (p : Z) : (0 <= p -> 0 < 10 ^ p)%Z.
Proof. intros H. apply Z.pow_pos_nonneg; lia. Qed.

(** The test of the loop: [k <= n] is [k <= floor n]. *)
Lemma int_leb_num_floor (k m e : Z) :
  int_leb_num k (Dec m e) = Z.leb k (floor (Dec m e)).
Proof.
  unfold int_leb_num, floor. destruct (Z.leb 0 e) eqn:E; [reflexivity|].
  apply Z.leb_gt in E.
  assert (D : (0 < 10 ^ (- e))%Z) by (apply pow10_pos; lia).
  apply eq_iff_eq_true. rewrite !Z.leb_le. split; intros H.
  - apply Z.div_le_lower_bound; [exact D | lia].
  - pose proof (Z.mul_div_le m (10 ^ (- e)) D). nia.
Qed.

(** The exit test [n <= k] below the floor of [n]: it holds at the floor,
    and only when [n] is an integer. *)
Lemma num_leb_int_floor (k m e : Z) :
  (k <= floor (Dec m e))%Z ->
  num_leb_int (Dec m e) k = Z.eqb k (floor (Dec m e)) && is_integer (Dec m e).
Proof.
  unfold num_leb_int, floor, is_integer. destruct (Z.leb 0 e) eqn:E; intros H.
  - simpl orb. rewrite andb_true_r. apply eq_iff_eq_true.
    rewrite Z.leb_le, Z.eqb_eq. lia.
  - apply Z.leb_gt in E. simpl orb.
    assert (D : (0 < 10 ^ (- e))%Z) by (apply pow10_pos; lia).
    pose proof (Z.div_mod m (10 ^ (- e)) ltac:(lia)) as Q.
    pose proof (Z.mod_pos_bound m (10 ^ (- e)) D) as R.
    apply eq_iff_eq_true. rewrite andb_true_iff, Z.leb_le, !Z.eqb_eq. split.
    + intros L. split; nia.
    + intros [-> Z0]. nia.
Qed.

Lemma num_ltb_same (a b e : Z) : num_ltb (Dec a e) (Dec b e) = Z.ltb a b.
Proof.
  unfold num_ltb. rewrite Z.min_id, Z.sub_diag. simpl. rewrite !Z.mul_1_r.
  reflexivity.
Qed.

Lemma num_leb_same (a b e : Z) : num_leb (Dec a e) (Dec b e) = Z.leb a b.
Proof.
  unfold num_leb. rewrite Z.min_id, Z.sub_diag. simpl. rewrite !Z.mul_1_r.
  reflexivity.
Qed.

(** What [ConfigSchema] gives about the count of retries and the base
    delay: the count is a number from 0 to 10, the delay a positive number
    up to 10000. *)
Lemma ConfigSchema_bounds (c : Config) :
  ConfigSchema c = true ->
  (exists m e, retryCount c = Dec m e
               /\ (0 <= floor (Dec m e) <= 10)%Z
               /\ (is_integer (Dec m e) = false -> floor (Dec m e) < 10)%Z)
  /\ (exists m e, retryDelay c = Dec m e /\ (0 < m)%Z
                  /\ num_leb_int (Dec m e) 10000 = true).
Proof.
  unfold ConfigSchema, number_min_max. rewrite !andb_true_iff.
  intros [[_ [C1 C2]] [D1 D2]]. split.
  - destruct (retryCount c) as [|m e]; [discriminate|]. exists m, e.
    split; [reflexivity|].
    rewrite int_leb_num_floor in C1. apply Z.leb_le in C1.
    unfold num_leb_int in C2. unfold floor, is_integer in *.
    destruct (Z.leb 0 e) eqn:E.
    + apply Z.leb_le in C2. split; [lia | discriminate].
    + apply Z.leb_gt in E. apply Z.leb_le in C2.
      assert (D : (0 < 10 ^ (- e))%Z) by (apply pow10_pos; lia).
      pose proof (Z.div_mod m (10 ^ (- e)) ltac:(lia)) as Q.
      pose proof (Z.mod_pos_bound m (10 ^ (- e)) D) as R.
      simpl orb. split.
      * split; [lia|]. apply Z.div_le_upper_bound; lia.
      * intros N. apply Z.eqb_neq in N. nia.
  - destruct (retryDelay c) as [|m e]; [discriminate|]. exists m, e.
    split; [reflexivity|]. split; [|exact D2].
    unfold int_leb_num in D1. destruct (Z.leb 0 e) eqn:E.
    + apply Z.leb_le in D1, E. pose proof (pow10_pos e E). nia.
    + apply Z.leb_gt in E. apply Z.leb_le in D1.
      assert (D : (0 < 10 ^ (- e))%Z) by (apply pow10_pos; lia). nia.
Qed.

(** ** The schedule *)

(** With a positive base delay the waits grow strictly. *)
Lemma delays_schedule_sorted (m e k : Z) (n : nat) :
  (0 < m)%Z -> (0 <= k)%Z ->
  StronglySorted (fun a b => num_ltb a b = true)
                 (delays (schedule (Dec m e) k n)).
Proof.
  intros Hb. revert k. induction n as [|n IH]; intros k Hk;
    cbn [schedule delays].
  - constructor.
  - constructor; [apply IH; lia|].
    assert (P : forall j i, (0 <= i)%Z ->
                Forall (fun d => num_ltb (times_pow2 (Dec m e) k) d = true)
                       (delays (schedule (Dec m e) (k + 1 + i) j))).
    { induction j as [|j IHj]; intros i Hi; cbn [schedule delays]; constructor.
      - unfold times_pow2. rewrite num_ltb_same. apply Z.ltb_lt.
        assert (2 ^ (k + 1 + i) = 2 * 2 ^ k * 2 ^ i)%Z
          by (rewrite !Z.pow_add_r by lia; lia).
        assert (0 < 2 ^ k)%Z by (apply Z.pow_pos_nonneg; lia).
        assert (0 < 2 ^ i)%Z by (apply Z.pow_pos_nonneg; lia). nia.
      - replace (k + 1 + i + 1)%Z with (k + 1 + (i + 1))%Z by lia.
        apply IHj. lia. }
    specialize (P n 0%Z ltac:(lia)). rewrite Z.add_0_r in P. exact P.
Qed.

Lemma delays_schedule_S (base : number) (k : Z) (n : nat) :
  delays (schedule base k (S n))
  = delays (schedule base k n) ++ [times_pow2 base (k + Z.of_nat n)].
Proof.
  revert k. induction n as [|n IH]; intros k.
  - cbn [schedule delays app]. rewrite Z.add_0_r. reflexivity.
  - change (schedule base k (S (S n)))
      with (Attempt :: Wait (times_pow2 base k) :: schedule base (k + 1) (S n)).
    change (schedule base k (S n))
      with (Attempt :: Wait (times_pow2 base k) :: schedule base (k + 1) n).
    cbn [delays]. rewrite (IH (k + 1)%Z). cbn [app].
    replace (k + 1 + Z.of_nat n)%Z with (k + Z.of_nat (S n))%Z by lia.
    reflexivity.
Qed.

(** A trailing wait continues the schedule. *)
Lemma delays_call_beats (base : number) (k : Z) (n : nat) (trailing : bool) :
  delays (call_beats base k n trailing)
  = if trailing then delays (schedule base k (S n)) else delays (schedule base k n).
Proof.
  unfold call_beats. rewrite delays_app.
  destruct trailing; [|apply app_nil_r].
  rewrite delays_schedule_S. reflexivity.
Qed.

Lemma attempts_call_beats (base : number) (k : Z) (n : nat) (trailing : bool) :
  attempts (call_beats base k n trailing) = S n.
Proof.
  unfold call_beats. rewrite attempts_app, attempts_schedule.
  destruct trailing; simpl; lia.
Qed.

Section Executor.

Variable World : Type.
Variable send : Request -> World -> (AxiosResponse + thrown) * World.
Variable config : Config.

Lemma log_after level message args (st : Client World) :
  exists evs, log config level message args st = after st (world st) evs
              /\ beats evs = [].
Proof.
  unfold log, after, emit.
  destruct (Nat.leb _ _).
  - eexists; split; reflexivity.
  - exists []. rewrite app_nil_r. destruct st; split; reflexivity.
Qed.

Lemma handleResponseError_classified (error : thrown) :
  handleResponseError config error = ThrownMcp (classify config error).
Proof.
  unfold classify, handleResponseError.
  destruct error as [e | e [status|] u | e | t]; simpl; try reflexivity.
  - destruct (Z.eqb status 401 || Z.eqb status 403); reflexivity.
  - destruct (code_is e "ECONNREFUSED"); [reflexivity|].
    destruct (code_is e "ETIMEDOUT" || code_is e "ECONNABORTED").
    + destruct (includes _ _); reflexivity.
    + destruct (code_is e "ENOTFOUND"); reflexivity.
Qed.

(** One call of the axios instance is one attempt: it issues the request
    once and sleeps never. *)
Lemma client_request_after (r : Request) (st : Client World) :
  exists evs,
    beats evs = [Attempt] /\
    client_request send config r st
    = match send r (world st) with
      | (inl response, w) =>
          (Return response,
           {| world := w; this_retryCount := this_retryCount st;
              events := events st ++ evs |})
      | (inr error, w) =>
          (Throw (ThrownMcp (classify config error)),
           {| world := w; this_retryCount := this_retryCount st;
              events := events st ++ evs |})
      end.
Proof.
  unfold client_request.
  destruct (log_after level_debug
              (js "Request: " ++ methodName (method r) ++ js " " ++ url r) [] st)
    as (l1 & E1 & B1).
  rewrite E1. unfold after at 1. simpl world.
  destruct (send r (world st)) as [[response | err] w].
  - match goal with
    | |- context [log config level_debug ?m [] ?s] =>
        destruct (log_after level_debug m [] s) as (l2 & E2 & B2); rewrite E2
    end.
    unfold after, emit; simpl.
    destruct (session_persist config); simpl;
      eexists; (split; [| rewrite <- ?app_assoc; reflexivity]);
      rewrite !beats_app, B1, B2; reflexivity.
  - rewrite handleResponseError_classified.
    unfold after, emit; simpl.
    eexists; (split; [| rewrite <- ?app_assoc; reflexivity]).
    rewrite !beats_app, B1; reflexivity.
Qed.

(** The loop is over when its test fails. *)
Lemma retry_loop_over {A : Type} (requestFn : M World A) (fuel : nat) (attempt : Z)
      (lastError : option McpError) (st : Client World) :
  int_leb_num attempt (retryCount config) = false ->
  retry_loop config requestFn fuel attempt lastError st
  = (Throw (ThrownMcp (match lastError with
                       | Some e => e
                       | None => NetworkError (js "Request failed after all retries")
                                              None
                       end)), st).
Proof.
  intros T. destruct fuel as [|fuel]; simpl; [reflexivity|]. rewrite T. reflexivity.
Qed.

(** One turn of the loop of [executeWithRetry]. *)
Lemma retry_loop_turn (r : Request) (fuel : nat) (attempt : Z)
      (lastError : option McpError) (st : Client World) :
  int_leb_num attempt (retryCount config) = true ->
  exists evs quiet,
    beats evs = [Attempt] /\ beats quiet = [] /\
    retry_loop config (client_request send config r) (S fuel) attempt lastError st
    = match send r (world st) with
      | (inl response, w) =>
          (Return response,
           {| world := w; this_retryCount := attempt; events := events st ++ evs |})
      | (inr err, w) =>
          if negb (retryable (classify config err))
             || num_leb_int (retryCount config) attempt
          then (Throw (ThrownMcp (classify config err)),
                {| world := w; this_retryCount := attempt;
                   events := events st ++ evs |})
          else retry_loop config (client_request send config r) fuel
                 (attempt + 1) (Some (classify config err))
                 {| world := w; this_retryCount := attempt;
                    events := events st ++ evs ++ quiet
                                ++ [Slept (times_pow2 (retryDelay config) attempt)] |}
      end.
Proof.
  intros T. simpl retry_loop. rewrite T.
  destruct (client_request_after r
              {| world := world st; this_retryCount := attempt; events := events st |})
    as (evs & B & E).
  rewrite E. simpl world. simpl this_retryCount. simpl events.
  destruct (send r (world st)) as [[response | err] w].
  - exists evs, []. repeat split; assumption.
  - simpl wrapError.
    destruct (negb (retryable (classify config err))
              || num_leb_int (retryCount config) attempt).
    + exists evs, []. repeat split; assumption.
    + match goal with
      | |- context [log config level_warn ?m [] ?s] =>
          destruct (log_after level_warn m [] s) as (quiet & E2 & B2); rewrite E2
      end.
      exists evs, quiet. split; [exact B|]. split; [exact B2|].
      unfold sleep, emit, after. simpl. rewrite <- !app_assoc. reflexivity.
Qed.

(** The first turn runs for every accepted configuration. *)
Lemma first_turn :
  ConfigSchema config = true ->
  exists fuel, turns (retryCount config) = S fuel
               /\ int_leb_num 0 (retryCount config) = true.
Proof.
  intros Hc. destruct (ConfigSchema_bounds config Hc) as [(m & e & -> & F & _) _].
  unfold turns. exists (Z.to_nat (floor (Dec m e))). split; [lia|].
  rewrite int_leb_num_floor. apply Z.leb_le. lia.
Qed.

(** The events of the loop, from any attempt on: a schedule with fewer
    retries than turns remain and, when the count of retries is no integer
    and the last attempt fails retryably too, one more wait. *)
Lemma retry_loop_schedule (r : Request) (m e : Z) (fuel : nat) :
  retryCount config = Dec m e ->
  forall (attempt : Z) (lastError : option McpError) (st : Client World),
    (0 <= attempt)%Z ->
    (Z.of_nat fuel + attempt = floor (Dec m e) + 1)%Z ->
    (0 < fuel)%nat ->
    exists new retries trailing,
      events (snd (retry_loop config (client_request send config r)
                              fuel attempt lastError st))
      = events st ++ new
      /\ beats new = call_beats (retryDelay config) attempt retries trailing
      /\ (retries < fuel)%nat
      /\ (trailing = true ->
          is_integer (Dec m e) = false /\ S retries = fuel).
Proof.
  intros Hm.
  induction fuel as [|fuel IH]; intros attempt lastError st Ha Hsum Hpos; [lia|].
  assert (T : int_leb_num attempt (retryCount config) = true)
    by (rewrite Hm, int_leb_num_floor; apply Z.leb_le; lia).
  destruct (retry_loop_turn r fuel attempt lastError st T)
    as (evs & quiet & B1 & B2 & E).
  rewrite E. clear E.
  destruct (send r (world st)) as [[response | err] w].
  - exists evs, 0%nat, false. simpl. rewrite B1.
    repeat split; try lia; discriminate.
  - destruct (negb (retryable (classify config err))
              || num_leb_int (retryCount config) attempt) eqn:C.
    + exists evs, 0%nat, false. simpl. rewrite B1.
      repeat split; try lia; discriminate.
    + apply orb_false_iff in C. destruct C as [_ C].
      rewrite Hm, num_leb_int_floor in C by lia.
      destruct fuel as [|fuel'].
      * (* the last turn: the count is no integer, the loop ends after the wait *)
        assert (F : attempt = floor (Dec m e)) by lia.
        rewrite F, Z.eqb_refl in C. simpl in C.
        rewrite retry_loop_over
          by (rewrite Hm, int_leb_num_floor; apply Z.leb_gt; lia).
        exists (evs ++ quiet ++ [Slept (times_pow2 (retryDelay config) attempt)]),
          0%nat, true.
        simpl events. split; [reflexivity|].
        unfold call_beats. simpl. rewrite !beats_app, B1, B2. simpl.
        rewrite Z.add_0_r, F.
        repeat split; try lia; assumption.
      * match goal with
        | |- context [retry_loop _ _ (S fuel') ?a ?l ?s] =>
            destruct (IH a l s) as (new & n & tr & E & B & L & Tr); try lia
        end.
        exists (evs ++ quiet ++ [Slept (times_pow2 (retryDelay config) attempt)]
                    ++ new), (S n), tr.
        rewrite E. simpl events. rewrite <- !app_assoc.
        split; [reflexivity|]. split; [|split; [lia|]].
        -- rewrite !beats_app, B1, B2, B. unfold call_beats. simpl.
           replace (attempt + 1 + Z.of_nat n)%Z
             with (attempt + Z.pos (Pos.of_succ_nat n))%Z by lia.
           reflexivity.
        -- intros Ht. destruct (Tr Ht) as [I S']. split; [exact I | lia].
Qed.

(** C1.  A request that the upstream always answers with HTTP 404 is
    attempted once: the executor throws the classified error right after the
    first attempt, having slept not at all, and that error has category API,
    is not retryable and carries the status 404. *)
Theorem http_404_fails_at_once (r : Request) (st : Client World) :
  ConfigSchema config = true ->
  (forall w, exists e u w', send r w = (inr (ThrownAxios e (Some 404%Z) u), w')) ->
  exists err st' new,
    executeWithRetry config (client_request send config r) st
    = (Throw (ThrownMcp err), st')
    /\ events st' = events st ++ new
    /\ beats new = [Attempt]
    /\ category err = API
    /\ retryable err = false
    /\ statusCode err = Some 404%Z.
Proof.
  intros Hc H. destruct (first_turn Hc) as (fuel & N & T).
  destruct (H (world st)) as (e & u & w' & E).
  unfold executeWithRetry. rewrite N.
  destruct (retry_loop_turn r fuel 0 None st T) as (evs & quiet & B1 & _ & X).
  rewrite X, E. simpl.
  do 3 eexists. split; [reflexivity|]. simpl. repeat split. exact B1.
Qed.

(** C2.  For a configuration that [ConfigSchema] accepts, a call of the
    executor makes [retries + 1] attempts with [retries <= maxRetries], and
    before the attempt of index [k + 1] it waits [baseDelay * 2^k], the
    attempts being counted from 0, so the waits grow strictly.  (When
    [maxRetries] is no integer, which the schema allows, and the last
    attempt fails retryably too, the call sleeps once more after it,
    [baseDelay * 2^retries], before it throws: that wait precedes no
    attempt, and the waits still grow strictly.)  With [maxRetries] at
    least 2, in particular 3, two retryable failures and then a success, it
    returns the response of the third attempt, and the wait before that
    attempt is [baseDelay * 2^1], which lies in the interval from
    [baseDelay * 2^1] to [baseDelay * 2^2], the upper end excluded. *)
Theorem retry_backoff (r : Request) (st : Client World) :
  ConfigSchema config = true ->
  (exists new retries trailing,
      events (snd (executeWithRetry config (client_request send config r) st))
      = events st ++ new
      /\ beats new = call_beats (retryDelay config) 0 retries trailing
      /\ attempts (beats new) = S retries
      /\ int_leb_num (Z.of_nat retries) (retryCount config) = true
      /\ (trailing = true -> is_integer (retryCount config) = false)
      /\ StronglySorted (fun a b => num_ltb a b = true) (delays (beats new)))
  /\ (int_leb_num 2 (retryCount config) = true ->
      forall e1 w1 e2 w2 response w3,
        send r (world st) = (inr e1, w1) -> retryable (classify config e1) = true ->
        send r w1 = (inr e2, w2) -> retryable (classify config e2) = true ->
        send r w2 = (inl response, w3) ->
        exists st' new d,
          executeWithRetry config (client_request send config r) st
          = (Return response, st')
          /\ events st' = events st ++ new
          /\ beats new = [Attempt; Wait (times_pow2 (retryDelay config) 0); Attempt;
                          Wait d; Attempt]
          /\ d = times_pow2 (retryDelay config) 1
          /\ num_leb (times_pow2 (retryDelay config) 1) d = true
          /\ num_ltb d (times_pow2 (retryDelay config) 2) = true).
Proof.
  intros Hc.
  destruct (ConfigSchema_bounds config Hc)
    as [(m & e & Hm & F & Fi) (b & eb & Hb & Pb & _)].
  split.
  - unfold executeWithRetry.
    destruct (retry_loop_schedule r m e (turns (retryCount config)) Hm 0 None st)
      as (new & n & tr & E & B & L & Tr);
      try lia; try (rewrite Hm; unfold turns; lia).
    exists new, n, tr. rewrite B, attempts_call_beats.
    split; [exact E|]. split; [reflexivity|]. split; [reflexivity|].
    rewrite Hm in *. unfold turns in L, Tr.
    split; [rewrite int_leb_num_floor; apply Z.leb_le; lia|].
    split; [intros Ht; exact (proj1 (Tr Ht))|].
    rewrite delays_call_beats, Hb.
    destruct tr; apply delays_schedule_sorted; lia.
  - intros H2 e1 w1 e2 w2 response w3 S1 R1 S2 R2 S3.
    rewrite Hm, int_leb_num_floor in H2. apply Z.leb_le in H2.
    assert (T : forall k, (0 <= k <= 2)%Z ->
                          int_leb_num k (retryCount config) = true)
      by (intros k Hk; rewrite Hm, int_leb_num_floor; apply Z.leb_le; lia).
    assert (X : forall k, (0 <= k < 2)%Z ->
                          num_leb_int (retryCount config) k = false).
    { intros k Hk. rewrite Hm, num_leb_int_floor by lia.
      replace (Z.eqb k (floor (Dec m e))) with false; [reflexivity|].
      symmetry. apply Z.eqb_neq. lia. }
    unfold executeWithRetry.
    assert (N : exists fuel, turns (retryCount config) = S (S (S fuel))).
    { exists (Z.to_nat (floor (Dec m e)) - 2)%nat. rewrite Hm. unfold turns. lia. }
    destruct N as [fuel ->].
    destruct (retry_loop_turn r (S (S fuel)) 0 None st (T 0%Z ltac:(lia)))
      as (a1 & q1 & A1 & Q1 & T1).
    rewrite T1, S1, R1, (X 0%Z ltac:(lia)). simpl negb. simpl orb. cbv iota.
    match goal with
    | |- context [retry_loop _ _ (S (S fuel)) ?a ?l ?s] =>
        destruct (retry_loop_turn r (S fuel) a l s (T (0 + 1)%Z ltac:(lia)))
          as (a2 & q2 & A2 & Q2 & T2)
    end.
    rewrite T2. simpl world. rewrite S2, R2, (X (0 + 1)%Z ltac:(lia)).
    simpl negb. simpl orb. cbv iota.
    match goal with
    | |- context [retry_loop _ _ (S fuel) ?a ?l ?s] =>
        destruct (retry_loop_turn r fuel a l s (T (0 + 1 + 1)%Z ltac:(lia)))
          as (a3 & q3 & A3 & Q3 & T3)
    end.
    rewrite T3. simpl world. rewrite S3.
    do 3 eexists. split; [reflexivity|]. simpl events.
    split; [rewrite <- !app_assoc; reflexivity|].
    rewrite !beats_app, A1, Q1, A2, Q2, A3. simpl.
    split; [reflexivity|]. split; [reflexivity|].
    rewrite Hb. unfold times_pow2. rewrite num_leb_same, num_ltb_same.
    split; [apply Z.leb_le | apply Z.ltb_lt]; lia.
Qed.

End Executor.

(* ================================================================== *)
(** * The claims about the executor, on concrete runs *)
(* ================================================================== *)

(** C1 on a run: the default configuration and an upstream that answers
    every request with HTTP 404. *)
Lemma http_404_fails_at_once_run :
  exists err st' new,
    executeWithRetry DEFAULT_CONFIG
      (client_request upstream_404 DEFAULT_CONFIG a_request) (fresh 0%nat)
    = (Throw (ThrownMcp err), st')
    /\ events st' = events (fresh 0%nat) ++ new
    /\ beats new = [Attempt]
    /\ category err = API
    /\ retryable err = false
    /\ statusCode err = Some 404%Z.
Proof.
  apply (http_404_fails_at_once nat upstream_404 DEFAULT_CONFIG a_request (fresh 0%nat)).
  - reflexivity.
  - intros w. do 3 eexists. reflexivity.
Defined.

(** C2 on two runs: two and a half retries against an upstream that
    refuses the first two connections and then answers, and the default
    configuration against the same upstream. *)
Lemma retry_backoff_run :
  (exists new retries trailing,
      events (snd (executeWithRetry HALF_CONFIG
                     (client_request (upstream_recovering (VStr (js "{}")))
                                     HALF_CONFIG a_request) (fresh 0%nat)))
      = events (fresh 0%nat) ++ new
      /\ beats new = call_beats (Dec 1000 0) 0 retries trailing
      /\ attempts (beats new) = S retries
      /\ int_leb_num (Z.of_nat retries) (Dec 25 (-1)) = true
      /\ (trailing = true -> is_integer (Dec 25 (-1)) = false)
      /\ StronglySorted (fun a b => num_ltb a b = true) (delays (beats new)))
  /\ (exists st' new d,
        executeWithRetry DEFAULT_CONFIG
          (client_request (upstream_recovering (VStr (js "{}")))
                          DEFAULT_CONFIG a_request) (fresh 0%nat)
        = (Return (ok_response (VStr (js "{}"))), st')
        /\ events st' = events (fresh 0%nat) ++ new
        /\ beats new = [Attempt; Wait (Dec (1000 * 2 ^ 0) 0); Attempt; Wait d; Attempt]
        /\ d = Dec (1000 * 2 ^ 1) 0
        /\ num_leb (Dec (1000 * 2 ^ 1) 0) d = true
        /\ num_ltb d (Dec (1000 * 2 ^ 2) 0) = true).
Proof.
  split.
  - exact (proj1 (retry_backoff nat (upstream_recovering (VStr (js "{}")))
                                HALF_CONFIG a_request (fresh 0%nat) eq_refl)).
  - apply (proj2 (retry_backoff nat (upstream_recovering (VStr (js "{}")))
                                DEFAULT_CONFIG a_request (fresh 0%nat) eq_refl)
                 eq_refl connection_refused 1%nat connection_refused 2%nat
                 (ok_response (VStr (js "{}"))) 3%nat); reflexivity.
Defined.

(* ================================================================== *)
(** * The claims about the response decoder *)
(* ================================================================== *)

Section DecoderClaims.

Variable World : Type.
Variable syntaxErrorMessage : jsstring -> nat -> jsstring.
Variable evalFunction : jsstring -> option (outcome value).
Variable config : Config.

Local Abbreviation decodeQuasiJson :=
  (@parseJsLiteralResponse World syntaxErrorMessage evalFunction config).

(** C7.  On a text that is empty or holds white space only, the decoder
    returns the empty object; it throws nothing and does nothing else. *)
Theorem blank_body_is_empty_object (responseText : jsstring) (st : Client World) :
  blank responseText = true ->
  decodeQuasiJson responseText st = (Return (VObj []), st).
Proof.
  intros H. unfold parseJsLiteralResponse.
  rewrite blank_test, H. reflexivity.
Qed.

(** C8.  On a text that [JSON.parse] accepts, the decoder returns the very
    value [JSON.parse] yields, whatever the normalization and the evaluator
    would do with the text, and it does nothing else. *)
Theorem json_fast_path (responseText : jsstring) (v : value) (st : Client World) :
  JSON.parse responseText = JSON.Parsed v ->
  decodeQuasiJson responseText st = (Return v, st).
Proof.
  intros H. unfold parseJsLiteralResponse.
  rewrite blank_test, (JSON_parse_not_blank _ _ H), H. reflexivity.
Qed.

(** C9.  The text [{initData:{mbid:'x'},category_0:[]}] is no JSON; its
    normalization is the JSON text with the three keys and the string between
    double quotes; and the decoder returns the object that text denotes. *)
Theorem init_data_literal (st : Client World) :
  JSON.parse (js "{initData:{mbid:'x'},category_0:[]}") = JSON.SyntaxError 1
  /\ convertJsLiteralToJson (js "{initData:{mbid:'x'},category_0:[]}")
     = js "{" ++ quoted "initData" ++ js ":{" ++ quoted "mbid" ++ js ":"
          ++ quoted "x" ++ js "}," ++ quoted "category_0" ++ js ":[]}"
  /\ decodeQuasiJson (js "{initData:{mbid:'x'},category_0:[]}") st
     = (Return (VObj [(js "initData", VObj [(js "mbid", VStr (js "x"))]);
                      (js "category_0", VArr [])]),
        st).
Proof.
  split; [reflexivity|]. split; [reflexivity|].
  unfold parseJsLiteralResponse. reflexivity.
Qed.

(** C3, as the code has it.  On a text that is not blank, that is no JSON
    before and after the normalization, and that the evaluator rejects, the
    decoder throws an API error that is not retryable.  The message of the
    error is a fixed prefix followed by the engine's rendering of the syntax
    error of the normalized text, and its details hold no text at all: the
    code puts no part of the input into the error, so that two inputs whose
    syntax errors the engine words alike fail with the same error, and what
    the error shows of the input is what the engine's wording quotes.  The
    first 200 code units of the text, a prefix of it and never more, go to
    the error log. *)
Theorem decode_error_logs_prefix (responseText : jsstring) (p1 p2 : nat)
        (st : Client World) :
  blank responseText = false ->
  JSON.parse responseText = JSON.SyntaxError p1 ->
  JSON.parse (convertJsLiteralToJson responseText) = JSON.SyntaxError p2 ->
  evalFunction (js "return (" ++ responseText ++ js ");") = None ->
  exists err st',
    decodeQuasiJson responseText st = (Throw (ThrownMcp err), st')
    /\ category err = API
    /\ retryable err = false
    /\ message err
       = js "Failed to parse API response: " ++ js "SyntaxError: "
            ++ syntaxErrorMessage (convertJsLiteralToJson responseText) p2
    /\ details err = Some [(js "statusCode", VUndefined)]
    /\ (forall other q1 q2 s,
           blank other = false ->
           JSON.parse other = JSON.SyntaxError q1 ->
           JSON.parse (convertJsLiteralToJson other) = JSON.SyntaxError q2 ->
           evalFunction (js "return (" ++ other ++ js ");") = None ->
           syntaxErrorMessage (convertJsLiteralToJson other) q2
           = syntaxErrorMessage (convertJsLiteralToJson responseText) p2 ->
           fst (decodeQuasiJson other s) = Throw (ThrownMcp err))
    /\ events st'
       = events st ++ [Logged level_error (js "Failed to parse response:")
                              [substring0 200 responseText]]
    /\ (List.length (substring0 200 responseText) <= 200)%nat
    /\ (exists rest, responseText = substring0 200 responseText ++ rest).
Proof.
  intros B H1 H2 H3. unfold parseJsLiteralResponse.
  rewrite blank_test, B, H1, H2, H3, log_error_emits.
  do 2 eexists. split; [reflexivity|].
  do 4 (split; [reflexivity|]).
  split; [|split; [reflexivity|split]].
  - intros other q1 q2 s Bo O1 O2 O3 Same.
    rewrite blank_test, Bo, O1, O2, O3. simpl. unfold String_of_SyntaxError.
    rewrite Same. reflexivity.
  - unfold substring0. apply firstn_le_length.
  - exists (skipn 200 responseText). unfold substring0.
    symmetry. apply firstn_skipn.
Qed.

End DecoderClaims.

(** C7 on a run: a body of three spaces. *)
Lemma blank_body_is_empty_object_run :
  parseJsLiteralResponse v8_message no_expression DEFAULT_CONFIG (js "   ") (fresh tt)
  = (Return (VObj []), fresh tt).
Proof.
  apply (blank_body_is_empty_object unit v8_message no_expression DEFAULT_CONFIG
                                    (js "   ") (fresh tt)).
  reflexivity.
Defined.

(** C8 on a run: a JSON object with a boolean and an array. *)
Lemma json_fast_path_run :
  parseJsLiteralResponse v8_message no_expression DEFAULT_CONFIG
    (js "{" ++ quoted "success" ++ js ": false, " ++ quoted "ids" ++ js ": [1, 2]}")
    (fresh tt)
  = (Return (VObj [(js "success", VBool false);
                   (js "ids", VArr [VNum (Dec 1 0); VNum (Dec 2 0)])]),
     fresh tt).
Proof.
  apply (json_fast_path unit v8_message no_expression DEFAULT_CONFIG).
  reflexivity.
Defined.

(** C3, as the code has it, on a run: the body [garbled], the wording of V8
    and an evaluator that rejects the body. *)
Lemma decode_error_logs_prefix_run :
  exists err st',
    parseJsLiteralResponse v8_message no_expression DEFAULT_CONFIG garbled (fresh tt)
    = (Throw (ThrownMcp err), st')
    /\ category err = API
    /\ retryable err = false
    /\ message err
       = js "Failed to parse API response: " ++ js "SyntaxError: "
            ++ v8_message (convertJsLiteralToJson garbled) 28
    /\ details err = Some [(js "statusCode", VUndefined)]
    /\ events st'
       = events (fresh tt)
           ++ [Logged level_error (js "Failed to parse response:")
                      [substring0 200 garbled]]
    /\ (List.length (substring0 200 garbled) <= 200)%nat.
Proof.
  destruct (decode_error_logs_prefix unit v8_message no_expression DEFAULT_CONFIG
              garbled 28 28 (fresh tt) eq_refl eq_refl eq_refl eq_refl)
    as (err & st' & D & C & R & Msg & Det & _ & Ev & Len & _).
  exists err, st'. repeat split; assumption.
Defined.

(** C3 fails as stated, in both of its parts.  The error thrown for
    [garbled] holds no prefix of the text, not even its first code unit,
    under the wording of either version of V8; the prefix is in the log.
    And under the later wording the error thrown for [short_garbled] holds
    the full body. *)
Lemma decode_error_text_is_the_engines :
  (exists err st',
      parseJsLiteralResponse v8_message no_expression DEFAULT_CONFIG garbled (fresh tt)
      = (Throw (ThrownMcp err), st')
      /\ message err
         = js "Failed to parse API response: SyntaxError: Unexpected token # in JSON at position 28"
      /\ details err = Some [(js "statusCode", VUndefined)]
      /\ includes (message err) (substring0 200 garbled) = false
      /\ includes (message err) (substring0 1 garbled) = false
      /\ logged (events st')
         = [(level_error, js "Failed to parse response:", [substring0 200 garbled])])
  /\ (exists err st',
        parseJsLiteralResponse v8_message_with_context no_expression DEFAULT_CONFIG
                               garbled (fresh tt)
        = (Throw (ThrownMcp err), st')
        /\ message err
           = js "Failed to parse API response: SyntaxError: Unexpected token '#', ..."
                ++ quoted ",10,11,12,#]" ++ js " is not valid JSON"
        /\ includes (message err) (substring0 200 garbled) = false
        /\ includes (message err) (substring0 1 garbled) = false)
  /\ (exists err st',
        parseJsLiteralResponse v8_message_with_context no_expression DEFAULT_CONFIG
                               short_garbled (fresh tt)
        = (Throw (ThrownMcp err), st')
        /\ message err
           = js "Failed to parse API response: SyntaxError: Unexpected token '#', "
                ++ quoted "#oops" ++ js " is not valid JSON"
        /\ includes (message err) short_garbled = true).
Proof.
  split; [|split]; do 2 eexists; (split; [vm_compute; reflexivity|]);
    repeat (split; [vm_compute; reflexivity|]); vm_compute; reflexivity.
Qed.

(* ================================================================== *)
(** * The claims about the handlers *)
(* ================================================================== *)

Lemma str_eqb_eq (a b : jsstring) : str_eqb a b = true <-> a = b.
Proof.
  revert b. induction a as [|x a IH]; intros [|y b]; simpl;
    try (split; congruence).
  rewrite andb_true_iff, N.eqb_eq, IH. split.
  - intros [-> ->]; reflexivity.
  - intros E; injection E; auto.
Qed.

Lemma is_not_false_iff (v : value) : is_not_false v = true <-> v <> VBool false.
Proof.
  destruct v as [| |[|]| | | |]; simpl; split; congruence.
Qed.

Lemma is_not_string_iff (s : jsstring) (v : value) :
  is_not_string s v = true <-> v <> VStr s.
Proof.
  destruct v as [| | | |t| |]; simpl; try (split; congruence).
  rewrite negb_true_iff. split.
  - intros E H. injection H as ->.
    assert (str_eqb s s = true) by (apply str_eqb_eq; reflexivity). congruence.
  - intros H. destruct (str_eqb t s) eqn:E; [|reflexivity].
    apply str_eqb_eq in E. congruence.
Qed.

Section HandlerClaims.

Variable World : Type.
Variable zodParse : string -> value -> outcome value.
Variable parseInt10 : value -> number.
Variable parseFloat : value -> number.
Variable httpClient : HttpClient World.

(** The flag of a response that properties can be read from. *)
Lemma succeeded_flag (response : value) (st : Client World) :
  nullish response = false ->
  succeeded response st
  = (Return (is_not_false (prop response "success")
             && is_not_string (js "fail") (prop response "result")), st).
Proof.
  intros H. unfold succeeded, bind, lift, read.
  destruct response; try discriminate H;
    destruct (is_not_false _); reflexivity.
Qed.

Lemma succeeded_nullish (response : value) (st : Client World) :
  nullish response = true ->
  exists t, succeeded response st = (Throw t, st).
Proof.
  intros H. unfold succeeded, bind, lift, read.
  destruct response; try discriminate H; eexists; reflexivity.
Qed.

(** C4.  When the XML client returns a response whose [dataset] is a string,
    and when it returns one that has no [dataset], the handler of
    [transaction_list] returns the same result, with a count of 0 and no
    transactions; it throws in neither case. *)
Theorem string_dataset_is_no_transactions
        (input validated rawResponse : value) (st st1 : Client World) :
  zodParse "TransactionListInputSchema" input = Return validated ->
  client_getXml httpClient (js "/getDataByPeriod") (Some (period_params validated)) st
  = (Return rawResponse, st1) ->
  is_string (prop rawResponse "dataset") = true
  \/ prop rawResponse "dataset" = VUndefined ->
  handleTransactionList zodParse parseInt10 parseFloat httpClient input st
  = (Return (VObj [(js "count", VNum (Dec 0 0)); (js "transactions", VArr [])]), st1).
Proof.
  intros Hv Hx Hd. unfold handleTransactionList, bind, lift.
  rewrite Hv, Hx.
  destruct Hd as [Hd | Hd].
  - rewrite Hd. destruct (negb (truthy rawResponse) || _); reflexivity.
  - rewrite Hd. simpl truthy. simpl negb. rewrite orb_true_r. reflexivity.
Qed.

(** C5, as the code has it.  When the upstream call of [transfer_update]
    returns a response that properties can be read from, the handler returns
    the flag, the identifier it was given, and as message the message of the
    response when that is truthy, the warning otherwise. *)
Theorem transfer_update_message
        (input validated response : value) (st st1 : Client World) :
  zodParse "TransferUpdateInputSchema" input = Return validated ->
  client_post httpClient (js "/modifyMoveAsset")
              (Some ((js "id", prop validated "id") :: transfer_fields validated)) st
  = (Return response, st1) ->
  nullish response = false ->
  exists result,
    handleTransferUpdate zodParse httpClient input st = (Return result, st1)
    /\ prop result "success"
       = VBool (is_not_false (prop response "success")
                && is_not_string (js "fail") (prop response "result"))
    /\ prop result "transferId" = prop validated "id"
    /\ prop result "message"
       = (if truthy (prop response "message")
          then prop response "message"
          else VStr transfer_update_warning).
Proof.
  intros Hv Hp Hn. unfold handleTransferUpdate, bind, lift.
  rewrite Hv, Hp, (succeeded_flag response st1 Hn).
  eexists. split; [reflexivity|]. repeat split.
Qed.

End HandlerClaims.

Section ClientClaims.

Variable World : Type.
Variable send : Request -> World -> (AxiosResponse + thrown) * World.
Variable existsSync : World -> jsstring -> bool.
Variable syntaxErrorMessage : jsstring -> nat -> jsstring.
Variable evalFunction : jsstring -> option (outcome value).
Variable parseStringPromise : jsstring -> value + jsstring.
Variable config : Config.
Variable zodParse : string -> value -> outcome value.

Local Abbreviation theClient :=
  (createHttpClient send existsSync syntaxErrorMessage evalFunction
                    parseStringPromise config).

(** A request that is answered at once. *)
Lemma executeWithRetry_answered (r : Request) (response : AxiosResponse)
      (w : World) (st : Client World) :
  ConfigSchema config = true ->
  send r (world st) = (inl response, w) ->
  exists st',
    executeWithRetry config (client_request send config r) st = (Return response, st').
Proof.
  intros Hc E. destruct (first_turn config Hc) as (fuel & N & T).
  unfold executeWithRetry. rewrite N.
  destruct (retry_loop_turn World send config r fuel 0 None st T)
    as (evs & quiet & _ & _ & X).
  rewrite X, E. eexists. reflexivity.
Qed.

Lemma post_empty_body (endpoint : jsstring) (fields : option object)
      (st : Client World) :
  ConfigSchema config = true -> empty_bodies send ->
  exists st',
    post send syntaxErrorMessage evalFunction config endpoint fields st
    = (Return (VObj []), st').
Proof.
  intros Hc He. unfold post, bind.
  match goal with
  | |- context [client_request send config ?r] =>
      destruct (He r (world st)) as (code & reason & w & E);
      destruct (executeWithRetry_answered r _ w st Hc E) as (st1 & X)
  end.
  rewrite X. eexists. reflexivity.
Qed.

Lemma uploadFile_empty_body (endpoint path field : jsstring) (st : Client World) :
  ConfigSchema config = true -> empty_bodies send ->
  existsSync (world st) path = true ->
  exists st',
    uploadFile send existsSync config endpoint path field st
    = (Return (VStr []), st').
Proof.
  intros Hc He Hf. unfold uploadFile, bind. rewrite Hf. simpl negb. cbv iota.
  match goal with
  | |- context [client_request send config ?r] =>
      destruct (He r (world st)) as (code & reason & w & E);
      destruct (executeWithRetry_answered r _ w st Hc E) as (st1 & X)
  end.
  rewrite X. eexists. reflexivity.
Qed.

(** C6, as the code has it.  When the file is absent, [uploadFile] throws a
    plain error, not a classified one, and leaves the state as it was: no
    request is issued.  The handler of [backup_restore], the caller of
    [uploadFile], turns that error into the not-found error of category
    FILE, which is not retryable, and again no request is issued. *)
Theorem absent_file_is_not_uploaded (endpoint path field : jsstring)
        (st : Client World) :
  existsSync (world st) path = false ->
  uploadFile send existsSync config endpoint path field st
  = (Throw (file_not_found path), st)
  /\ (forall input validated,
         zodParse "BackupRestoreInputSchema" input = Return validated ->
         prop validated "filePath" = VStr path ->
         handleBackupRestore zodParse theClient input st
         = (Throw (ThrownMcp (FileError_notFound path)), st))
  /\ category (FileError_notFound path) = FILE
  /\ retryable (FileError_notFound path) = false.
Proof.
  intros Hf.
  assert (U : forall e f, uploadFile send existsSync config e path f st
                          = (Throw (file_not_found path), st)).
  { intros e f. unfold uploadFile. rewrite Hf. reflexivity. }
  split; [apply U|]. split; [|split; reflexivity].
  intros input validated Hv Hp.
  unfold handleBackupRestore, bind, lift, try_catch. rewrite Hv, Hp.
  simpl client_uploadFile. simpl as_str. rewrite U. reflexivity.
Qed.

End ClientClaims.

(* ================================================================== *)
(** * The claims about the handlers, on concrete runs *)
(* ================================================================== *)

(** C4 on two runs: a document whose root is an empty element, which xml2js
    turns into a string, and an empty body, which the client turns into an
    object without [dataset]. *)
Lemma string_dataset_is_no_transactions_run :
  handleTransactionList accept_input not_a_number not_a_number
    (client_over (VStr (js "<dataset></dataset>")) (has_files []) empty_dataset)
    a_period (fresh 0%nat)
  = (Return (VObj [(js "count", VNum (Dec 0 0)); (js "transactions", VArr [])]),
     snd (client_getXml
            (client_over (VStr (js "<dataset></dataset>")) (has_files []) empty_dataset)
            (js "/getDataByPeriod") (Some (period_params a_period)) (fresh 0%nat)))
  /\ handleTransactionList accept_input not_a_number not_a_number
       (client_over (VStr []) (has_files []) no_document) a_period (fresh 0%nat)
     = (Return (VObj [(js "count", VNum (Dec 0 0)); (js "transactions", VArr [])]),
        snd (client_getXml (client_over (VStr []) (has_files []) no_document)
               (js "/getDataByPeriod") (Some (period_params a_period))
               (fresh 0%nat))).
Proof.
  split.
  - apply (string_dataset_is_no_transactions nat accept_input not_a_number
             not_a_number _ a_period a_period (VObj [(js "dataset", VStr [])])).
    + reflexivity.
    + vm_compute; reflexivity.
    + left; reflexivity.
  - apply (string_dataset_is_no_transactions nat accept_input not_a_number
             not_a_number _ a_period a_period (VObj [])).
    + reflexivity.
    + vm_compute; reflexivity.
    + right; reflexivity.
Defined.

(** C5, as the code has it, on a run: the upstream answers the update with
    an empty body, and the result carries the warning. *)
Lemma transfer_update_message_run :
  exists result,
    handleTransferUpdate accept_input (client_over (VStr []) (has_files []) no_document)
                         a_transfer (fresh 0%nat)
    = (Return result,
       snd (client_post (client_over (VStr []) (has_files []) no_document)
              (js "/modifyMoveAsset")
              (Some ((js "id", prop a_transfer "id") :: transfer_fields a_transfer))
              (fresh 0%nat)))
    /\ prop result "success" = VBool true
    /\ prop result "transferId" = VStr (js "t1")
    /\ prop result "message" = VStr transfer_update_warning.
Proof.
  apply (transfer_update_message nat accept_input _ a_transfer a_transfer (VObj [])).
  - reflexivity.
  - vm_compute; reflexivity.
  - reflexivity.
Defined.

(** C5 fails as stated: the upstream answers a successful update with a
    message of its own, and the result carries that message and no
    warning. *)
Lemma transfer_update_without_warning :
  exists result st',
    handleTransferUpdate accept_input
      (client_over (VStr (js "{success:true,message:'Transfer updated'}")) (has_files [])
                   no_document)
      a_transfer (fresh 0%nat)
    = (Return result, st')
    /\ prop result "success" = VBool true
    /\ prop result "message" = VStr (js "Transfer updated")
    /\ includes (js "Transfer updated") (js "WARNING") = false
    /\ includes (js "Transfer updated") transfer_update_warning = false.
Proof.
  do 2 eexists. split; [vm_compute; reflexivity|].
  repeat (split; [vm_compute; reflexivity|]). vm_compute; reflexivity.
Qed.

(** C6, as the code has it, on a run: no file exists. *)
Lemma absent_file_is_not_uploaded_run :
  uploadFile (upstream_answering (VStr [])) (has_files []) DEFAULT_CONFIG
             (js "/uploadSqlFile") (js "/tmp/backup.sqlite") (js "file") (fresh 0%nat)
  = (Throw (file_not_found (js "/tmp/backup.sqlite")), fresh 0%nat)
  /\ handleBackupRestore accept_input (client_over (VStr []) (has_files []) no_document)
                         a_backup (fresh 0%nat)
     = (Throw (ThrownMcp (FileError_notFound (js "/tmp/backup.sqlite"))), fresh 0%nat)
  /\ category (FileError_notFound (js "/tmp/backup.sqlite")) = FILE
  /\ retryable (FileError_notFound (js "/tmp/backup.sqlite")) = false.
Proof.
  destruct (absent_file_is_not_uploaded nat (upstream_answering (VStr []))
              (has_files []) v8_message no_expression no_document DEFAULT_CONFIG
              accept_input (js "/uploadSqlFile") (js "/tmp/backup.sqlite")
              (js "file") (fresh 0%nat) eq_refl)
    as (U & H & C & R).
  split; [exact U|]. split; [|split; [exact C | exact R]].
  apply (H a_backup a_backup); reflexivity.
Defined.

(** C6 fails as stated: what [uploadFile] throws for an absent file is a
    plain error; classified as it is, it is an internal error, not a file
    error. *)
Lemma absent_file_error_is_unclassified :
  exists e,
    uploadFile (upstream_answering (VStr [])) (has_files []) DEFAULT_CONFIG
               (js "/uploadSqlFile") (js "/tmp/backup.sqlite") (js "file")
               (fresh 0%nat)
    = (Throw (ThrownError e), fresh 0%nat)
    /\ error_name e = js "Error"
    /\ error_message e = js "File not found: /tmp/backup.sqlite"
    /\ category (wrapError (ThrownError e)) = INTERNAL
    /\ code (wrapError (ThrownError e)) = js "INTERNAL_ERROR".
Proof.
  eexists. split; [vm_compute; reflexivity|].
  repeat (split; [vm_compute; reflexivity|]). vm_compute; reflexivity.
Qed.

(** C10 on the code.  The upstream answers with the body [{result:'fail'}],
    which is no JSON, so that the HTTP library hands it on as a string, and
    which the decoder reads as an object whose [result] is [fail].  The
    handler of [transfer_update], whose [post] decodes the body, reports
    [success = false]; the handler of [backup_restore], whose [uploadFile]
    returns the body as it came, reads [success] and [result] from the
    string, finds neither, and reports [success = true]. *)
Theorem backup_restore_reads_the_body_undecoded :
  (exists pos, JSON.parse (js "{result:'fail'}") = JSON.SyntaxError pos)
  /\ parseJsLiteralResponse v8_message no_expression DEFAULT_CONFIG
                            (js "{result:'fail'}") (fresh 0%nat)
     = (Return (VObj [(js "result", VStr (js "fail"))]), fresh 0%nat)
  /\ (exists st',
         handleTransferUpdate accept_input
           (client_over (VStr (js "{result:'fail'}")) every_file no_document)
           a_transfer (fresh 0%nat)
         = (Return (VObj [(js "success", VBool false);
                          (js "transferId", VStr (js "t1"));
                          (js "message", VStr transfer_update_warning)]), st'))
  /\ (exists st',
         uploadFile (upstream_answering (VStr (js "{result:'fail'}"))) every_file
                    DEFAULT_CONFIG (js "/uploadSqlFile") (js "/tmp/backup.sqlite")
                    (js "file") (fresh 0%nat)
         = (Return (VStr (js "{result:'fail'}")), st'))
  /\ (exists st',
         handleBackupRestore accept_input
           (client_over (VStr (js "{result:'fail'}")) every_file no_document)
           a_backup (fresh 0%nat)
         = (Return (VObj [(js "success", VBool true);
                          (js "message", VStr (js "Database restored successfully"))]),
            st')).
Proof.
  split; [eexists; vm_compute; reflexivity|].
  split; [vm_compute; reflexivity|].
  split; [|split]; eexists; vm_compute; reflexivity.
Qed.

(* ================================================================== *)
(** * More properties of the error classifier and the executor *)
(* ================================================================== *)

Section ClassifierFacts.

Variable config : Config.

(** X1.  Whatever axios rejects with and whatever else is thrown, the error
    the response interceptor puts in its place follows the taxonomy: without
    a response it is a retryable NETWORK error; with status 401 or 403 a
    retryable SESSION error; with any other status an API error that carries
    the status and the message of axios and is retryable exactly from 500
    on; and in every case, also for errors that are not from axios, the
    retryable flag is the one the category prescribes. *)
Theorem response_error_taxonomy :
  (forall e url,
      category (classify config (ThrownAxios e None url)) = NETWORK
      /\ retryable (classify config (ThrownAxios e None url)) = true)
  /\ (forall e status url,
         let err := classify config (ThrownAxios e (Some status) url) in
         if Z.eqb status 401 || Z.eqb status 403
         then category err = SESSION /\ retryable err = true
         else category err = API
              /\ retryable err = Z.leb 500 status
              /\ statusCode err = Some status
              /\ message err = error_message e)
  /\ (forall e response url,
         retryable (classify config (ThrownAxios e response url))
         = retryable_by_category (classify config (ThrownAxios e response url)))
  /\ (forall e,
         retryable (classify config (ThrownError e))
         = retryable_by_category (classify config (ThrownError e)))
  /\ (forall text,
         category (classify config (ThrownValue text)) = INTERNAL
         /\ retryable (classify config (ThrownValue text)) = false).
Proof.
  assert (N : forall e url,
             category (classify config (ThrownAxios e None url)) = NETWORK
             /\ retryable (classify config (ThrownAxios e None url)) = true).
  { intros e url. unfold classify, handleResponseError.
    destruct (code_is e "ECONNREFUSED"); [split; reflexivity|].
    destruct (code_is e "ETIMEDOUT" || code_is e "ECONNABORTED").
    - destruct (includes _ _); split; reflexivity.
    - destruct (code_is e "ENOTFOUND"); split; reflexivity. }
  assert (S : forall e status url,
             let err := classify config (ThrownAxios e (Some status) url) in
             if Z.eqb status 401 || Z.eqb status 403
             then category err = SESSION /\ retryable err = true
             else category err = API
                  /\ retryable err = Z.leb 500 status
                  /\ statusCode err = Some status
                  /\ message err = error_message e).
  { intros e status url. unfold classify, handleResponseError. simpl.
    destruct (Z.eqb status 401 || Z.eqb status 403); simpl; repeat split. }
  split; [exact N|]. split; [exact S|]. split; [|split].
  - intros e [status|] url.
    + specialize (S e status url). simpl in S.
      unfold retryable_by_category.
      destruct (Z.eqb status 401 || Z.eqb status 403).
      * destruct S as [-> ->]. reflexivity.
      * destruct S as (-> & -> & -> & _). reflexivity.
    + destruct (N e url) as [C R]. unfold retryable_by_category.
      rewrite C, R. reflexivity.
  - intros e. unfold classify, handleResponseError, wrapError, wrapJsError.
    destruct (code_is e "ECONNREFUSED"); [reflexivity|].
    destruct (code_is e "ETIMEDOUT" || code_is e "ECONNABORTED"); [reflexivity|].
    destruct (code_is e "ENOTFOUND"); reflexivity.
  - intros text. split; reflexivity.
Qed.

(** X2.  A timeout of a request to a URL that contains [/getDataByPeriod]
    is a retryable NETWORK error that carries the hint about date ranges
    without transactions; a timeout of any other request is the same error
    with no hint.  Both record the URL and the configured timeout. *)
Theorem timeout_hint (e : JsError) (url : jsstring) :
  error_code e = Some (js "ETIMEDOUT") \/ error_code e = Some (js "ECONNABORTED") ->
  let err := classify config (ThrownAxios e None (Some url)) in
  category err = NETWORK
  /\ retryable err = true
  /\ details err
     = Some [(js "url", VStr url);
             (js "timeoutMs", VNum (timeout config));
             (js "errorType", VStr (js "TIMEOUT"));
             (js "hint", if includes url (js "/getDataByPeriod")
                         then VStr transaction_list_hint
                         else VUndefined)].
Proof.
  intros H. unfold classify, handleResponseError, code_is.
  destruct H as [-> | ->]; simpl;
    destruct (includes url (js "/getDataByPeriod")); repeat split.
Qed.

End ClassifierFacts.

(** X2 on two runs: a timeout of the transaction listing, and one of the
    initial data. *)
Lemma timeout_hint_run :
  (let err := classify DEFAULT_CONFIG
                (ThrownAxios {| error_name := js "AxiosError";
                                error_code := Some (js "ECONNABORTED");
                                error_message := js "timeout of 30000ms exceeded";
                                error_stack := None |}
                             None (Some (js "/getDataByPeriod"))) in
   category err = NETWORK /\ retryable err = true
   /\ details err
      = Some [(js "url", VStr (js "/getDataByPeriod"));
              (js "timeoutMs", VNum (Dec 30000 0));
              (js "errorType", VStr (js "TIMEOUT"));
              (js "hint", VStr transaction_list_hint)])
  /\ (let err := classify DEFAULT_CONFIG
                   (ThrownAxios {| error_name := js "AxiosError";
                                   error_code := Some (js "ETIMEDOUT");
                                   error_message := js "timeout of 30000ms exceeded";
                                   error_stack := None |}
                                None (Some (js "/getInitData"))) in
      category err = NETWORK /\ retryable err = true
      /\ details err
         = Some [(js "url", VStr (js "/getInitData"));
                 (js "timeoutMs", VNum (Dec 30000 0));
                 (js "errorType", VStr (js "TIMEOUT"));
                 (js "hint", VUndefined)]).
Proof.
  split.
  - apply (timeout_hint DEFAULT_CONFIG
             {| error_name := js "AxiosError";
                error_code := Some (js "ECONNABORTED");
                error_message := js "timeout of 30000ms exceeded";
                error_stack := None |} (js "/getDataByPeriod")).
    right; reflexivity.
  - apply (timeout_hint DEFAULT_CONFIG
             {| error_name := js "AxiosError";
                error_code := Some (js "ETIMEDOUT");
                error_message := js "timeout of 30000ms exceeded";
                error_stack := None |} (js "/getInitData")).
    left; reflexivity.
Defined.

Lemma num_add_same (a b e : Z) : num_add (Dec a e) (Dec b e) = Dec (a + b) e.
Proof.
  unfold num_add. rewrite Z.min_id, Z.sub_diag. simpl. rewrite !Z.mul_1_r.
  reflexivity.
Qed.

Lemma fold_schedule (m e : Z) (n : nat) :
  forall (k a : Z),
    (0 <= k)%Z ->
    fold_left num_add (delays (schedule (Dec m e) k n)) (Dec a e)
    = Dec (a + m * 2 ^ k * (2 ^ Z.of_nat n - 1)) e.
Proof.
  induction n as [|n IH]; intros k a Hk.
  - cbn [schedule delays fold_left]. f_equal. simpl. lia.
  - cbn [schedule delays fold_left]. unfold times_pow2 at 1.
    rewrite num_add_same, IH by lia. f_equal.
    rewrite Nat2Z.inj_succ, Z.pow_succ_r by lia.
    rewrite Z.pow_add_r by lia. lia.
Qed.

Lemma total_wait_call_beats (m e : Z) (n : nat) (trailing : bool) :
  total_wait (call_beats (Dec m e) 0 n trailing)
  = match waits n trailing with
    | O => Dec 0 0
    | S _ => times (Dec m e) (2 ^ Z.of_nat (waits n trailing) - 1)
    end.
Proof.
  unfold total_wait. rewrite delays_call_beats.
  assert (G : forall j,
             match delays (schedule (Dec m e) 0 (S j)) with
             | [] => Dec 0 0
             | first :: others => fold_left num_add others first
             end = times (Dec m e) (2 ^ Z.of_nat (S j) - 1)).
  { intros j. cbn [schedule delays]. unfold times_pow2 at 1.
    rewrite fold_schedule by lia. unfold times. f_equal.
    rewrite Nat2Z.inj_succ, Z.pow_succ_r by lia.
    change (2 ^ 0)%Z with 1%Z. change (2 ^ (0 + 1))%Z with 2%Z. lia. }
  destruct trailing; unfold waits; [apply G|].
  destruct n as [|j]; [reflexivity | apply G].
Qed.

Lemma length_delays_call_beats (base : number) (k : Z) (n : nat) (trailing : bool) :
  List.length (delays (call_beats base k n trailing)) = waits n trailing.
Proof.
  assert (G : forall j i, List.length (delays (schedule base i j)) = j).
  { induction j as [|j IH]; intros i; cbn [schedule delays];
      [reflexivity|]. cbn [Datatypes.length]. f_equal. apply IH. }
  rewrite delays_call_beats. unfold waits. destruct trailing; apply G.
Qed.

Section ExecutorFacts.

Variable World : Type.
Variable send : Request -> World -> (AxiosResponse + thrown) * World.
Variable config : Config.

Lemma retry_loop_exhausts (r : Request) (m e : Z) (fuel : nat) :
  retryCount config = Dec m e ->
  always_failing send config r ->
  forall (attempt : Z) (lastError : option McpError) (st : Client World),
    (0 <= attempt)%Z ->
    (Z.of_nat fuel + attempt = floor (Dec m e) + 1)%Z ->
    (0 < fuel)%nat ->
    exists err st' new,
      retry_loop config (client_request send config r) fuel attempt lastError st
      = (Throw (ThrownMcp err), st')
      /\ retryable err = true
      /\ (exists e w w', send r w = (inr e, w') /\ err = classify config e)
      /\ this_retryCount st' = floor (Dec m e)
      /\ events st' = events st ++ new
      /\ beats new = call_beats (retryDelay config) attempt (fuel - 1)
                                (negb (is_integer (Dec m e))).
Proof.
  intros Hm Hfail.
  induction fuel as [|fuel IH]; intros attempt lastError st Ha Hsum Hpos; [lia|].
  assert (T : int_leb_num attempt (retryCount config) = true)
    by (rewrite Hm, int_leb_num_floor; apply Z.leb_le; lia).
  destruct (retry_loop_turn World send config r fuel attempt lastError st T)
    as (evs & quiet & B1 & B2 & E).
  rewrite E. clear E.
  destruct (Hfail (world st)) as (e' & w' & Hs & Hr). rewrite Hs, Hr.
  cbn [negb orb]. rewrite Hm, num_leb_int_floor by lia.
  destruct (Z.eqb attempt (floor (Dec m e)) && is_integer (Dec m e)) eqn:C.
  - apply andb_true_iff in C. destruct C as [C I]. apply Z.eqb_eq in C.
    assert (fuel = 0%nat) by lia. subst fuel.
    exists (classify config e'). do 2 eexists.
    split; [reflexivity|]. split; [exact Hr|].
    split; [exists e', (world st), w'; split; [exact Hs | reflexivity]|].
    rewrite I. simpl. split; [exact C|]. split; [reflexivity|].
    unfold call_beats. simpl. exact B1.
  - destruct fuel as [|fuel'].
    + assert (F : attempt = floor (Dec m e)) by lia.
      rewrite F, Z.eqb_refl in C. cbn [andb] in C.
      rewrite retry_loop_over
        by (rewrite Hm, int_leb_num_floor; apply Z.leb_gt; lia).
      exists (classify config e'). do 2 eexists.
      split; [reflexivity|]. split; [exact Hr|].
      split; [exists e', (world st), w'; split; [exact Hs | reflexivity]|].
      rewrite C. simpl. split; [exact F|]. split; [reflexivity|].
      unfold call_beats. simpl. rewrite !beats_app, B1, B2. simpl.
      rewrite Z.add_0_r, F. reflexivity.
    + match goal with
      | |- context [retry_loop _ _ (S fuel') ?a ?l ?s] =>
          destruct (IH a l s) as (err & st' & new & E & R & O & Th & Ev & B); try lia
      end.
      exists err, st'. eexists.
      split; [exact E|]. split; [exact R|]. split; [exact O|]. split; [exact Th|].
      rewrite Ev. simpl events. rewrite <- !app_assoc.
      split; [reflexivity|].
      rewrite !beats_app, B1, B2, B. unfold call_beats. simpl.
      rewrite Nat.sub_0_r.
      replace (attempt + 1 + Z.of_nat fuel')%Z
        with (attempt + Z.pos (Pos.of_succ_nat fuel'))%Z by lia.
      reflexivity.
Qed.

(** X3.  Against an upstream that fails every request retryably, and with a
    configuration that [ConfigSchema] accepts, a call of the executor makes
    one attempt for every integer from zero up to [maxRetries], waits
    [baseDelay * 2^k] after attempt [k] as long as [k] is below
    [maxRetries], and then throws the classified error of the last failed
    request; that error is retryable.  When [maxRetries] is an integer
    these are [maxRetries + 1] attempts and [maxRetries] waits; when it is
    not, the last attempt is followed by a wait too, and the error is
    thrown after the loop. *)
Theorem retries_are_exhausted (r : Request) (st : Client World) :
  ConfigSchema config = true ->
  always_failing send config r ->
  exists err st' new,
    executeWithRetry config (client_request send config r) st
    = (Throw (ThrownMcp err), st')
    /\ retryable err = true
    /\ (exists e w w', send r w = (inr e, w') /\ err = classify config e)
    /\ this_retryCount st' = floor (retryCount config)
    /\ events st' = events st ++ new
    /\ beats new
       = call_beats (retryDelay config) 0 (Z.to_nat (floor (retryCount config)))
                    (negb (is_integer (retryCount config)))
    /\ Z.of_nat (attempts (beats new)) = (floor (retryCount config) + 1)%Z
    /\ List.length (delays (beats new))
       = waits (Z.to_nat (floor (retryCount config)))
               (negb (is_integer (retryCount config))).
Proof.
  intros Hc Hf.
  destruct (ConfigSchema_bounds config Hc) as [(m & e & Hm & F & _) _].
  unfold executeWithRetry, turns. rewrite Hm.
  destruct (retry_loop_exhausts r m e (Z.to_nat (floor (Dec m e) + 1)) Hm Hf 0 None st)
    as (err & st' & new & E & R & O & T & Ev & B); try lia.
  exists err, st', new.
  replace (Z.to_nat (floor (Dec m e) + 1) - 1)%nat
    with (Z.to_nat (floor (Dec m e))) in B by lia.
  repeat (split; [assumption|]).
  rewrite B, attempts_call_beats, length_delays_call_beats. split; [lia | reflexivity].
Qed.

(** X4.  With a configuration that [ConfigSchema] accepts, a call of the
    executor waits only after attempts whose number is below [maxRetries],
    hence at most ten times; its waits add up to
    [baseDelay * (2^waits - 1)], which is at most 10230000 milliseconds. *)
Theorem total_backoff_is_bounded (r : Request) (st : Client World) :
  ConfigSchema config = true ->
  exists new,
    events (snd (executeWithRetry config (client_request send config r) st))
    = events st ++ new
    /\ (forall k, (Z.of_nat k < Z.of_nat (List.length (delays (beats new))))%Z ->
                  num_leb_int (retryCount config) (Z.of_nat k) = false)
    /\ (List.length (delays (beats new)) <= 10)%nat
    /\ total_wait (beats new)
       = match List.length (delays (beats new)) with
         | O => Dec 0 0
         | S _ => times (retryDelay config)
                        (2 ^ Z.of_nat (List.length (delays (beats new))) - 1)
         end
    /\ num_leb_int (total_wait (beats new)) 10230000 = true.
Proof.
  intros Hc.
  destruct (ConfigSchema_bounds config Hc)
    as [(m & e & Hm & F & I) (b & x & Hb & Pb & Ub)].
  unfold executeWithRetry, turns. rewrite Hm.
  destruct (retry_loop_schedule World send config r m e
              (Z.to_nat (floor (Dec m e) + 1)) Hm 0 None st)
    as (new & n & tr & E & B & L & Tr); try lia.
  exists new. split; [exact E|].
  rewrite B, length_delays_call_beats. rewrite Hb, total_wait_call_beats.
  assert (W : (waits n tr <= 10)%nat
              /\ forall k, (k < waits n tr)%nat ->
                           num_leb_int (Dec m e) (Z.of_nat k) = false).
  { unfold waits. destruct tr.
    - destruct (Tr eq_refl) as [N S']. specialize (I N). split; [lia|].
      intros k Hk. rewrite num_leb_int_floor by lia. rewrite N. apply andb_false_r.
    - split; [lia|]. intros k Hk. rewrite num_leb_int_floor by lia.
      replace (Z.eqb (Z.of_nat k) (floor (Dec m e))) with false; [reflexivity|].
      symmetry. apply Z.eqb_neq. lia. }
  destruct W as [W1 W2].
  split; [intros k Hk; apply W2; lia|]. split; [exact W1|]. split; [reflexivity|].
  destruct (waits n tr) as [|j] eqn:J; [reflexivity|].
  assert (P : (2 ^ Z.of_nat (S j) <= 2 ^ 10)%Z) by (apply Z.pow_le_mono_r; lia).
  assert (Q : (0 < 2 ^ Z.of_nat (S j))%Z) by (apply Z.pow_pos_nonneg; lia).
  change (2 ^ 10)%Z with 1024%Z in P.
  unfold times, num_leb_int in *. destruct (Z.leb 0 x) eqn:X.
  - apply Z.leb_le in Ub. apply Z.leb_le in X. apply Z.leb_le.
    pose proof (pow10_pos x X). nia.
  - apply Z.leb_le in Ub. apply Z.leb_gt in X. apply Z.leb_le.
    assert (0 < 10 ^ (- x))%Z by (apply pow10_pos; lia). nia.
Qed.

(** X5.  The first attempt decides whenever it does not fail retryably: a
    response is returned as it is, and an error that is classified as not
    retryable is thrown in its classified form; either way the executor has
    issued one request and has not slept. *)
Theorem first_attempt_decides (r : Request) (st : Client World) :
  ConfigSchema config = true ->
  (forall response w,
      send r (world st) = (inl response, w) ->
      exists st' new,
        executeWithRetry config (client_request send config r) st
        = (Return response, st')
        /\ world st' = w
        /\ events st' = events st ++ new
        /\ beats new = [Attempt])
  /\ (forall e w,
         send r (world st) = (inr e, w) ->
         retryable (classify config e) = false ->
         exists st' new,
           executeWithRetry config (client_request send config r) st
           = (Throw (ThrownMcp (classify config e)), st')
           /\ world st' = w
           /\ events st' = events st ++ new
           /\ beats new = [Attempt]).
Proof.
  intros Hc. destruct (first_turn config Hc) as (fuel & N & T).
  unfold executeWithRetry. rewrite N.
  destruct (retry_loop_turn World send config r fuel 0 None st T)
    as (evs & quiet & B1 & _ & X).
  rewrite X. split.
  - intros response w E. rewrite E. do 2 eexists.
    split; [reflexivity|]. simpl. repeat split. exact B1.
  - intros e w E R. rewrite E, R. simpl. do 2 eexists.
    split; [reflexivity|]. simpl. repeat split. exact B1.
Qed.

Lemma retry_loop_classified {A : Type} (requestFn : M World A) (fuel : nat) :
  forall attempt lastError st,
    throws_only_classified
      (fst (retry_loop config requestFn fuel attempt lastError st)).
Proof.
  induction fuel as [|fuel IH]; intros attempt lastError st.
  - simpl. eexists; reflexivity.
  - simpl. destruct (int_leb_num attempt (retryCount config));
      [|simpl; eexists; reflexivity].
    destruct (requestFn _) as [[a | t] st1]; simpl; [exact I|].
    destruct (negb _ || _); simpl; [eexists; reflexivity|].
    apply IH.
Qed.

(** What the executor returns is a response that the upstream has sent. *)
Lemma retry_loop_returns_sent (r : Request) (fuel : nat) :
  forall attempt lastError st response st',
    retry_loop config (client_request send config r) fuel attempt lastError st
    = (Return response, st') ->
    exists w w', send r w = (inl response, w').
Proof.
  induction fuel as [|fuel IH]; intros attempt lastError st response st';
    [discriminate|].
  destruct (int_leb_num attempt (retryCount config)) eqn:T.
  - destruct (retry_loop_turn World send config r fuel attempt lastError st T)
      as (evs & quiet & _ & _ & E).
    rewrite E. clear E.
    destruct (send r (world st)) as [[response' | err] w] eqn:S'.
    + intros H. injection H as <- _. exists (world st), w. exact S'.
    + destruct (negb _ || _); [discriminate|]. apply IH.
  - rewrite retry_loop_over by exact T. discriminate.
Qed.

End ExecutorFacts.

Section ClientFacts.

Variable World : Type.
Variable send : Request -> World -> (AxiosResponse + thrown) * World.
Variable syntaxErrorMessage : jsstring -> nat -> jsstring.
Variable evalFunction : jsstring -> option (outcome value).
Variable parseStringPromise : jsstring -> value + jsstring.
Variable config : Config.

Lemma decode_classified (responseText : jsstring) (st : Client World) :
  match fst (parseJsLiteralResponse syntaxErrorMessage evalFunction config
                                    responseText st) with
  | Return _ => True
  | Throw t =>
      (exists e, t = ThrownMcp e)
      \/ evalFunction (js "return (" ++ responseText ++ js ");") = Some (Throw t)
  end.
Proof.
  unfold parseJsLiteralResponse.
  destruct (_ || _); [exact I|].
  destruct (JSON.parse responseText); [exact I|].
  destruct (JSON.parse _); [exact I|].
  destruct (evalFunction _) as [[v | t]|]; simpl.
  - exact I.
  - right. reflexivity.
  - left. eexists; reflexivity.
Qed.

Lemma decodeXml_classified (xmlString : jsstring) (st : Client World) :
  throws_only_classified (fst (parseXmlResponse parseStringPromise xmlString st)).
Proof.
  unfold parseXmlResponse.
  destruct (_ || _); [exact I|].
  destruct (parseStringPromise xmlString) as [[]|]; simpl; try exact I.
  eexists; reflexivity.
Qed.

(** X6.  Whatever the request function does, the executor throws nothing but
    classified errors, and so does [getXml], whatever the upstream answers
    and whatever the XML parser meets.  What [get] and [post] throw is a
    classified error too, with one exception: when the body of a response
    is neither JSON nor a literal that the normalization repairs, and the
    evaluator makes of it an object whose [then] rejects, the caller
    receives what it rejects with. *)
Theorem client_throws_only_classified :
  (forall (A : Type) (requestFn : M World A) st,
      throws_only_classified (fst (executeWithRetry config requestFn st)))
  /\ (forall endpoint params st,
         throws_only_classified
           (fst (getXml send parseStringPromise config endpoint params st)))
  /\ (forall endpoint params st,
         throws_classified_or (rejection_of_a_body send evalFunction)
           (fst (get send syntaxErrorMessage evalFunction config endpoint params st)))
  /\ (forall endpoint fields st,
         throws_classified_or (rejection_of_a_body send evalFunction)
           (fst (post send syntaxErrorMessage evalFunction config endpoint fields st)))
  /\ (forall responseText t (st : Client World),
         fst (parseJsLiteralResponse syntaxErrorMessage evalFunction config
                                     responseText st) = Throw t ->
         (forall e, t <> ThrownMcp e) ->
         blank responseText = false
         /\ (exists pos, JSON.parse responseText = JSON.SyntaxError pos)
         /\ (exists pos, JSON.parse (convertJsLiteralToJson responseText)
                         = JSON.SyntaxError pos)
         /\ evalFunction (js "return (" ++ responseText ++ js ");")
            = Some (Throw t)).
Proof.
  assert (E : forall (A : Type) (requestFn : M World A) st,
             throws_only_classified (fst (executeWithRetry config requestFn st))).
  { intros A requestFn st. apply retry_loop_classified. }
  split; [exact E|].
  split; [|split; [|split]].
  - intros endpoint p st. unfold getXml, bind.
    match goal with
    | |- context [executeWithRetry config ?f st] =>
        pose proof (E _ f st) as H;
          destruct (executeWithRetry config f st) as [[a|t] st1]
    end; simpl in H |- *; [apply decodeXml_classified | exact H].
  - intros endpoint p st. unfold get, bind.
    match goal with
    | |- context [executeWithRetry config (client_request send config ?r) st] =>
        pose proof (E _ (client_request send config r) st) as H;
          pose proof (retry_loop_returns_sent World send config r
                        (turns (retryCount config)) 0 None st) as Sent;
          fold (executeWithRetry config (client_request send config r) st) in Sent;
          destruct (executeWithRetry config (client_request send config r) st)
          as [[a|t] st1]
    end; simpl in H |- *; [| left; exact H].
    destruct (Sent a st1 eq_refl) as (w & w' & Hs).
    pose proof (decode_classified (body_text a) st1) as D.
    destruct (fst (parseJsLiteralResponse _ _ _ _ _)) as [v | t]; [exact I|].
    destruct D as [D | D]; [left; exact D | right].
    do 4 eexists. split; [exact Hs | exact D].
  - intros endpoint p st. unfold post, bind.
    match goal with
    | |- context [executeWithRetry config (client_request send config ?r) st] =>
        pose proof (E _ (client_request send config r) st) as H;
          pose proof (retry_loop_returns_sent World send config r
                        (turns (retryCount config)) 0 None st) as Sent;
          fold (executeWithRetry config (client_request send config r) st) in Sent;
          destruct (executeWithRetry config (client_request send config r) st)
          as [[a|t] st1]
    end; simpl in H |- *; [| left; exact H].
    destruct (Sent a st1 eq_refl) as (w & w' & Hs).
    pose proof (decode_classified (body_text a) st1) as D.
    destruct (fst (parseJsLiteralResponse _ _ _ _ _)) as [v | t]; [exact I|].
    destruct D as [D | D]; [left; exact D | right].
    do 4 eexists. split; [exact Hs | exact D].
  - intros responseText t st. unfold parseJsLiteralResponse.
    rewrite blank_test.
    destruct (blank responseText); [discriminate|].
    destruct (JSON.parse responseText) as [v | p1]; [discriminate|].
    destruct (JSON.parse _) as [v | p2]; [discriminate|].
    destruct (evalFunction _) as [[v | t']|]; simpl.
    + discriminate.
    + intros H _. injection H as ->.
      split; [reflexivity|]. split; [eexists; reflexivity|].
      split; [eexists|]; reflexivity.
    + intros H N. injection H as <-. exfalso. eapply N. reflexivity.
Qed.

End ClientFacts.

(** X3 on two runs against an upstream that refuses every connection: the
    default configuration, with four attempts and three waits, and a
    configuration with two and a half retries, with three attempts and
    three waits. *)
Lemma retries_are_exhausted_run :
  (exists err st' new,
      executeWithRetry DEFAULT_CONFIG
        (client_request upstream_refusing DEFAULT_CONFIG a_request) (fresh 0%nat)
      = (Throw (ThrownMcp err), st')
      /\ retryable err = true
      /\ (exists e w w', upstream_refusing a_request w = (inr e, w')
                         /\ err = classify DEFAULT_CONFIG e)
      /\ this_retryCount st' = 3%Z
      /\ events st' = events (fresh 0%nat) ++ new
      /\ beats new = call_beats (Dec 1000 0) 0 3 false
      /\ Z.of_nat (attempts (beats new)) = 4%Z
      /\ List.length (delays (beats new)) = 3%nat)
  /\ (exists err st' new,
         executeWithRetry HALF_CONFIG
           (client_request upstream_refusing HALF_CONFIG a_request) (fresh 0%nat)
         = (Throw (ThrownMcp err), st')
         /\ retryable err = true
         /\ (exists e w w', upstream_refusing a_request w = (inr e, w')
                            /\ err = classify HALF_CONFIG e)
         /\ this_retryCount st' = 2%Z
         /\ events st' = events (fresh 0%nat) ++ new
         /\ beats new = call_beats (Dec 1000 0) 0 2 true
         /\ Z.of_nat (attempts (beats new)) = 3%Z
         /\ List.length (delays (beats new)) = 3%nat).
Proof.
  split.
  - apply (retries_are_exhausted nat upstream_refusing DEFAULT_CONFIG a_request
                                 (fresh 0%nat)).
    + reflexivity.
    + intros w. do 2 eexists. split; reflexivity.
  - apply (retries_are_exhausted nat upstream_refusing HALF_CONFIG a_request
                                 (fresh 0%nat)).
    + reflexivity.
    + intros w. do 2 eexists. split; reflexivity.
Defined.

(** X4 on a run: two and a half retries against the same upstream; the
    three waits add up to 7000. *)
Lemma total_backoff_is_bounded_run :
  exists new,
    events (snd (executeWithRetry HALF_CONFIG
                   (client_request upstream_refusing HALF_CONFIG a_request)
                   (fresh 0%nat)))
    = events (fresh 0%nat) ++ new
    /\ List.length (delays (beats new)) = 3%nat
    /\ total_wait (beats new) = Dec 7000 0
    /\ num_leb_int (total_wait (beats new)) 10230000 = true.
Proof.
  destruct (total_backoff_is_bounded nat upstream_refusing HALF_CONFIG a_request
                                     (fresh 0%nat) eq_refl)
    as (new & E & _ & _ & T & U).
  exists new. split; [exact E|].
  assert (L : List.length (delays (beats new)) = 3%nat).
  { vm_compute in E. subst new. reflexivity. }
  rewrite L in T. split; [exact L|]. split; [exact T | exact U].
Defined.

(** X5 on two runs: an upstream that answers, and one that answers with
    HTTP 404. *)
Lemma first_attempt_decides_run :
  (exists st' new,
      executeWithRetry DEFAULT_CONFIG
        (client_request (upstream_answering (VStr [])) DEFAULT_CONFIG a_request)
        (fresh 0%nat)
      = (Return (ok_response (VStr [])), st')
      /\ world st' = 1%nat
      /\ events st' = events (fresh 0%nat) ++ new
      /\ beats new = [Attempt])
  /\ (exists st' new,
         executeWithRetry DEFAULT_CONFIG
           (client_request upstream_404 DEFAULT_CONFIG a_request) (fresh 0%nat)
         = (Throw (ThrownMcp (classify DEFAULT_CONFIG (status_error 404))), st')
         /\ world st' = 1%nat
         /\ events st' = events (fresh 0%nat) ++ new
         /\ beats new = [Attempt]).
Proof.
  split.
  - destruct (first_attempt_decides nat (upstream_answering (VStr [])) DEFAULT_CONFIG
                a_request (fresh 0%nat) eq_refl) as [ok _].
    apply ok. reflexivity.
  - destruct (first_attempt_decides nat upstream_404 DEFAULT_CONFIG
                a_request (fresh 0%nat) eq_refl) as [_ ko].
    apply ko; reflexivity.
Defined.

(* ================================================================== *)
(** * The requests of a call *)
(* ================================================================== *)

Lemma requested_app (a b : list event) :
  requested (a ++ b) = requested a ++ requested b.
Proof.
  induction a as [|e a IH]; simpl; [reflexivity|].
  destruct e; simpl; rewrite ?IH; reflexivity.
Qed.

Lemma quiet_app (a b : list event) : quiet (a ++ b) = quiet a && quiet b.
Proof. apply forallb_app. Qed.

Lemma quiet_beats (evs : list event) : quiet evs = true -> beats evs = [].
Proof.
  induction evs as [|e evs IH]; simpl; [reflexivity|].
  destruct e; simpl; try discriminate; exact IH.
Qed.

Lemma quiet_requested (evs : list event) : quiet evs = true -> requested evs = [].
Proof.
  induction evs as [|e evs IH]; simpl; [reflexivity|].
  destruct e; simpl; try discriminate; exact IH.
Qed.

Section Traces.

Variable World : Type.
Variable send : Request -> World -> (AxiosResponse + thrown) * World.
Variable config : Config.

Lemma log_quiet level message args (st : Client World) :
  exists evs, log config level message args st = after st (world st) evs
              /\ quiet evs = true.
Proof.
  unfold log, after, emit.
  destruct (Nat.leb _ _).
  - eexists; split; reflexivity.
  - exists []. rewrite app_nil_r. destruct st; split; reflexivity.
Qed.

(** The events of one call of the axios instance: the request, between
    events that are quiet. *)
Lemma client_request_trace (r : Request) (st : Client World) :
  exists q1 q2,
    quiet q1 = true /\ quiet q2 = true /\
    client_request send config r st
    = match send r (world st) with
      | (inl response, w) =>
          (Return response,
           {| world := w; this_retryCount := this_retryCount st;
              events := events st ++ q1 ++ Requested r :: q2 |})
      | (inr error, w) =>
          (Throw (ThrownMcp (classify config error)),
           {| world := w; this_retryCount := this_retryCount st;
              events := events st ++ q1 ++ Requested r :: q2 |})
      end.
Proof.
  unfold client_request.
  destruct (log_quiet level_debug
              (js "Request: " ++ methodName (method r) ++ js " " ++ url r) [] st)
    as (l1 & E1 & B1).
  rewrite E1. unfold after at 1. simpl world.
  destruct (send r (world st)) as [[response | err] w].
  - match goal with
    | |- context [log config level_debug ?m [] ?s] =>
        destruct (log_quiet level_debug m [] s) as (l2 & E2 & B2); rewrite E2
    end.
    unfold after, emit; simpl.
    destruct (session_persist config); simpl.
    + exists l1, (l2 ++ [CookiesSaved]).
      split; [exact B1|]. split; [rewrite quiet_app, B2; reflexivity|].
      rewrite <- !app_assoc. reflexivity.
    + exists l1, l2. split; [exact B1|]. split; [exact B2|].
      rewrite <- !app_assoc. reflexivity.
  - rewrite handleResponseError_classified.
    unfold after, emit; simpl.
    exists l1, []. split; [exact B1|]. split; [reflexivity|].
    rewrite <- !app_assoc. reflexivity.
Qed.

Lemma retry_loop_turn_trace (r : Request) (fuel : nat) (attempt : Z)
      (lastError : option McpError) (st : Client World) :
  int_leb_num attempt (retryCount config) = true ->
  exists q1 q2 q3,
    quiet q1 = true /\ quiet q2 = true /\ quiet q3 = true /\
    retry_loop config (client_request send config r) (S fuel) attempt lastError st
    = match send r (world st) with
      | (inl response, w) =>
          (Return response,
           {| world := w; this_retryCount := attempt;
              events := events st ++ q1 ++ Requested r :: q2 |})
      | (inr err, w) =>
          if negb (retryable (classify config err))
             || num_leb_int (retryCount config) attempt
          then (Throw (ThrownMcp (classify config err)),
                {| world := w; this_retryCount := attempt;
                   events := events st ++ q1 ++ Requested r :: q2 |})
          else retry_loop config (client_request send config r) fuel
                 (attempt + 1) (Some (classify config err))
                 {| world := w; this_retryCount := attempt;
                    events := events st ++ (q1 ++ Requested r :: q2) ++ q3
                                ++ [Slept (times_pow2 (retryDelay config) attempt)] |}
      end.
Proof.
  intros T. simpl retry_loop. rewrite T.
  destruct (client_request_trace r
              {| world := world st; this_retryCount := attempt; events := events st |})
    as (q1 & q2 & B1 & B2 & E).
  rewrite E. simpl world. simpl this_retryCount. simpl events.
  destruct (send r (world st)) as [[response | err] w].
  - exists q1, q2, []. repeat split; assumption.
  - simpl wrapError.
    destruct (negb (retryable (classify config err))
              || num_leb_int (retryCount config) attempt).
    + exists q1, q2, []. repeat split; assumption.
    + match goal with
      | |- context [log config level_warn ?m [] ?s] =>
          destruct (log_quiet level_warn m [] s) as (q3 & E3 & B3); rewrite E3
      end.
      exists q1, q2, q3. repeat (split; [assumption|]).
      unfold sleep, emit, after. simpl. rewrite <- !app_assoc. reflexivity.
Qed.

Lemma retry_loop_requests (r : Request) (m e : Z) (fuel : nat) :
  retryCount config = Dec m e ->
  forall (attempt : Z) (lastError : option McpError) (st : Client World),
    (0 <= attempt)%Z ->
    (Z.of_nat fuel + attempt = floor (Dec m e) + 1)%Z ->
    (0 < fuel)%nat ->
    exists new n,
      events (snd (retry_loop config (client_request send config r)
                              fuel attempt lastError st))
      = events st ++ new
      /\ requested new = repeat r (S n)
      /\ attempts (beats new) = S n
      /\ (n < fuel)%nat.
Proof.
  intros Hm.
  induction fuel as [|fuel IH]; intros attempt lastError st Ha Hsum Hpos; [lia|].
  assert (T : int_leb_num attempt (retryCount config) = true)
    by (rewrite Hm, int_leb_num_floor; apply Z.leb_le; lia).
  destruct (retry_loop_turn_trace r fuel attempt lastError st T)
    as (q1 & q2 & q3 & B1 & B2 & B3 & E).
  rewrite E. clear E.
  assert (R1 : requested (q1 ++ Requested r :: q2) = [r]).
  { rewrite requested_app. simpl. rewrite (quiet_requested _ B1), (quiet_requested _ B2).
    reflexivity. }
  assert (A1 : beats (q1 ++ Requested r :: q2) = [Attempt]).
  { rewrite beats_app. simpl. rewrite (quiet_beats _ B1), (quiet_beats _ B2).
    reflexivity. }
  destruct (send r (world st)) as [[response | err] w].
  - exists (q1 ++ Requested r :: q2), 0%nat. simpl. rewrite R1, A1.
    repeat split; lia.
  - destruct (negb (retryable (classify config err))
              || num_leb_int (retryCount config) attempt).
    + exists (q1 ++ Requested r :: q2), 0%nat. simpl. rewrite R1, A1.
      repeat split; lia.
    + destruct fuel as [|fuel'].
      * rewrite retry_loop_over
          by (rewrite Hm, int_leb_num_floor; apply Z.leb_gt; lia).
        eexists ((q1 ++ Requested r :: q2) ++ q3 ++ [Slept _]), 0%nat.
        simpl snd. simpl events.
        split; [reflexivity|].
        rewrite (requested_app (q1 ++ Requested r :: q2)),
          (beats_app (q1 ++ Requested r :: q2)), R1, A1.
        rewrite !requested_app, !beats_app,
          (quiet_requested _ B3), (quiet_beats _ B3).
        simpl. repeat split; lia.
      * match goal with
        | |- context [retry_loop _ _ (S fuel') ?a ?l ?s] =>
            destruct (IH a l s) as (new & n & Ev & Rq & At & L); try lia
        end.
        eexists ((q1 ++ Requested r :: q2) ++ q3 ++ [Slept _] ++ new), (S n).
        rewrite Ev. simpl events.
        split; [rewrite <- !app_assoc; reflexivity|].
        rewrite (requested_app (q1 ++ Requested r :: q2)),
          (beats_app (q1 ++ Requested r :: q2)), R1, A1.
        rewrite !requested_app, !beats_app, Rq,
          (quiet_requested _ B3), (quiet_beats _ B3).
        simpl. rewrite At. repeat split; lia.
Qed.

(** X7.  Every attempt of a call of the executor issues the very request of
    the first one: with a configuration that [ConfigSchema] accepts, the
    requests of a call are between one and [maxRetries + 1] copies of the
    same request, one for each attempt, whatever its method and payload. *)
Theorem every_attempt_resends_the_request (r : Request) (st : Client World) :
  ConfigSchema config = true ->
  exists new n,
    events (snd (executeWithRetry config (client_request send config r) st))
    = events st ++ new
    /\ requested new = repeat r (S n)
    /\ attempts (beats new) = S n
    /\ int_leb_num (Z.of_nat n) (retryCount config) = true.
Proof.
  intros Hc.
  destruct (ConfigSchema_bounds config Hc) as [(m & e & Hm & F & _) _].
  unfold executeWithRetry, turns. rewrite Hm.
  destruct (retry_loop_requests r m e (Z.to_nat (floor (Dec m e) + 1)) Hm 0 None st)
    as (new & n & E & R & A & L); try lia.
  exists new, n. repeat split; try assumption.
  rewrite int_leb_num_floor. apply Z.leb_le. lia.
Qed.

(** A request that is answered at once, with its trace. *)
Lemma answered_at_once (r : Request) (response : AxiosResponse) (w : World)
      (st : Client World) :
  ConfigSchema config = true ->
  send r (world st) = (inl response, w) ->
  exists q1 q2,
    quiet q1 = true /\ quiet q2 = true /\
    executeWithRetry config (client_request send config r) st
    = (Return response,
       {| world := w; this_retryCount := 0;
          events := events st ++ q1 ++ Requested r :: q2 |}).
Proof.
  intros Hc E. destruct (first_turn config Hc) as (fuel & N & T).
  unfold executeWithRetry. rewrite N.
  destruct (retry_loop_turn_trace r fuel 0 None st T)
    as (q1 & q2 & q3 & B1 & B2 & _ & X).
  rewrite X, E. exists q1, q2. repeat split; assumption.
Qed.

End Traces.

(** X7 on a run: a [POST] against an upstream that refuses every
    connection. *)
Lemma every_attempt_resends_the_request_run :
  exists new n,
    events (snd (executeWithRetry DEFAULT_CONFIG
                   (client_request upstream_refusing DEFAULT_CONFIG
                      (post_request (js "/create")
                                    (Some [(js "mbCash", VNum (Dec 500 0))])))
                   (fresh 0%nat)))
    = events (fresh 0%nat) ++ new
    /\ requested new
       = repeat (post_request (js "/create") (Some [(js "mbCash", VNum (Dec 500 0))]))
                (S n)
    /\ attempts (beats new) = S n
    /\ int_leb_num (Z.of_nat n) (Dec 3 0) = true.
Proof.
  apply (every_attempt_resends_the_request nat upstream_refusing DEFAULT_CONFIG).
  reflexivity.
Defined.

(* ================================================================== *)
(** * More properties of the client *)
(* ================================================================== *)




Section DecodingFacts.

Variable World : Type.
Variable send : Request -> World -> (AxiosResponse + thrown) * World.
Variable syntaxErrorMessage : jsstring -> nat -> jsstring.
Variable evalFunction : jsstring -> option (outcome value).
Variable parseStringPromise : jsstring -> value + jsstring.
Variable config : Config.

(** The decoder adds nothing to the events but a line of the log. *)
Lemma decode_quiet (responseText : jsstring) (st : Client World) :
  exists q,
    snd (parseJsLiteralResponse syntaxErrorMessage evalFunction config
                                responseText st)
    = after st (world st) q
    /\ quiet q = true.
Proof.
  assert (Id : st = after st (world st) []).
  { unfold after. rewrite app_nil_r. destruct st; reflexivity. }
  unfold parseJsLiteralResponse.
  destruct (_ || _); [exists []; split; [exact Id | reflexivity]|].
  destruct (JSON.parse responseText); [exists []; split; [exact Id | reflexivity]|].
  destruct (JSON.parse _); [exists []; split; [exact Id | reflexivity]|].
  destruct (evalFunction _) as [[v | rejection]|];
    [exists []; split; [exact Id | reflexivity] ..|].
  simpl. rewrite log_error_emits. eexists. split; reflexivity.
Qed.

(** X9.  A body that cannot be decoded is not asked for again.  When the
    upstream answers the request of [getXml] with a body that xml2js
    rejects, or the request of [post] with a body that is no JSON, no object
    literal and no expression, the client has issued that one request, has
    not slept, and throws an API error that is not retryable. *)
Theorem undecodable_body_is_asked_once :
  ConfigSchema config = true ->
  (forall endpoint params st response w error,
      send (getXml_request endpoint params) (world st) = (inl response, w) ->
      blank (body_text response) = false ->
      parseStringPromise (body_text response) = inr error ->
      exists err st' new,
        getXml send parseStringPromise config endpoint params st
        = (Throw (ThrownMcp err), st')
        /\ category err = API
        /\ retryable err = false
        /\ message err = js "Failed to parse XML response: " ++ error
        /\ world st' = w
        /\ events st' = events st ++ new
        /\ requested new = [getXml_request endpoint params]
        /\ delays (beats new) = [])
  /\ (forall endpoint fields st response w p1 p2,
         send (post_request endpoint fields) (world st) = (inl response, w) ->
         blank (body_text response) = false ->
         JSON.parse (body_text response) = JSON.SyntaxError p1 ->
         JSON.parse (convertJsLiteralToJson (body_text response))
         = JSON.SyntaxError p2 ->
         evalFunction (js "return (" ++ body_text response ++ js ");") = None ->
         exists err st' new,
           post send syntaxErrorMessage evalFunction config endpoint fields st
           = (Throw (ThrownMcp err), st')
           /\ category err = API
           /\ retryable err = false
           /\ world st' = w
           /\ events st' = events st ++ new
           /\ requested new = [post_request endpoint fields]
           /\ delays (beats new) = []).
Proof.
  intros Hc. split.
  - intros endpoint params st response w error E B P.
    destruct (answered_at_once World send config _ response w st Hc E)
      as (q1 & q2 & Q1 & Q2 & X).
    unfold getXml, bind. fold (getXml_request endpoint params). rewrite X.
    unfold parseXmlResponse. rewrite blank_test, B, P.
    do 3 eexists. split; [reflexivity|]. simpl.
    repeat (split; [reflexivity|]).
    rewrite requested_app, beats_app. simpl.
    rewrite (quiet_requested _ Q1), (quiet_requested _ Q2),
      (quiet_beats _ Q1), (quiet_beats _ Q2). split; reflexivity.
  - intros endpoint fields st response w p1 p2 E B P1 P2 P3.
    destruct (answered_at_once World send config _ response w st Hc E)
      as (q1 & q2 & Q1 & Q2 & X).
    unfold post, bind. fold (post_request endpoint fields). rewrite X.
    unfold parseJsLiteralResponse. rewrite blank_test, B, P1, P2, P3, log_error_emits.
    do 3 eexists. split; [reflexivity|]. simpl.
    repeat (split; [reflexivity|]).
    split; [rewrite <- app_assoc; reflexivity|].
    rewrite !requested_app, !beats_app. simpl.
    rewrite (quiet_requested _ Q1), (quiet_requested _ Q2),
      (quiet_beats _ Q1), (quiet_beats _ Q2). split; reflexivity.
Qed.

End DecodingFacts.

(** X9 on two runs: an upstream that answers with text that is no XML, and
    one that answers with [garbled]. *)
Lemma undecodable_body_is_asked_once_run :
  (exists err st' new,
      getXml (upstream_answering (VStr (js "oops"))) no_document DEFAULT_CONFIG
             (js "/getDataByPeriod") None (fresh 0%nat)
      = (Throw (ThrownMcp err), st')
      /\ category err = API
      /\ retryable err = false
      /\ message err
         = js "Failed to parse XML response: "
              ++ js "Error: Non-whitespace before first tag."
      /\ world st' = 1%nat
      /\ events st' = events (fresh 0%nat) ++ new
      /\ requested new = [getXml_request (js "/getDataByPeriod") None]
      /\ delays (beats new) = [])
  /\ (exists err st' new,
         post (upstream_answering (VStr garbled)) v8_message no_expression
              DEFAULT_CONFIG (js "/create") None (fresh 0%nat)
         = (Throw (ThrownMcp err), st')
         /\ category err = API
         /\ retryable err = false
         /\ world st' = 1%nat
         /\ events st' = events (fresh 0%nat) ++ new
         /\ requested new = [post_request (js "/create") None]
         /\ delays (beats new) = []).
Proof.
  split.
  - destruct (undecodable_body_is_asked_once nat (upstream_answering (VStr (js "oops")))
                v8_message no_expression no_document DEFAULT_CONFIG eq_refl)
      as [xml _].
    apply (xml (js "/getDataByPeriod") None (fresh 0%nat)
               (ok_response (VStr (js "oops"))) 1%nat); reflexivity.
  - destruct (undecodable_body_is_asked_once nat (upstream_answering (VStr garbled))
                v8_message no_expression no_document DEFAULT_CONFIG eq_refl)
      as [_ quasi].
    apply (quasi (js "/create") None (fresh 0%nat)
                 (ok_response (VStr garbled)) 1%nat 28%nat 28%nat); reflexivity.
Defined.

(* ================================================================== *)
(** * More properties of the handlers *)
(* ================================================================== *)

Ltac open_any_handler :=
  unfold handleInitGetData, handleTransactionList, handleTransactionCreate,
    handleTransactionUpdate, handleTransactionDelete, handleSummaryGetPeriod,
    handleSummaryExportExcel, handleAssetList, handleAssetCreate,
    handleAssetUpdate, handleAssetDelete, handleCardList, handleCardCreate,
    handleCardUpdate, handleTransferCreate, handleTransferUpdate,
    handleDashboardGetOverview, handleDashboardGetAssetChart,
    handleBackupDownload, handleBackupRestore, bind, lift, try_catch.

Section ValidationFacts.

Variable World : Type.
Variable zodParse : string -> value -> outcome value.
Variable parseInt10 : value -> number.
Variable parseFloat : value -> number.
Variable add : number -> number -> number.
Variable abs : number -> number.
Variable iterate : value -> outcome (list value).
Variable toLowerCase : jsstring -> jsstring.
Variable httpClient : HttpClient World.
Variable fileClient : FileClient World.

(** X10.  Validation comes first in every handler: when the schema of a
    tool rejects the input, the handler throws what the schema threw and
    leaves the client as it was; it has called no method of the client, so
    nothing has been sent and nothing written. *)
Theorem invalid_input_reaches_no_client
        (tool schema : string) (handler : value -> M World value)
        (input : value) (t : thrown) (st : Client World) :
  In (tool, schema, handler)
     (allHandlers zodParse parseInt10 parseFloat add abs iterate toLowerCase
                  httpClient fileClient) ->
  zodParse schema input = Throw t ->
  handler input st = (Throw t, st).
Proof.
  intros Hin Hz. simpl in Hin.
  repeat (destruct Hin as [Hin | Hin]; [injection Hin as <- <- <- |]);
    try contradiction;
    open_any_handler; rewrite Hz; reflexivity.
Qed.

(** X11.  When the XML response has a data set that is an object with rows,
    none of them null, the handler of [transaction_list] returns one
    transaction for each row, in order, a row that stands alone counting as
    a list of one; every transaction has the [id] of its row and an amount
    that is a number and not NaN; and the count is what [parseInt] makes of
    the [results] of the data set (of the text 0 when it has none), whatever
    the number of rows. *)
Theorem one_transaction_for_each_row
        (input validated rawResponse : value) (st st1 : Client World) :
  zodParse "TransactionListInputSchema" input = Return validated ->
  client_getXml httpClient (js "/getDataByPeriod") (Some (period_params validated)) st
  = (Return rawResponse, st1) ->
  truthy (prop rawResponse "dataset") = true ->
  is_string (prop rawResponse "dataset") = false ->
  truthy (prop (prop rawResponse "dataset") "row") = true ->
  forallb (fun row => negb (nullish row))
          (rows_of (prop (prop rawResponse "dataset") "row")) = true ->
  exists transactions,
    handleTransactionList zodParse parseInt10 parseFloat httpClient input st
    = (Return (VObj [(js "count",
                      VNum (parseInt10
                              (js_or (prop (prop rawResponse "dataset") "results")
                                     (VStr (js "0")))));
                     (js "transactions", VArr transactions)]), st1)
    /\ Forall2 (fun row transaction =>
                  prop transaction "id" = prop row "id"
                  /\ exists n, prop transaction "mbCash" = VNum n /\ n <> NaN)
               (rows_of (prop (prop rawResponse "dataset") "row")) transactions.
Proof.
  intros Hv Hx Hd Hs Hr Hn.
  assert (Rows : forall rows (s : Client World),
             forallb (fun row => negb (nullish row)) rows = true ->
             exists ts,
               map_M (transaction_of_row parseFloat) rows s = (Return ts, s)
               /\ Forall2 (fun row transaction =>
                             prop transaction "id" = prop row "id"
                             /\ exists n, prop transaction "mbCash" = VNum n
                                          /\ n <> NaN) rows ts).
  { assert (One : forall row (s : Client World),
               nullish row = false ->
               exists t,
                 transaction_of_row parseFloat row s = (Return t, s)
                 /\ prop t "id" = prop row "id"
                 /\ exists n, prop t "mbCash" = VNum n /\ n <> NaN).
    { intros row s Hrow.
      assert (Cash : exists n,
                 js_or (VNum (parseFloat (prop row "mbCash"))) (VNum (Dec 0 0))
                 = VNum n /\ n <> NaN).
      { unfold js_or. destruct (parseFloat (prop row "mbCash")) as [|m e]; simpl.
        - eexists; split; [reflexivity | discriminate].
        - destruct (Z.eqb m 0); simpl; eexists; split;
            try reflexivity; discriminate. }
      unfold transaction_of_row, bind, lift, read.
      destruct row; try discriminate Hrow;
        (eexists; split; [reflexivity|]; split; [reflexivity | exact Cash]). }
    induction rows as [|row rows IH]; intros s H.
    - exists []. split; [reflexivity | constructor].
    - simpl in H. apply andb_true_iff in H. destruct H as [Hrow Hrest].
      apply negb_true_iff in Hrow.
      destruct (IH s Hrest) as (ts & E & F).
      destruct (One row s Hrow) as (t & Et & Ft).
      exists (t :: ts). split.
      + cbn [map_M]. unfold bind. rewrite Et, E. reflexivity.
      + constructor; assumption. }
  unfold handleTransactionList, bind, lift. rewrite Hv, Hx.
  assert (T : truthy rawResponse = true).
  { destruct rawResponse; try reflexivity; simpl in Hd; discriminate. }
  rewrite T, Hd, Hs, Hr. change (negb true || negb true) with false.
  cbv beta iota zeta.
  destruct (Rows (rows_of (prop (prop rawResponse "dataset") "row")) st1 Hn)
    as (ts & E & F).
  unfold rows_of in E. rewrite E.
  exists ts. split; [reflexivity | exact F].
Qed.

End ValidationFacts.

(** X10 on a run: the handler of [transaction_create] under a validator that
    rejects. *)
Lemma invalid_input_reaches_no_client_run :
  handleTransactionCreate reject_input
    (client_over (VStr []) (has_files []) no_document) a_transfer (fresh 0%nat)
  = (reject_input "TransactionCreateInputSchema" a_transfer, fresh 0%nat).
Proof.
  apply (invalid_input_reaches_no_client nat reject_input not_a_number not_a_number
           (fun a _ => a) (fun a => a) (fun _ => Return [])
           ascii_lower (client_over (VStr []) (has_files []) no_document)
           (createFileClient nat (fun _ w => (inr connection_refused, w))
                             (fun p => p) (has_files [])
                             (fun _ w => (None, w)) (fun _ _ w => (None, w))
                             (fun _ _ => inl 0%Z) DEFAULT_CONFIG)
           "transaction_create" "TransactionCreateInputSchema").
  - simpl. do 2 right. left. reflexivity.
  - reflexivity.
Defined.

(** X11 on a run: a document with two rows, the second with an amount that
    is no number. *)
Lemma one_transaction_for_each_row_run :
  exists transactions,
    handleTransactionList accept_input not_a_number not_a_number
      (client_over (VStr (js "<dataset/>")) (has_files []) two_rows)
      a_period (fresh 0%nat)
    = (Return (VObj [(js "count", VNum NaN);
                     (js "transactions", VArr transactions)]),
       snd (client_getXml (client_over (VStr (js "<dataset/>")) (has_files []) two_rows)
              (js "/getDataByPeriod") (Some (period_params a_period)) (fresh 0%nat)))
    /\ Forall2 (fun row transaction =>
                  prop transaction "id" = prop row "id"
                  /\ exists n, prop transaction "mbCash" = VNum n /\ n <> NaN)
               [VObj [(js "id", VStr (js "r1")); (js "mbCash", VStr (js "12.5"))];
                VObj [(js "id", VStr (js "r2")); (js "mbCash", VStr (js "n/a"))]]
               transactions.
Proof.
  apply (one_transaction_for_each_row nat accept_input not_a_number not_a_number
           (client_over (VStr (js "<dataset/>")) (has_files []) two_rows)
           a_period a_period
           (VObj [(js "dataset",
                   VObj [(js "results", VStr (js "2"));
                         (js "row",
                          VArr [VObj [(js "id", VStr (js "r1"));
                                      (js "mbCash", VStr (js "12.5"))];
                                VObj [(js "id", VStr (js "r2"));
                                      (js "mbCash", VStr (js "n/a"))]])])]));
    reflexivity.
Defined.

Lemma join_colon_list (ids : list jsstring) :
  ids <> [] -> js ":" ++ join (js ":") (map VStr ids) = colon_list ids.
Proof.
  induction ids as [|id ids IH]; [congruence|]. intros _.
  destruct ids as [|id' ids].
  - unfold colon_list. simpl. rewrite app_nil_r. reflexivity.
  - change (join (js ":") (map VStr (id :: id' :: ids)))
      with (id ++ js ":" ++ join (js ":") (map VStr (id' :: ids))).
    rewrite IH by discriminate. reflexivity.
Qed.

Section RealHandlers.

Variable World : Type.
Variable send : Request -> World -> (AxiosResponse + thrown) * World.
Variable existsSync : World -> jsstring -> bool.
Variable syntaxErrorMessage : jsstring -> nat -> jsstring.
Variable evalFunction : jsstring -> option (outcome value).
Variable parseStringPromise : jsstring -> value + jsstring.
Variable config : Config.
Variable zodParse : string -> value -> outcome value.

Local Abbreviation theClient :=
  (createHttpClient send existsSync syntaxErrorMessage evalFunction
                    parseStringPromise config).

Lemma every_attempt_requests (r : Request) (st : Client World) :
  ConfigSchema config = true ->
  exists new n,
    events (snd (executeWithRetry config (client_request send config r) st))
    = events st ++ new
    /\ requested new = repeat r (S n)
    /\ int_leb_num (Z.of_nat n) (retryCount config) = true.
Proof.
  intros Hc.
  destruct (ConfigSchema_bounds config Hc) as [(m & e & Hm & F & _) _].
  unfold executeWithRetry, turns. rewrite Hm.
  destruct (retry_loop_requests World send config r m e
              (Z.to_nat (floor (Dec m e) + 1)) Hm 0 None st)
    as (new & n & E & R & A & L); try lia.
  exists new, n. repeat split; try assumption.
  rewrite int_leb_num_floor. apply Z.leb_le. lia.
Qed.

(** The requests of a [post]: copies of its one request. *)
Lemma post_requests (endpoint : jsstring) (fields : option object)
      (st : Client World) :
  ConfigSchema config = true ->
  exists new n,
    events (snd (post send syntaxErrorMessage evalFunction config endpoint fields st))
    = events st ++ new
    /\ requested new = repeat (post_request endpoint fields) (S n)
    /\ int_leb_num (Z.of_nat n) (retryCount config) = true.
Proof.
  intros Hc.
  destruct (every_attempt_requests (post_request endpoint fields) st Hc)
    as (new & n & E & R & L).
  unfold post, bind. fold (post_request endpoint fields).
  destruct (executeWithRetry _ _ st) as [[response | t] s1]; simpl in E.
  - destruct (decode_quiet World syntaxErrorMessage evalFunction config
                           (body_text response) s1) as (q & Eq & Q).
    rewrite Eq. unfold after. simpl. rewrite E.
    exists (new ++ q), n. rewrite <- app_assoc. split; [reflexivity|].
    rewrite requested_app, (quiet_requested _ Q), app_nil_r. split; [exact R | exact L].
  - exists new, n. simpl. split; [exact E|]. split; [exact R | exact L].
Qed.

(** X12.  The handler of [transaction_delete] sends the identifiers as one
    form field [ids], each identifier after a colon: with a configuration
    that [ConfigSchema] accepts and at least one identifier, every request
    it issues is the [POST] of that field to [/delete], and when it returns
    a result, the [deletedCount] is the number of identifiers it was given,
    whatever the upstream answered. *)
Theorem delete_sends_colon_list (ids : list jsstring) (input validated : value)
        (st : Client World) :
  ConfigSchema config = true ->
  zodParse "TransactionDeleteInputSchema" input = Return validated ->
  prop validated "ids" = VArr (map VStr ids) ->
  ids <> [] ->
  (exists new n,
      events (snd (handleTransactionDelete zodParse theClient input st))
      = events st ++ new
      /\ requested new
         = repeat (post_request (js "/delete")
                                (Some [(js "ids", VStr (colon_list ids))])) (S n)
      /\ payload (post_request (js "/delete")
                               (Some [(js "ids", VStr (colon_list ids))]))
         = Form [(js "ids", VStr (colon_list ids))])
  /\ (forall result,
         fst (handleTransactionDelete zodParse theClient input st) = Return result ->
         prop result "deletedCount" = VNum (Dec (Z.of_nat (List.length ids)) 0)).
Proof.
  intros Hc Hv Hids Hne.
  destruct (post_requests (js "/delete")
              (Some [(js "ids", VStr (colon_list ids))]) st Hc)
    as (new & n & E & R & _).
  unfold handleTransactionDelete, bind, lift. rewrite Hv. cbv beta iota zeta.
  rewrite Hids.
  change (array_items (VArr (map VStr ids))) with (map VStr ids).
  change (58%N :: join (js ":") (map VStr ids))
    with (js ":" ++ join (js ":") (map VStr ids)).
  rewrite (join_colon_list ids Hne), length_map. simpl client_post.
  destruct (post send syntaxErrorMessage evalFunction config (js "/delete")
              (Some [(js "ids", VStr (colon_list ids))]) st)
    as [[response | t] s1]; simpl in E.
  - destruct (nullish response) eqn:N.
    + destruct (succeeded_nullish World response s1 N) as [t F].
      rewrite F in *. simpl. split; [|discriminate].
      exists new, n. split; [exact E|]. split; [exact R | reflexivity].
    + rewrite (succeeded_flag World response s1 N). simpl. split.
      * exists new, n. split; [exact E|]. split; [exact R | reflexivity].
      * intros result H. injection H as <-. reflexivity.
  - simpl. split; [|discriminate].
    exists new, n. split; [exact E|]. split; [exact R | reflexivity].
Qed.

(** The [post] of a request that is answered with the body [null]. *)
Lemma post_null_body (endpoint : jsstring) (fields : option object)
      (st : Client World) :
  ConfigSchema config = true -> null_bodies send ->
  exists st' new,
    post send syntaxErrorMessage evalFunction config endpoint fields st
    = (Return VNull, st')
    /\ events st' = events st ++ new
    /\ requested new = [post_request endpoint fields]
    /\ delays (beats new) = [].
Proof.
  intros Hc Hn.
  destruct (Hn (post_request endpoint fields) (world st)) as (code & reason & w & E).
  destruct (answered_at_once World send config _ _ w st Hc E)
    as (q1 & q2 & Q1 & Q2 & X).
  unfold post, bind. fold (post_request endpoint fields). rewrite X.
  do 2 eexists. split; [reflexivity|]. simpl. split; [reflexivity|].
  rewrite requested_app, beats_app. simpl.
  rewrite (quiet_requested _ Q1), (quiet_requested _ Q2),
    (quiet_beats _ Q1), (quiet_beats _ Q2). split; reflexivity.
Qed.

(** X13.  When the upstream answers a write with the body [null], which is
    JSON, every mutating handler that posts a form throws the [TypeError] of
    reading [success] from [null], after the request has been sent once:
    the caller is told of an internal error although the upstream has
    received the write. *)
Theorem null_body_is_a_type_error
        (name : string) (handler : value -> M World value) (input : value)
        (st : Client World) :
  ConfigSchema config = true ->
  null_bodies send ->
  In (name, handler) (mutatingHandlers zodParse theClient) ->
  name <> "backup_restore"%string ->
  (forall schema, exists validated, zodParse schema input = Return validated) ->
  exists st' new r,
    handler input st = (Throw (null_has_no "success"), st')
    /\ events st' = events st ++ new
    /\ requested new = [r]
    /\ method r = POST
    /\ delays (beats new) = []
    /\ category (wrapError (null_has_no "success")) = INTERNAL.
Proof.
  intros Hc Hn Hin Hname Hv. simpl in Hin.
  repeat (destruct Hin as [Hin | Hin]; [injection Hin as <- <- |]);
    try contradiction; try (exfalso; apply Hname; reflexivity);
    open_any_handler;
    (match goal with
     | |- context [zodParse ?s input] =>
         destruct (Hv s) as [validated V]; rewrite V
     end);
    simpl client_post;
    (match goal with
     | |- context [post _ _ _ _ ?e ?f ?s] =>
         destruct (post_null_body e f s Hc Hn) as (st1 & new & P & E & R & D);
         rewrite P
     end);
    exists st1, new; eexists;
    (split; [reflexivity|]); (split; [exact E|]); (split; [exact R|]);
    (split; [reflexivity|]); (split; [exact D | reflexivity]).
Qed.

(** The [post] of a request that is answered with a body that the decoder
    reads. *)
Lemma post_decoded (body : jsstring) (decoded : value)
      (endpoint : jsstring) (fields : option object) (st : Client World) :
  ConfigSchema config = true ->
  answering_with send body ->
  (forall s : Client World,
      fst (parseJsLiteralResponse syntaxErrorMessage evalFunction config body s)
      = Return decoded) ->
  exists st',
    post send syntaxErrorMessage evalFunction config endpoint fields st
    = (Return decoded, st').
Proof.
  intros Hc Ha Hd.
  destruct (Ha (post_request endpoint fields) (world st)) as (code & reason & w & E).
  destruct (executeWithRetry_answered World send config _ _ w st Hc E) as (st1 & X).
  unfold post, bind. fold (post_request endpoint fields). rewrite X.
  change (body_text {| status := code; statusText := reason; data := VStr body |})
    with body.
  specialize (Hd st1).
  destruct (parseJsLiteralResponse syntaxErrorMessage evalFunction config body st1)
    as [o st2].
  simpl in Hd. subst o. eexists. reflexivity.
Qed.

(** X28.  The ten mutating handlers that post a form report what the
    decoded body of the upstream says.  With a configuration that
    [ConfigSchema] accepts and an input that passes validation, when the
    upstream answers with a body that the decoder reads as a value that is
    neither [null] nor [undefined], the handler returns a result whose
    [success] is true exactly when the [success] of the decoded body is not
    [false] and its [result] is not the string [fail]. *)
Theorem posting_handlers_report_the_decoded_body
        (name : string) (handler : value -> M World value) (input : value)
        (body : jsstring) (decoded : value) (st : Client World) :
  ConfigSchema config = true ->
  answering_with send body ->
  (forall s : Client World,
      fst (parseJsLiteralResponse syntaxErrorMessage evalFunction config body s)
      = Return decoded) ->
  nullish decoded = false ->
  In (name, handler) (mutatingHandlers zodParse theClient) ->
  name <> "backup_restore"%string ->
  (forall schema, exists validated, zodParse schema input = Return validated) ->
  exists result st',
    handler input st = (Return result, st')
    /\ prop result "success"
       = VBool (is_not_false (prop decoded "success")
                && is_not_string (js "fail") (prop decoded "result"))
    /\ (prop result "success" = VBool true
        <-> prop decoded "success" <> VBool false
            /\ prop decoded "result" <> VStr (js "fail")).
Proof.
  intros Hc Ha Hd Hn Hin Hname Hv.
  assert (G : forall result,
             prop result "success"
             = VBool (is_not_false (prop decoded "success")
                      && is_not_string (js "fail") (prop decoded "result")) ->
             prop result "success"
             = VBool (is_not_false (prop decoded "success")
                      && is_not_string (js "fail") (prop decoded "result"))
             /\ (prop result "success" = VBool true
                 <-> prop decoded "success" <> VBool false
                     /\ prop decoded "result" <> VStr (js "fail"))).
  { intros result E. split; [exact E|]. rewrite E.
    rewrite <- is_not_false_iff, <- is_not_string_iff, <- andb_true_iff.
    split; [intros H; injection H; auto | intros ->; reflexivity]. }
  simpl in Hin.
  repeat (destruct Hin as [Hin | Hin]; [injection Hin as <- <- |]);
    try contradiction; try (exfalso; apply Hname; reflexivity);
    open_any_handler;
    (match goal with
     | |- context [zodParse ?s input] =>
         destruct (Hv s) as [validated V]; rewrite V
     end);
    simpl client_post;
    (match goal with
     | |- context [post _ _ _ _ ?e ?f ?s] =>
         destruct (post_decoded body decoded e f s Hc Ha Hd) as (st1 & P);
         rewrite P, (succeeded_flag World decoded st1 Hn)
     end);
    do 2 eexists; (split; [reflexivity|]); apply G; reflexivity.
Qed.

(** X29.  An empty body is a success for every mutating handler: with a
    configuration that [ConfigSchema] accepts, an input that passes
    validation, a file that exists, and an upstream that answers with empty
    bodies, each of the eleven handlers returns a result whose [success] is
    true. *)
Theorem empty_body_is_a_success
        (name : string) (handler : value -> M World value) (input : value)
        (st : Client World) :
  ConfigSchema config = true ->
  empty_bodies send ->
  (forall w path, existsSync w path = true) ->
  In (name, handler) (mutatingHandlers zodParse theClient) ->
  (forall schema, exists validated, zodParse schema input = Return validated) ->
  exists result st',
    handler input st = (Return result, st')
    /\ prop result "success" = VBool true.
Proof.
  intros Hc He Hf Hin Hv.
  assert (S0 : forall s : Client World,
             succeeded (VObj []) s = (Return true, s)) by reflexivity.
  assert (S1 : forall s : Client World,
             succeeded (VStr []) s = (Return true, s)) by reflexivity.
  simpl in Hin.
  repeat (destruct Hin as [Hin | Hin]; [injection Hin as <- <- |]);
    try contradiction;
    open_any_handler;
    (match goal with
     | |- context [zodParse ?s input] =>
         destruct (Hv s) as [validated V]; rewrite V
     end);
    simpl client_post; simpl client_uploadFile;
    (match goal with
     | |- context [post _ _ _ _ ?e ?f ?s] =>
         destruct (post_empty_body World send syntaxErrorMessage evalFunction config
                     e f s Hc He) as [st1 P]; rewrite P, S0
     | |- context [uploadFile _ _ _ ?e ?f ?g ?s] =>
         destruct (uploadFile_empty_body World send existsSync config
                     e f g s Hc He (Hf _ _)) as [st1 P];
         rewrite P, S1
     end);
    do 2 eexists; (split; [reflexivity|]); reflexivity.
Qed.

End RealHandlers.

(** X12 on a run: the identifiers [a] and [b] go out as [:a:b]. *)
Lemma delete_sends_colon_list_run :
  (exists new n,
      events (snd (handleTransactionDelete accept_input
                     (client_over (VStr []) (has_files []) no_document)
                     two_ids (fresh 0%nat)))
      = events (fresh 0%nat) ++ new
      /\ requested new
         = repeat (post_request (js "/delete") (Some [(js "ids", VStr (js ":a:b"))]))
                  (S n)
      /\ payload (post_request (js "/delete") (Some [(js "ids", VStr (js ":a:b"))]))
         = Form [(js "ids", VStr (js ":a:b"))])
  /\ (forall result,
         fst (handleTransactionDelete accept_input
                (client_over (VStr []) (has_files []) no_document)
                two_ids (fresh 0%nat)) = Return result ->
         prop result "deletedCount" = VNum (Dec 2 0)).
Proof.
  apply (delete_sends_colon_list nat (upstream_answering (VStr [])) (has_files [])
           v8_message no_expression no_document DEFAULT_CONFIG accept_input
           [js "a"; js "b"] two_ids two_ids (fresh 0%nat));
    try reflexivity.
  discriminate.
Defined.

(** X13 on a run: [transaction_create] against an upstream that answers
    [null]. *)
Lemma null_body_is_a_type_error_run :
  exists st' new r,
    handleTransactionCreate accept_input
      (client_over (VStr (js "null")) (has_files []) no_document)
      a_transfer (fresh 0%nat)
    = (Throw (null_has_no "success"), st')
    /\ events st' = events (fresh 0%nat) ++ new
    /\ requested new = [r]
    /\ method r = POST
    /\ delays (beats new) = []
    /\ category (wrapError (null_has_no "success")) = INTERNAL.
Proof.
  apply (null_body_is_a_type_error nat (upstream_answering (VStr (js "null")))
           (has_files []) v8_message no_expression no_document DEFAULT_CONFIG
           accept_input "transaction_create"%string).
  - reflexivity.
  - intros r w. do 3 eexists. reflexivity.
  - simpl. left. reflexivity.
  - discriminate.
  - intros schema. eexists. reflexivity.
Defined.

(** X28 on a run: [transfer_update] against an upstream that answers with
    the body [{result:'fail'}]. *)
Lemma posting_handlers_report_the_decoded_body_run :
  exists result st',
    handleTransferUpdate accept_input
      (client_over (VStr (js "{result:'fail'}")) (has_files []) no_document)
      a_transfer (fresh 0%nat)
    = (Return result, st')
    /\ prop result "success" = VBool false
    /\ (prop result "success" = VBool true
        <-> prop (VObj [(js "result", VStr (js "fail"))]) "success" <> VBool false
            /\ prop (VObj [(js "result", VStr (js "fail"))]) "result"
               <> VStr (js "fail")).
Proof.
  apply (posting_handlers_report_the_decoded_body nat
           (upstream_answering (VStr (js "{result:'fail'}")))
           (has_files []) v8_message no_expression no_document DEFAULT_CONFIG
           accept_input "transfer_update"%string
           (handleTransferUpdate accept_input
              (client_over (VStr (js "{result:'fail'}")) (has_files []) no_document))
           a_transfer (js "{result:'fail'}")
           (VObj [(js "result", VStr (js "fail"))]) (fresh 0%nat)).
  - reflexivity.
  - intros r w. do 3 eexists. reflexivity.
  - intros s. reflexivity.
  - reflexivity.
  - simpl. repeat (first [left; reflexivity | right]).
  - discriminate.
  - intros schema. eexists. reflexivity.
Defined.

(** X29 on a run: [backup_restore] against an upstream that answers with an
    empty body. *)
Lemma empty_body_is_a_success_run :
  exists result st',
    handleBackupRestore accept_input
      (client_over (VStr []) every_file no_document) a_backup (fresh 0%nat)
    = (Return result, st')
    /\ prop result "success" = VBool true.
Proof.
  apply (empty_body_is_a_success nat (upstream_answering (VStr [])) every_file
           v8_message no_expression no_document DEFAULT_CONFIG accept_input
           "backup_restore"%string).
  - reflexivity.
  - intros r w. do 3 eexists. reflexivity.
  - reflexivity.
  - simpl. repeat (first [left; reflexivity | right]).
  - intros schema. eexists. reflexivity.
Defined.

(* ================================================================== *)
(** * The downloads *)
(* ================================================================== *)

Section DownloadFacts.

Variable World : Type.
Variable send : Request -> World -> (AxiosResponse + thrown) * World.
Variable dirname : jsstring -> jsstring.
Variable existsSync : World -> jsstring -> bool.
Variable mkdirSync : jsstring -> World -> option thrown * World.
Variable writeFileSync : jsstring -> value -> World -> option thrown * World.
Variable statSync : World -> jsstring -> Z + thrown.
Variable config : Config.
Variable zodParse : string -> value -> outcome value.
Variable toLowerCase : jsstring -> jsstring.

Local Abbreviation theFiles :=
  (createFileClient World send dirname existsSync mkdirSync writeFileSync
                    statSync config).

(** Over a transport that rejects every request, the loop throws the
    classified form of a rejection. *)
Lemma retry_loop_refused (r : Request) (m e : Z) (fuel : nat) :
  retryCount config = Dec m e ->
  all_refused send ->
  forall (attempt : Z) (lastError : option McpError) (st : Client World),
    (0 <= attempt)%Z ->
    (Z.of_nat fuel + attempt = floor (Dec m e) + 1)%Z ->
    (0 < fuel)%nat ->
    exists err st',
      retry_loop config (client_request send config r) fuel attempt lastError st
      = (Throw (ThrownMcp err), st')
      /\ exists rejection w w',
          send r w = (inr rejection, w') /\ err = classify config rejection.
Proof.
  intros Hm Hr.
  induction fuel as [|fuel IH]; intros attempt lastError st Ha Hsum Hpos; [lia|].
  assert (T : int_leb_num attempt (retryCount config) = true)
    by (rewrite Hm, int_leb_num_floor; apply Z.leb_le; lia).
  destruct (retry_loop_turn World send config r fuel attempt lastError st T)
    as (evs & quiet & _ & _ & E).
  rewrite E. clear E.
  destruct (Hr r (world st)) as (rejection & w' & Hs). rewrite Hs.
  destruct (negb (retryable (classify config rejection))
            || num_leb_int (retryCount config) attempt).
  - do 2 eexists. split; [reflexivity|].
    exists rejection, (world st), w'. split; [exact Hs | reflexivity].
  - destruct fuel as [|fuel'].
    + rewrite retry_loop_over
        by (rewrite Hm, int_leb_num_floor; apply Z.leb_gt; lia).
      do 2 eexists. split; [reflexivity|].
      exists rejection, (world st), w'. split; [exact Hs | reflexivity].
    + apply IH; lia.
Qed.

(** The executor over a transport that rejects every request. *)
Lemma refused_download (r : Request) (st : Client World) :
  ConfigSchema config = true ->
  all_refused send ->
  exists err st',
    executeWithRetry config (client_request send config r) st
    = (Throw (ThrownMcp err), st')
    /\ exists rejection w w',
        send r w = (inr rejection, w') /\ err = classify config rejection.
Proof.
  intros Hc Hr.
  destruct (ConfigSchema_bounds config Hc) as [(m & e & Hm & F & _) _].
  unfold executeWithRetry, turns. rewrite Hm.
  apply (retry_loop_refused r m e); try assumption; lia.
Qed.

(** X14.  A download whose request fails is reported as a failure to write
    the file.  With a configuration that [ConfigSchema] accepts and an
    upstream that rejects every request, the executor throws for the
    request of the handler the classified form of a rejection of that
    request, and the handler of [backup_download] throws the [FileError] of
    a failed write at its output path, with the message of that classified
    error as [originalError]; so does the handler of
    [summary_export_excel], at the path it would have written to.  The
    error has category FILE and is not retryable, and the outcome is the
    same over any other file system: the directory is not made and the
    file is not written. *)
Theorem failed_download_is_a_write_failure
        (input validated : value) (st : Client World) :
  ConfigSchema config = true ->
  all_refused send ->
  (forall schema, zodParse schema input = Return validated) ->
  (exists err st',
      executeWithRetry config (client_request send config backup_request) st
      = (Throw (ThrownMcp err), st')
      /\ (exists rejection w w',
             send backup_request w = (inr rejection, w')
             /\ err = classify config rejection)
      /\ handleBackupDownload World zodParse theFiles input st
         = (Throw (ThrownMcp (FileError_writeFailed
                                (as_str (prop validated "outputPath"))
                                (Some (message err)))), st')
      /\ forall dirname' existsSync' mkdirSync' writeFileSync' statSync',
          handleBackupDownload World zodParse
            (createFileClient World send dirname' existsSync' mkdirSync'
                              writeFileSync' statSync' config) input st
          = handleBackupDownload World zodParse theFiles input st)
  /\ (exists err st',
         executeWithRetry config
           (client_request send config (export_request validated)) st
         = (Throw (ThrownMcp err), st')
         /\ (exists rejection w w',
                send (export_request validated) w = (inr rejection, w')
                /\ err = classify config rejection)
         /\ handleSummaryExportExcel World zodParse toLowerCase theFiles input st
            = (Throw (ThrownMcp (FileError_writeFailed
                                   (export_path toLowerCase
                                      (as_str (prop validated "outputPath")))
                                   (Some (message err)))), st')
         /\ forall dirname' existsSync' mkdirSync' writeFileSync' statSync',
             handleSummaryExportExcel World zodParse toLowerCase
               (createFileClient World send dirname' existsSync' mkdirSync'
                                 writeFileSync' statSync' config) input st
             = handleSummaryExportExcel World zodParse toLowerCase theFiles input st)
  /\ forall path cause,
      category (FileError_writeFailed path cause) = FILE
      /\ retryable (FileError_writeFailed path cause) = false
      /\ filePath (FileError_writeFailed path cause) = Some path.
Proof.
  intros Hc Hr Hv. split; [|split].
  - destruct (refused_download backup_request st Hc Hr) as (err & st' & E & O).
    exists err, st'. split; [exact E|]. split; [exact O|].
    unfold handleBackupDownload, try_catch, bind, lift. rewrite !Hv.
    cbv beta iota zeta. simpl client_downloadFileGet.
    unfold downloadFileGet, bind. fold (downloadGet_request (js "/money.sqlite") None).
    fold backup_request. rewrite E. split; [reflexivity|].
    intros. reflexivity.
  - destruct (refused_download (export_request validated) st Hc Hr)
      as (err & st' & E & O).
    exists err, st'. split; [exact E|]. split; [exact O|].
    unfold handleSummaryExportExcel, try_catch, bind, lift. rewrite !Hv.
    cbv beta iota zeta. simpl client_downloadFile.
    unfold downloadFile, bind.
    match goal with
    | |- context [client_request send config ?r] =>
        change r with (export_request validated)
    end.
    rewrite E. split; [reflexivity|].
    intros. reflexivity.
  - intros path cause. repeat split.
Qed.

(** What a download that returns has done on the file system. *)
Lemma writeDownload_returns (outputPath : jsstring) (response : AxiosResponse)
      (result : value) (st st' : Client World) :
  writeDownload World dirname existsSync mkdirSync writeFileSync statSync
                outputPath response st
  = (Return result, st') ->
  exists w size,
    (if existsSync (world st) (dirname outputPath)
     then w = world st
     else mkdirSync (dirname outputPath) (world st) = (None, w))
    /\ writeFileSync outputPath (data response) w = (None, world st')
    /\ statSync (world st') outputPath = inl size
    /\ result = VObj [(js "filePath", VStr outputPath);
                      (js "fileSize", VNum (Dec size 0))].
Proof.
  unfold writeDownload, bind, fs_call, ret.
  destruct (existsSync (world st) (dirname outputPath)).
  - destruct (writeFileSync outputPath (data response) (world st))
      as [[t|] w] eqn:Ew; [discriminate|].
    simpl world.
    destruct (statSync w outputPath) as [size | t] eqn:Es; [|discriminate].
    intros H. injection H as <- <-. simpl world.
    exists (world st), size. repeat split; assumption.
  - destruct (mkdirSync (dirname outputPath) (world st)) as [[t|] w0] eqn:Em;
      [discriminate|].
    simpl world.
    destruct (writeFileSync outputPath (data response) w0)
      as [[t|] w] eqn:Ew; [discriminate|].
    simpl world.
    destruct (statSync w outputPath) as [size | t] eqn:Es; [|discriminate].
    intros H. injection H as <- <-. simpl world.
    exists w0, size. repeat split; assumption.
Qed.

(** X15.  An export that returns has written the response of the upstream
    to the corrected path.  With the program's own file client and a
    validated input whose output path is the string [given], the path used
    is [given] with its last five code units replaced by [.xls] when the
    lower-cased [given] ends with [.xlsx], and [given] itself otherwise.
    When the handler returns a result, the executor has returned a response
    that the upstream has sent for the request of the export;
    [writeFileSync] was given that path with the data of that response, in
    the world the executor left or the one [mkdirSync] made of it, and did
    not fail; the result names that path, its message names it too and
    carries the note on the extension exactly when the path was corrected,
    and its size is the one [statSync] reports for that path. *)
Theorem export_extension_is_corrected
        (input validated result : value) (given : jsstring) (st st' : Client World) :
  zodParse "SummaryExportExcelInputSchema" input = Return validated ->
  prop validated "outputPath" = VStr given ->
  handleSummaryExportExcel World zodParse toLowerCase theFiles input st
  = (Return result, st') ->
  prop result "success" = VBool true
  /\ prop result "filePath" = VStr (export_path toLowerCase given)
  /\ prop result "message"
     = VStr (js "Excel file exported successfully to "
                ++ export_path toLowerCase given
                ++ (if endsWith (toLowerCase given) (js ".xlsx")
                    then extension_note else []))
  /\ (exists size, statSync (world st') (export_path toLowerCase given) = inl size
                   /\ prop result "fileSize" = VNum (Dec size 0))
  /\ (exists response s1 w,
         executeWithRetry config
           (client_request send config (export_request validated)) st
         = (Return response, s1)
         /\ (exists w0 w1, send (export_request validated) w0 = (inl response, w1))
         /\ (if existsSync (world s1) (dirname (export_path toLowerCase given))
             then w = world s1
             else mkdirSync (dirname (export_path toLowerCase given)) (world s1)
                  = (None, w))
         /\ writeFileSync (export_path toLowerCase given) (data response) w
            = (None, world st')).
Proof.
  intros Hv Hp. unfold handleSummaryExportExcel, try_catch, bind, lift.
  rewrite Hv. cbv beta iota zeta. rewrite Hp. simpl as_str.
  simpl client_downloadFile. unfold downloadFile, bind.
  match goal with
  | |- context [client_request send config ?r] =>
      change r with (export_request validated)
  end.
  change (if endsWith (toLowerCase given) (js ".xlsx")
          then slice_off 5 given ++ js ".xls" else given)
    with (export_path toLowerCase given).
  pose proof (retry_loop_returns_sent World send config (export_request validated)
                (turns (retryCount config)) 0 None st) as Sent.
  fold (executeWithRetry config
          (client_request send config (export_request validated)) st) in Sent.
  destruct (executeWithRetry config
              (client_request send config (export_request validated)) st)
    as [[response | t] s1].
  2: { unfold as_write_failure. destruct (message_of_Error t); discriminate. }
  specialize (Sent response s1 eq_refl).
  pose proof (writeDownload_returns (export_path toLowerCase given) response) as W.
  destruct (writeDownload World dirname existsSync mkdirSync writeFileSync statSync
              (export_path toLowerCase given) response s1) as [[written | t] s2]
    eqn:Ed.
  2: { unfold as_write_failure. destruct (message_of_Error t); discriminate. }
  destruct (W written s1 s2 Ed) as (w & size & D & Wr & Sz & ->).
  simpl. intros H. injection H as <- <-.
  split; [reflexivity|]. split; [reflexivity|].
  split; [simpl; destruct (endsWith (toLowerCase given) (js ".xlsx")); simpl;
          rewrite ?app_nil_r, <- ?app_assoc; reflexivity|].
  split; [exists size; split; [exact Sz | reflexivity]|].
  exists response, s1, w.
  split; [reflexivity|]. split; [exact Sent|]. split; [exact D | exact Wr].
Qed.

End DownloadFacts.

Section FileHandlerFacts.

Variable World : Type.
Variable zodParse : string -> value -> outcome value.
Variable toLowerCase : jsstring -> jsstring.
Variable fileClient : FileClient World.

Lemma as_write_failure_throws (outputPath : jsstring) (t : thrown)
      (st : Client World) :
  exists err,
    as_write_failure World outputPath t st = (Throw (ThrownMcp err), st)
    /\ retryable err = false
    /\ (category err = FILE /\ filePath err = Some outputPath
        \/ category err = INTERNAL /\ message_of_Error t = None).
Proof.
  unfold as_write_failure. destruct t as [e | e s u | e | text]; simpl;
    eexists; (split; [reflexivity|]); (split; [reflexivity|]);
    first [left; split; reflexivity | right; split; reflexivity].
Qed.

(** X16.  Over any file client, the two file handlers fail on a validated
    input only with a classified error that is not retryable and is either
    of category FILE, at the path the handler writes to, or of category
    INTERNAL, the latter only for a thrown value that is no [Error]: an
    error of the network, of the session or of the upstream's status never
    reaches the caller in its own category. *)
Theorem file_handlers_throw_file_errors
        (input validated : value) (t : thrown) (st st' : Client World) :
  (forall schema, zodParse schema input = Return validated) ->
  handleBackupDownload World zodParse fileClient input st = (Throw t, st')
  \/ handleSummaryExportExcel World zodParse toLowerCase fileClient input st
     = (Throw t, st') ->
  exists err,
    t = ThrownMcp err
    /\ retryable err = false
    /\ (category err = FILE /\ (exists path, filePath err = Some path)
        \/ category err = INTERNAL).
Proof.
  intros Hv [H | H]; revert H.
  - unfold handleBackupDownload, try_catch, bind, lift. rewrite Hv.
    cbv beta iota zeta.
    destruct (client_downloadFileGet fileClient _ _ _ st) as [[result | t0] s1].
    + destruct (read result "filePath") as [p | t1]; [discriminate|].
      match goal with
      | |- context [as_write_failure _ ?p ?e ?s] =>
          destruct (as_write_failure_throws p e s) as (err & E & R & C)
      end.
      rewrite E. intros H. injection H as <- <-. exists err.
      split; [reflexivity|]. split; [exact R|].
      destruct C as [[C P] | [C _]]; [left; split; [exact C | eexists; exact P]
                                     | right; exact C].
    + match goal with
      | |- context [as_write_failure _ ?p ?e ?s] =>
          destruct (as_write_failure_throws p e s) as (err & E & R & C)
      end.
      rewrite E. intros H. injection H as <- <-. exists err.
      split; [reflexivity|]. split; [exact R|].
      destruct C as [[C P] | [C _]]; [left; split; [exact C | eexists; exact P]
                                     | right; exact C].
  - unfold handleSummaryExportExcel, try_catch, bind, lift. rewrite Hv.
    cbv beta iota zeta.
    destruct (client_downloadFile fileClient _ _ _ st) as [[result | t0] s1].
    + destruct (read result "filePath") as [p | t1]; [discriminate|].
      match goal with
      | |- context [as_write_failure _ ?p ?e ?s] =>
          destruct (as_write_failure_throws p e s) as (err & E & R & C)
      end.
      rewrite E. intros H. injection H as <- <-. exists err.
      split; [reflexivity|]. split; [exact R|].
      destruct C as [[C P] | [C _]]; [left; split; [exact C | eexists; exact P]
                                     | right; exact C].
    + match goal with
      | |- context [as_write_failure _ ?p ?e ?s] =>
          destruct (as_write_failure_throws p e s) as (err & E & R & C)
      end.
      rewrite E. intros H. injection H as <- <-. exists err.
      split; [reflexivity|]. split; [exact R|].
      destruct C as [[C P] | [C _]]; [left; split; [exact C | eexists; exact P]
                                     | right; exact C].
Qed.

End FileHandlerFacts.

(** X14 on a run: the connection is refused while the backup is downloaded. *)
Lemma failed_download_is_a_write_failure_run :
  exists err st',
    executeWithRetry DEFAULT_CONFIG
      (client_request upstream_refusing DEFAULT_CONFIG backup_request) (fresh 0%nat)
    = (Throw (ThrownMcp err), st')
    /\ (exists rejection w w',
           upstream_refusing backup_request w = (inr rejection, w')
           /\ err = classify DEFAULT_CONFIG rejection)
    /\ handleBackupDownload nat accept_input
         (createFileClient nat upstream_refusing parent_dir (has_files [])
                           mkdir_ok write_ok size_7 DEFAULT_CONFIG)
         a_download (fresh 0%nat)
       = (Throw (ThrownMcp (FileError_writeFailed (js "out/money.sqlite")
                                                  (Some (message err)))), st').
Proof.
  destruct (failed_download_is_a_write_failure nat upstream_refusing
              parent_dir (has_files []) mkdir_ok write_ok size_7 DEFAULT_CONFIG
              accept_input ascii_lower a_download a_download (fresh 0%nat))
    as [(err & st' & E & O & H & _) _].
  - reflexivity.
  - intros r w. do 2 eexists. reflexivity.
  - reflexivity.
  - exists err, st'. split; [exact E|]. split; [exact O | exact H].
Defined.

(** X15 on a run: [out/Report.XLSX] is written as [out/Report.xls]. *)
Lemma export_extension_is_corrected_run :
  exists result,
    fst (handleSummaryExportExcel nat accept_input ascii_lower
           (createFileClient nat (upstream_answering (VStr (js "<html/>")))
                             parent_dir (has_files [])
                             mkdir_ok write_ok size_7 DEFAULT_CONFIG)
           an_export (fresh 0%nat))
    = Return result
    /\ prop result "filePath" = VStr (js "out/Report.xls")
    /\ prop result "message"
       = VStr (js "Excel file exported successfully to out/Report.xls"
                  ++ extension_note)
    /\ prop result "fileSize" = VNum (Dec 7 0)
    /\ (exists w w',
           write_ok (js "out/Report.xls") (VStr (js "<html/>")) w = (None, w')).
Proof.
  assert (R : exists result st',
             handleSummaryExportExcel nat accept_input ascii_lower
               (createFileClient nat (upstream_answering (VStr (js "<html/>")))
                                 parent_dir (has_files [])
                                 mkdir_ok write_ok size_7 DEFAULT_CONFIG)
               an_export (fresh 0%nat)
             = (Return result, st'))
    by (do 2 eexists; vm_compute; reflexivity).
  destruct R as (result & st' & E).
  destruct (export_extension_is_corrected nat (upstream_answering (VStr (js "<html/>")))
              parent_dir (has_files [])
              mkdir_ok write_ok size_7 DEFAULT_CONFIG accept_input ascii_lower
              an_export an_export result (js "out/Report.XLSX") (fresh 0%nat) st'
              eq_refl eq_refl E)
    as (_ & P & Msg & (size & Es & F) & (response & s1 & w & X & _ & _ & W)).
  exists result. rewrite E. split; [reflexivity|]. split; [exact P|].
  split; [exact Msg|]. split; [rewrite F; injection Es as <-; reflexivity|].
  vm_compute in X. injection X as <- _.
  exists w, (world st'). exact W.
Defined.

(** X16 on a run: the write of the backup is denied. *)
Lemma file_handlers_throw_file_errors_run :
  exists t err,
    fst (handleBackupDownload nat accept_input
           (createFileClient nat (upstream_answering (VStr (js "<html/>"))) parent_dir (has_files [])
                             mkdir_ok write_denied size_7 DEFAULT_CONFIG)
           a_download (fresh 0%nat))
    = Throw t
    /\ t = ThrownMcp err
    /\ retryable err = false
    /\ (category err = FILE /\ (exists path, filePath err = Some path)
        \/ category err = INTERNAL).
Proof.
  assert (R : exists t st',
             handleBackupDownload nat accept_input
               (createFileClient nat (upstream_answering (VStr (js "<html/>"))) parent_dir (has_files [])
                                 mkdir_ok write_denied size_7 DEFAULT_CONFIG)
               a_download (fresh 0%nat)
             = (Throw t, st'))
    by (do 2 eexists; vm_compute; reflexivity).
  destruct R as (t & st' & E).
  destruct (file_handlers_throw_file_errors nat accept_input ascii_lower
              (createFileClient nat (upstream_answering (VStr (js "<html/>"))) parent_dir (has_files [])
                                mkdir_ok write_denied size_7 DEFAULT_CONFIG)
              a_download a_download t (fresh 0%nat) st'
              (fun _ => eq_refl) (or_introl E))
    as (err & T & R & C).
  exists t, err. rewrite E. split; [reflexivity|]. split; [exact T|].
  split; [exact R | exact C].
Defined.

(* ================================================================== *)
(** * The handlers that read *)
(* ================================================================== *)

Section ReadingFacts.

Variable World : Type.
Variable zodParse : string -> value -> outcome value.
Variable parseFloat : value -> number.
Variable add : number -> number -> number.
Variable abs : number -> number.
Variable iterate : value -> outcome (list value).

(** X17.  [toNumber] answers a number as it is; for a string it answers
    what [parseFloat] reads, except that [NaN] and zero, which are falsy,
    become the zero of the program; for every other value it answers that
    zero.  So it answers [NaN] for the number [NaN] only. *)
Theorem toNumber_is_a_number (v : value) :
  toNumber parseFloat v
  = match v with
    | VNum n => n
    | VStr _ => match parseFloat v with
                | NaN => Dec 0 0
                | Dec m e => if Z.eqb m 0 then Dec 0 0 else Dec m e
                end
    | _ => Dec 0 0
    end
  /\ (toNumber parseFloat v = NaN <-> v = VNum NaN).
Proof.
  split.
  - destruct v as [| | b | n | s | l | o]; try reflexivity.
    unfold toNumber. destruct (parseFloat (VStr s)) as [|m e]; [reflexivity|].
    simpl. destruct (Z.eqb m 0); reflexivity.
  - destruct v as [| | b | n | s | l | o]; simpl; try (split; discriminate).
    + split; [intros ->; reflexivity | intros H; injection H; auto].
    + destruct (parseFloat (VStr s)) as [|m e] eqn:P; simpl.
      * split; discriminate.
      * destruct (Z.eqb m 0); simpl; split; discriminate.
Qed.

Lemma add_children_fold (money : string) (weigh : number -> number)
      (items : list value) :
  Forall (fun child => nullish child = false) items ->
  forall total,
    add_children parseFloat add money weigh total items
    = Return (fold_left (fun total child =>
                           add total (weigh (toNumber parseFloat (prop child money))))
                        items total).
Proof.
  induction 1 as [|child rest Hc _ IH]; intros total; simpl; [reflexivity|].
  destruct child; try discriminate; simpl; apply IH.
Qed.

Lemma add_groups_fold (money : string) (weigh : number -> number)
      (groups : list value) :
  (forall items, iterate (VArr items) = Return items) ->
  readable_groups groups ->
  forall total,
    add_groups parseFloat add iterate money weigh total groups
    = Return (fold_left (fun total child =>
                           add total (weigh (toNumber parseFloat (prop child money))))
                        (flat_map children_of groups) total).
Proof.
  intros Hi. induction 1 as [|group rest (Hg & Hk & Hc) _ IH]; intros total;
    [reflexivity|].
  cbn [add_groups flat_map]. rewrite fold_left_app.
  assert (R : read group "children" = Return (prop group "children"))
    by (destruct group; try discriminate; reflexivity).
  rewrite R. unfold children_of in *.
  destruct Hk as [Hk | Hk].
  - rewrite Hk.
    assert (E : array_items (prop group "children") = []).
    { destruct (prop group "children"); try reflexivity; discriminate. }
    rewrite E. simpl. apply IH.
  - destruct (prop group "children") as [| | | | | items |]; try discriminate.
    simpl truthy. cbv iota. rewrite Hi. simpl array_items in *.
    rewrite (add_children_fold money weigh items Hc). apply IH.
Qed.

Variable httpClient : HttpClient World.

(** X18.  The totals of [asset_list] and [card_list] are sums over the
    children of all groups, in the order of the response: when the client
    answers with an array of groups that can be read, each with no children
    or an array of them, the asset total adds [toNumber] of every child's
    [assetMoney] to zero, the card total adds the absolute value of
    [toNumber] of every child's [notPayMoney], and the groups are handed
    on as they came. *)
Theorem totals_are_sums_over_children
        (input : value) (assets cards : list value) (st sa sc : Client World) :
  (forall schema, exists validated, zodParse schema input = Return validated) ->
  (forall items, iterate (VArr items) = Return items) ->
  client_get httpClient (js "/getAssetData") None st = (Return (VArr assets), sa) ->
  client_get httpClient (js "/getCardData") None st = (Return (VArr cards), sc) ->
  readable_groups assets ->
  readable_groups cards ->
  handleAssetList World zodParse parseFloat add iterate httpClient input st
  = (Return (VObj [(js "assetGroups", VArr assets);
                   (js "totalBalance",
                    VNum (money_sum add (toNumber parseFloat) "assetMoney" assets))]),
     sa)
  /\ handleCardList World zodParse parseFloat add abs iterate httpClient input st
     = (Return (VObj [(js "cardGroups", VArr cards);
                      (js "totalUnpaid",
                       VNum (money_sum add
                               (fun v => abs (toNumber parseFloat v))
                               "notPayMoney" cards))]),
        sc).
Proof.
  intros Hv Hi Ea Ec Ra Rc. split.
  - unfold handleAssetList, bind, lift.
    destruct (Hv "AssetListInputSchema"%string) as [validated V]. rewrite V, Ea.
    simpl isArray. cbv iota. simpl array_items.
    rewrite (add_groups_fold "assetMoney" (fun n => n) assets Hi Ra). reflexivity.
  - unfold handleCardList, bind, lift.
    destruct (Hv "CardListInputSchema"%string) as [validated V]. rewrite V, Ec.
    simpl isArray. cbv iota. simpl array_items.
    rewrite (add_groups_fold "notPayMoney" abs cards Hi Rc). reflexivity.
Qed.

(** X19.  A response that is no array is no groups: whatever else the
    client answers to [asset_list] and [card_list], [null] included, the
    handlers return an empty list of groups and the total zero, and do not
    throw. *)
Theorem non_array_is_no_groups
        (input rawAssets rawCards : value) (st sa sc : Client World) :
  (forall schema, exists validated, zodParse schema input = Return validated) ->
  client_get httpClient (js "/getAssetData") None st = (Return rawAssets, sa) ->
  client_get httpClient (js "/getCardData") None st = (Return rawCards, sc) ->
  isArray rawAssets = false ->
  isArray rawCards = false ->
  handleAssetList World zodParse parseFloat add iterate httpClient input st
  = (Return (VObj [(js "assetGroups", VArr []);
                   (js "totalBalance", VNum (Dec 0 0))]), sa)
  /\ handleCardList World zodParse parseFloat add abs iterate httpClient input st
     = (Return (VObj [(js "cardGroups", VArr []);
                      (js "totalUnpaid", VNum (Dec 0 0))]), sc).
Proof.
  intros Hv Ea Ec Na Nc. split.
  - unfold handleAssetList, bind, lift.
    destruct (Hv "AssetListInputSchema"%string) as [validated V].
    rewrite V, Ea, Na. reflexivity.
  - unfold handleCardList, bind, lift.
    destruct (Hv "CardListInputSchema"%string) as [validated V].
    rewrite V, Ec, Nc. reflexivity.
Qed.

End ReadingFacts.

Section ReadingOverTheClient.

Variable World : Type.
Variable send : Request -> World -> (AxiosResponse + thrown) * World.
Variable existsSync : World -> jsstring -> bool.
Variable syntaxErrorMessage : jsstring -> nat -> jsstring.
Variable evalFunction : jsstring -> option (outcome value).
Variable parseStringPromise : jsstring -> value + jsstring.
Variable config : Config.
Variable zodParse : string -> value -> outcome value.
Variable parseFloat : value -> number.
Variable add : number -> number -> number.
Variable abs : number -> number.
Variable iterate : value -> outcome (list value).

Local Abbreviation theClient :=
  (createHttpClient send existsSync syntaxErrorMessage evalFunction
                    parseStringPromise config).

Lemma get_empty_body (endpoint : jsstring) (params : option object)
      (st : Client World) :
  ConfigSchema config = true -> empty_bodies send ->
  exists st',
    get send syntaxErrorMessage evalFunction config endpoint params st
    = (Return (VObj []), st').
Proof.
  intros Hc He. unfold get, bind.
  match goal with
  | |- context [client_request send config ?r] =>
      destruct (He r (world st)) as (code & reason & w & E);
      destruct (executeWithRetry_answered World send config r _ w st Hc E)
        as (st1 & X)
  end.
  rewrite X. eexists. reflexivity.
Qed.

(** X20.  An empty body reads as the defaults: with a configuration that
    [ConfigSchema] accepts and an upstream that answers every request with
    an empty body, the handlers of [init_get_data], [summary_get_period]
    and [dashboard_get_overview] return their record with the single part
    undefined and every list empty, and those of [asset_list] and
    [card_list] return no groups and the total zero. *)
Theorem empty_body_reads_as_defaults (input : value) (st : Client World) :
  ConfigSchema config = true ->
  empty_bodies send ->
  (forall schema, exists validated, zodParse schema input = Return validated) ->
  fst (handleInitGetData World zodParse theClient input st)
  = Return (VObj [(js "initData", VUndefined);
                  (js "categories",
                   VObj [(js "income", VArr []); (js "expense", VArr [])]);
                  (js "paymentTypes", VArr []);
                  (js "multiBooks", VArr []);
                  (js "assetGroups", VArr []);
                  (js "assetNames", VArr [])])
  /\ fst (handleSummaryGetPeriod World zodParse theClient input st)
     = Return (VObj [(js "summary", VUndefined);
                     (js "incomeByCategory", VArr []);
                     (js "expenseByCategory", VArr [])])
  /\ fst (handleDashboardGetOverview World zodParse theClient input st)
     = Return (VObj [(js "assetSummary", VUndefined);
                     (js "monthlyTrend", VArr []);
                     (js "assetRatio", VArr []);
                     (js "debtRatio", VArr [])])
  /\ fst (handleAssetList World zodParse parseFloat add iterate theClient input st)
     = Return (VObj [(js "assetGroups", VArr []);
                     (js "totalBalance", VNum (Dec 0 0))])
  /\ fst (handleCardList World zodParse parseFloat add abs iterate theClient input st)
     = Return (VObj [(js "cardGroups", VArr []);
                     (js "totalUnpaid", VNum (Dec 0 0))]).
Proof.
  intros Hc He Hv.
  repeat split;
    unfold handleInitGetData, handleSummaryGetPeriod, handleDashboardGetOverview,
      handleAssetList, handleCardList, bind, lift;
    (match goal with
     | |- context [zodParse ?s input] =>
         destruct (Hv s) as [validated V]; rewrite V
     end);
    cbv beta iota zeta; simpl client_get;
    (match goal with
     | |- context [get _ _ _ _ ?e ?p ?s] =>
         destruct (get_empty_body e p s Hc He) as (st1 & G); rewrite G
     end);
    reflexivity.
Qed.

End ReadingOverTheClient.

(** X18 on a run: two children worth 5 and 7, and a group without children. *)
Lemma totals_are_sums_over_children_run :
  handleAssetList nat accept_input not_a_number add_whole iterate_array
                  groups_client a_period (fresh 0%nat)
  = (Return (VObj [(js "assetGroups", VArr some_groups);
                   (js "totalBalance", VNum (Dec 12 0))]), fresh 0%nat)
  /\ handleCardList nat accept_input not_a_number add_whole abs_whole iterate_array
                    groups_client a_period (fresh 0%nat)
     = (Return (VObj [(js "cardGroups", VArr some_groups);
                      (js "totalUnpaid", VNum (Dec 12 0))]), fresh 0%nat).
Proof.
  assert (R : readable_groups some_groups).
  { constructor; [|constructor; [|constructor]].
    - split; [reflexivity|]. split; [right; reflexivity | repeat constructor].
    - split; [reflexivity|]. split; [left; reflexivity | constructor]. }
  apply (totals_are_sums_over_children nat accept_input not_a_number add_whole
           abs_whole iterate_array groups_client a_period some_groups some_groups
           (fresh 0%nat) (fresh 0%nat) (fresh 0%nat)
           (fun schema => ex_intro _ a_period eq_refl) (fun items => eq_refl)
           eq_refl eq_refl R R).
Defined.

(** X19 on a run: the object of an empty body is no array. *)
Lemma non_array_is_no_groups_run :
  fst (handleAssetList nat accept_input not_a_number add_whole iterate_array
         (client_over (VStr []) (has_files []) no_document) a_period (fresh 0%nat))
  = Return (VObj [(js "assetGroups", VArr []);
                  (js "totalBalance", VNum (Dec 0 0))])
  /\ fst (handleCardList nat accept_input not_a_number add_whole abs_whole
            iterate_array (client_over (VStr []) (has_files []) no_document)
            a_period (fresh 0%nat))
     = Return (VObj [(js "cardGroups", VArr []);
                     (js "totalUnpaid", VNum (Dec 0 0))]).
Proof.
  assert (Ga : exists s,
             client_get (client_over (VStr []) (has_files []) no_document)
                        (js "/getAssetData") None (fresh 0%nat)
             = (Return (VObj []), s)) by (eexists; vm_compute; reflexivity).
  assert (Gc : exists s,
             client_get (client_over (VStr []) (has_files []) no_document)
                        (js "/getCardData") None (fresh 0%nat)
             = (Return (VObj []), s)) by (eexists; vm_compute; reflexivity).
  destruct Ga as [sa Ga]. destruct Gc as [sc Gc].
  destruct (non_array_is_no_groups nat accept_input not_a_number add_whole
              abs_whole iterate_array
              (client_over (VStr []) (has_files []) no_document)
              a_period (VObj []) (VObj []) (fresh 0%nat) sa sc
              (fun schema => ex_intro _ a_period eq_refl) Ga Gc eq_refl eq_refl)
    as [A B].
  rewrite A, B. split; reflexivity.
Defined.

(** X20 on a run, with the default configuration. *)
Lemma empty_body_reads_as_defaults_run :
  fst (handleInitGetData nat accept_input
         (client_over (VStr []) (has_files []) no_document) a_period (fresh 0%nat))
  = Return (VObj [(js "initData", VUndefined);
                  (js "categories",
                   VObj [(js "income", VArr []); (js "expense", VArr [])]);
                  (js "paymentTypes", VArr []);
                  (js "multiBooks", VArr []);
                  (js "assetGroups", VArr []);
                  (js "assetNames", VArr [])])
  /\ fst (handleSummaryGetPeriod nat accept_input
            (client_over (VStr []) (has_files []) no_document) a_period
            (fresh 0%nat))
     = Return (VObj [(js "summary", VUndefined);
                     (js "incomeByCategory", VArr []);
                     (js "expenseByCategory", VArr [])]).
Proof.
  destruct (empty_body_reads_as_defaults nat (upstream_answering (VStr []))
              (has_files []) v8_message no_expression no_document DEFAULT_CONFIG
              accept_input not_a_number add_whole abs_whole iterate_array
              a_period (fresh 0%nat))
    as (A & B & _).
  - reflexivity.
  - intros r w. do 3 eexists. reflexivity.
  - intros schema. eexists. reflexivity.
  - split; [exact A | exact B].
Defined.

(* ================================================================== *)
(** * The sources of the configuration *)
(* ================================================================== *)

Lemma str_eqb_refl (a : jsstring) : str_eqb a a = true.
Proof. apply str_eqb_eq. reflexivity. Qed.

Lemma str_eqb_neq (a b : jsstring) : str_eqb a b = false <-> a <> b.
Proof.
  destruct (str_eqb a b) eqn:E.
  - apply str_eqb_eq in E. split; [discriminate | congruence].
  - split; [|reflexivity]. intros _ H. apply str_eqb_eq in H. congruence.
Qed.

Lemma js_injective (a b : string) : js a = js b -> a = b.
Proof.
  unfold js. intros H.
  apply (f_equal (map ascii_of_N)) in H. rewrite !map_map in H.
  rewrite !(map_ext _ (fun x => x) ascii_N_embedding), !map_id in H.
  rewrite <- (string_of_list_ascii_of_string a),
    <- (string_of_list_ascii_of_string b), H.
  reflexivity.
Qed.

(** ** Own properties *)

Section Properties.

Import ConfigLoader.

Variable A : Type.

Lemma assoc_define_same (k : jsstring) (v : A) (o : list (jsstring * A)) :
  assoc k (define k v o) = Some v.
Proof.
  induction o as [|[k' v'] o IH]; simpl.
  - rewrite str_eqb_refl. reflexivity.
  - destruct (str_eqb k k') eqn:E; simpl; rewrite ?str_eqb_refl, ?E; auto.
Qed.

Lemma assoc_define_other (k k' : jsstring) (v : A) (o : list (jsstring * A)) :
  k <> k' -> assoc k (define k' v o) = assoc k o.
Proof.
  intros N. induction o as [|[k2 v2] o IH]; simpl.
  - apply str_eqb_neq in N. rewrite N. reflexivity.
  - destruct (str_eqb k' k2) eqn:E; simpl.
    + apply str_eqb_eq in E. subst k2.
      apply str_eqb_neq in N. rewrite N. reflexivity.
    + destruct (str_eqb k k2); auto.
Qed.

Lemma assoc_absent (k : jsstring) (o : list (jsstring * A)) :
  ~ In k (map fst o) -> assoc k o = None.
Proof.
  induction o as [|[k' v'] o IH]; simpl; [reflexivity|]. intros N.
  destruct (str_eqb k k') eqn:E.
  - apply str_eqb_eq in E. subst. exfalso. apply N. left. reflexivity.
  - apply IH. intros H. apply N. right. exact H.
Qed.

Lemma assoc_present (k : jsstring) (v : A) (o : list (jsstring * A)) :
  NoDup (map fst o) -> In (k, v) o -> assoc k o = Some v.
Proof.
  induction o as [|[k' v'] o IH]; simpl; [contradiction|].
  intros D [H | H]; inversion D as [|? ? Hn Hd]; subst.
  - injection H as -> ->. rewrite str_eqb_refl. reflexivity.
  - destruct (str_eqb k k') eqn:E.
    + apply str_eqb_eq in E. subst k'. exfalso. apply Hn.
      apply (in_map fst) in H. exact H.
    + apply IH; assumption.
Qed.

Lemma assoc_found (k : jsstring) (v : A) (o : list (jsstring * A)) :
  assoc k o = Some v -> In (k, v) o.
Proof.
  induction o as [|[k' v'] o IH]; simpl; [discriminate|].
  destruct (str_eqb k k') eqn:E.
  - apply str_eqb_eq in E. subst k'. intros H. injection H as ->. left. reflexivity.
  - intros H. right. apply IH. exact H.
Qed.

Lemma assoc_missing (k : jsstring) (o : list (jsstring * A)) :
  assoc k o = None -> ~ In k (map fst o).
Proof.
  induction o as [|[k' v'] o IH]; simpl; [tauto|].
  destruct (str_eqb k k') eqn:E; [discriminate|].
  apply str_eqb_neq in E. intros H [F | F]; [congruence | exact (IH H F)].
Qed.

(** In a list with distinct keys the own property does not depend on the
    order. *)
Lemma assoc_permutation (k : jsstring) (o o' : list (jsstring * A)) :
  NoDup (map fst o) -> Permutation o o' -> assoc k o = assoc k o'.
Proof.
  intros D P.
  assert (D' : NoDup (map fst o'))
    by (eapply Permutation_NoDup; [apply Permutation_map; exact P | exact D]).
  destruct (assoc k o) as [v|] eqn:E.
  - symmetry. apply assoc_present; [exact D'|].
    eapply Permutation_in; [exact P|]. apply assoc_found. exact E.
  - symmetry. apply assoc_absent. intros H. apply (assoc_missing _ _ E).
    eapply Permutation_in; [apply Permutation_map, Permutation_sym; exact P | exact H].
Qed.

Lemma insert_index_permutation (i : N) (entry : jsstring * A)
      (sorted : list (N * (jsstring * A))) :
  Permutation (map snd (insert_index i entry sorted)) (entry :: map snd sorted).
Proof.
  induction sorted as [|[j other] rest IH]; simpl; [reflexivity|].
  destruct (N.leb i j); simpl; [reflexivity|].
  rewrite IH. apply perm_swap.
Qed.

(** [for ... in] visits every own property once. *)
Lemma for_in_permutation (entries : list (jsstring * A)) :
  Permutation (for_in entries) entries.
Proof.
  unfold for_in. induction entries as [|entry rest IH]; simpl; [reflexivity|].
  destruct (array_index (fst entry)) as [i|]; simpl.
  - rewrite insert_index_permutation. simpl. apply perm_skip. exact IH.
  - symmetry. apply Permutation_cons_app. symmetry. exact IH.
Qed.

End Properties.

Lemma lookup_found (k : jsstring) (v : value) (o : object) :
  lookup k o = Some v -> In (k, v) o.
Proof.
  induction o as [|[k' v'] o IH]; simpl; [discriminate|].
  destruct (str_eqb k k') eqn:E.
  - apply str_eqb_eq in E. subst k'. intros H. injection H as ->. left. reflexivity.
  - intros H. right. apply IH. exact H.
Qed.

Lemma lookup_missing (k : jsstring) (o : object) :
  lookup k o = None -> ~ In k (map fst o).
Proof.
  induction o as [|[k' v'] o IH]; simpl; [tauto|].
  destruct (str_eqb k k') eqn:E; [discriminate|].
  apply str_eqb_neq in E. intros H [F | F]; [congruence | exact (IH H F)].
Qed.

Lemma assoc_of_value (k : jsstring) (o : object) :
  ConfigLoader.assoc k (map (fun kv => (fst kv, ConfigLoader.of_value (snd kv))) o)
  = option_map ConfigLoader.of_value (lookup k o).
Proof.
  induction o as [|[k' v'] o IH]; simpl; [reflexivity|].
  destruct (str_eqb k k'); [reflexivity | exact IH].
Qed.

Lemma assoc_with_merge (k : jsstring) (o : object) :
  ConfigLoader.assoc k (map with_merge o)
  = option_map (fun v => (v, fun targetValue => ConfigLoader.deepMerge targetValue v))
               (lookup k o).
Proof.
  induction o as [|[k' v'] o IH]; simpl; [reflexivity|].
  destruct (str_eqb k k'); [reflexivity | exact IH].
Qed.

Lemma keys_with_merge (o : object) : map fst (map with_merge o) = map fst o.
Proof. rewrite map_map. reflexivity. Qed.

(** ** The loop of [deepMerge] *)

Section Loop.

Import ConfigLoader.

Lemma deepMerge_fields (target : data) (fields : object) :
  deepMerge target (VObj fields)
  = steps (for_in (map with_merge fields))
          (DObj (own_properties target) ObjectPrototype).
Proof.
  simpl. unfold merge_fields, steps. do 2 f_equal.
  clear. induction fields as [|[key sourceValue] rest IH]; [reflexivity|].
  simpl. rewrite IH. reflexivity.
Qed.

Lemma set_object (own : list (jsstring * data)) (above : data)
      (key : jsstring) (v : data) :
  exists own' above', set (DObj own above) key v = DObj own' above'.
Proof.
  unfold set. destruct (_ && _); [|do 2 eexists; reflexivity].
  destruct v; do 2 eexists; reflexivity.
Qed.

Lemma set_other (result : data) (key k : jsstring) (v : data) :
  k <> key ->
  assoc k (own_properties (set result key v)) = assoc k (own_properties result).
Proof.
  intros N. destruct result as [| | | | | |own above|]; try reflexivity.
  unfold set. destruct (_ && _).
  - destruct v; reflexivity.
  - simpl. apply assoc_define_other. exact N.
Qed.

Lemma set_named (own : list (jsstring * data)) (above : data)
      (key : jsstring) (v : data) :
  key <> proto_key ->
  set (DObj own above) key v = DObj (define key v own) above.
Proof.
  intros N. unfold set. apply str_eqb_neq in N. rewrite N. reflexivity.
Qed.

Lemma merge_field_object (own : list (jsstring * data)) (above : data)
      (key : jsstring) (sourceValue : value) (merge_into : data -> data) :
  exists own' above',
    merge_field (DObj own above) key sourceValue merge_into = DObj own' above'.
Proof.
  unfold merge_field.
  destruct sourceValue; try apply set_object; [do 2 eexists; reflexivity|].
  destruct (get _ _) as [t|]; [destruct (mergeable t)|]; apply set_object.
Qed.

Lemma merge_field_other (result : data) (key k : jsstring) (sourceValue : value)
      (merge_into : data -> data) :
  k <> key ->
  assoc k (own_properties (merge_field result key sourceValue merge_into))
  = assoc k (own_properties result).
Proof.
  intros N. unfold merge_field.
  destruct sourceValue; try (apply set_other; exact N); [reflexivity|].
  destruct (get _ _) as [t|]; [destruct (mergeable t)|]; apply set_other; exact N.
Qed.

(** What a turn of the loop writes at its key. *)
Lemma merge_field_same (own : list (jsstring * data)) (above : data)
      (key : jsstring) (sourceValue : value) (merge_into : data -> data) :
  key <> proto_key ->
  sourceValue <> VUndefined ->
  exists written,
    assoc key (own_properties (merge_field (DObj own above) key sourceValue merge_into))
    = Some written
    /\ (written = of_value sourceValue
        \/ exists sourceFields targetValue,
            sourceValue = VObj sourceFields /\ written = merge_into targetValue).
Proof.
  intros N U. unfold merge_field.
  destruct sourceValue as [| | b | n | s | items | sourceFields];
    try congruence;
    try (rewrite set_named by exact N; eexists;
         split; [apply assoc_define_same | left; reflexivity]).
  destruct (get _ _) as [t|]; [destruct (mergeable t)|];
    rewrite set_named by exact N; eexists;
    (split; [apply assoc_define_same|]);
    [right; do 2 eexists; split; reflexivity | left; reflexivity ..].
Qed.

(** The loop leaves alone what the source has no key for. *)
Lemma steps_other (entries : list (jsstring * (value * (data -> data))))
      (k : jsstring) :
  ~ In k (map fst entries) ->
  forall result,
    assoc k (own_properties (steps entries result)) = assoc k (own_properties result).
Proof.
  induction entries as [|[key [sourceValue merge_into]] rest IH]; intros N result;
    [reflexivity|].
  simpl. rewrite IH by (intros H; apply N; right; exact H).
  apply merge_field_other. intros ->. apply N. left. reflexivity.
Qed.

(** What the loop leaves at a key of the source that is not [__proto__]:
    the value of the source, or its merge into some target. *)
Lemma steps_same (entries : list (jsstring * (value * (data -> data))))
      (k : jsstring) (sourceValue : value) (merge_into : data -> data) :
  NoDup (map fst entries) ->
  In (k, (sourceValue, merge_into)) entries ->
  k <> proto_key ->
  sourceValue <> VUndefined ->
  forall own above,
  exists written,
    assoc k (own_properties (steps entries (DObj own above))) = Some written
    /\ (written = of_value sourceValue
        \/ exists sourceFields targetValue,
            sourceValue = VObj sourceFields /\ written = merge_into targetValue).
Proof.
  induction entries as [|[key [sv into]] rest IH]; intros D H N U own above;
    [contradiction|].
  simpl in D. inversion D as [|? ? Hn Hd]; subst.
  simpl. destruct H as [H | H].
  - injection H as -> -> ->.
    rewrite steps_other by exact Hn.
    apply merge_field_same; assumption.
  - destruct (merge_field_object own above key sv into) as (own1 & above1 & E).
    simpl in E. rewrite E. apply IH; assumption.
Qed.

(** The loop over a source that has no key [__proto__], on a result whose
    prototype is [Object.prototype]: the prototype stays, and every key but
    [__proto__] holds what the source and the target make of it. *)
Lemma steps_lookup (entries : list (jsstring * (value * (data -> data))))
      (k : jsstring) :
  NoDup (map fst entries) ->
  ~ In proto_key (map fst entries) ->
  k <> proto_key ->
  Forall (fun entry => forall targetValue,
              snd (snd entry) targetValue = deepMerge targetValue (fst (snd entry)))
         entries ->
  forall own,
  exists own',
    steps entries (DObj own ObjectPrototype) = DObj own' ObjectPrototype
    /\ assoc k own'
       = match assoc k entries with
         | None => assoc k own
         | Some found => merged_value (fst found) (assoc k own)
         end.
Proof.
  induction entries as [|[key [sv into]] rest IH]; intros D P N W own.
  - exists own. split; reflexivity.
  - simpl in D. inversion D as [|? ? Hn Hd]; subst.
    inversion W as [|? ? Wh Wt]; subst. simpl in Wh.
    assert (Nk : key <> proto_key) by (intros ->; apply P; left; reflexivity).
    assert (Pr : ~ In proto_key (map fst rest))
      by (intros H; apply P; right; exact H).
    assert (G : get (DObj own ObjectPrototype) key = assoc key own).
    { simpl. destruct (assoc key own); [reflexivity|].
      apply str_eqb_neq in Nk. rewrite Nk. reflexivity. }
    assert (S1 : exists own1,
               merge_field (DObj own ObjectPrototype) key sv into
               = DObj own1 ObjectPrototype
               /\ assoc key own1 = merged_value sv (assoc key own)
               /\ forall k', k' <> key -> assoc k' own1 = assoc k' own).
    { unfold merge_field. rewrite G. unfold merged_value.
      destruct sv as [| | b | n | s | items | sourceFields];
        try (rewrite set_named by exact Nk; eexists;
             split; [reflexivity|];
             split; [apply assoc_define_same
                    | intros k' Hk; apply assoc_define_other; exact Hk]).
      - exists own. split; [reflexivity|]. split; reflexivity.
      - destruct (assoc key own) as [t|]; [destruct (mergeable t)|];
          rewrite set_named by exact Nk; eexists;
          (split; [reflexivity|]);
          (split; [rewrite assoc_define_same, ?Wh; reflexivity
                  | intros k' Hk; apply assoc_define_other; exact Hk]). }
    destruct S1 as (own1 & E1 & Same & Other).
    simpl steps. simpl in E1. rewrite E1.
    destruct (IH Hd Pr N Wt own1) as (own' & E & L).
    exists own'. split; [exact E|]. rewrite L. simpl assoc.
    destruct (str_eqb k key) eqn:K.
    + apply str_eqb_eq in K. subst k. rewrite (assoc_absent _ key rest Hn).
      exact Same.
    + apply str_eqb_neq in K. rewrite (Other k K). reflexivity.
Qed.

Lemma with_merge_sound (fields : object) :
  Forall (fun entry => forall targetValue,
              snd (snd entry) targetValue = deepMerge targetValue (fst (snd entry)))
         (for_in (map with_merge fields)).
Proof.
  apply Forall_forall. intros entry H.
  apply (Permutation_in _ (for_in_permutation _ _)) in H.
  apply in_map_iff in H. destruct H as (kv & <- & _). reflexivity.
Qed.

Lemma for_in_distinct (fields : object) :
  distinct_keys fields -> NoDup (map fst (for_in (map with_merge fields))).
Proof.
  intros D. eapply Permutation_NoDup.
  - apply Permutation_map. symmetry. apply for_in_permutation.
  - rewrite keys_with_merge. exact D.
Qed.

Lemma for_in_keys (fields : object) (k : jsstring) :
  In k (map fst (for_in (map with_merge fields))) -> In k (map fst fields).
Proof.
  intros H. rewrite <- keys_with_merge.
  eapply Permutation_in; [apply Permutation_map, for_in_permutation | exact H].
Qed.

(** What [deepMerge] leaves at a key other than [__proto__], for a source
    with distinct keys that has no key [__proto__]. *)
Lemma deepMerge_lookup (target : data) (fields : object) (k : jsstring) :
  distinct_keys fields ->
  lookup proto_key fields = None ->
  k <> proto_key ->
  exists own',
    deepMerge target (VObj fields) = DObj own' ObjectPrototype
    /\ assoc k own'
       = match lookup k fields with
         | None => assoc k (own_properties target)
         | Some sourceValue => merged_value sourceValue (assoc k (own_properties target))
         end.
Proof.
  intros D P N. rewrite deepMerge_fields.
  destruct (steps_lookup (for_in (map with_merge fields)) k
              (for_in_distinct fields D)
              (fun H => lookup_missing _ _ P (for_in_keys fields _ H))
              N (with_merge_sound fields) (own_properties target))
    as (own' & E & L).
  exists own'. split; [exact E|]. rewrite L.
  rewrite <- (assoc_permutation _ k (map with_merge fields))
    by first [rewrite keys_with_merge; exact D
             | symmetry; apply for_in_permutation].
  rewrite assoc_with_merge. destruct (lookup k fields); reflexivity.
Qed.

(** What [deepMerge] leaves at a key other than [__proto__] that the source
    has, whatever else the source holds: the value of the source, or its
    merge into some target. *)
Lemma deepMerge_writes (target : data) (fields : object) (k : jsstring)
      (sourceValue : value) :
  distinct_keys fields ->
  lookup k fields = Some sourceValue ->
  k <> proto_key ->
  sourceValue <> VUndefined ->
  exists written,
    assoc k (own_properties (deepMerge target (VObj fields))) = Some written
    /\ (written = of_value sourceValue
        \/ exists sourceFields targetValue,
            sourceValue = VObj sourceFields
            /\ written = deepMerge targetValue sourceValue).
Proof.
  intros D L N U. rewrite deepMerge_fields.
  apply (steps_same (for_in (map with_merge fields)) k sourceValue
                    (fun targetValue => deepMerge targetValue sourceValue)).
  - apply for_in_distinct. exact D.
  - eapply Permutation_in; [symmetry; apply for_in_permutation|].
    apply lookup_found in L.
    apply (in_map with_merge) in L. exact L.
  - exact N.
  - exact U.
Qed.

(** A key that the source does not have keeps the value of the target. *)
Lemma deepMerge_keeps (target : data) (fields : object) (k : jsstring) :
  lookup k fields = None ->
  assoc k (own_properties (deepMerge target (VObj fields)))
  = assoc k (own_properties target).
Proof.
  intros L. rewrite deepMerge_fields.
  rewrite steps_other; [reflexivity|].
  intros H. exact (lookup_missing _ _ L (for_in_keys fields _ H)).
Qed.

End Loop.

(** X21.  What [deepMerge] leaves at a key, for a source object with
    distinct keys that has no key [__proto__], and at every key other than
    [__proto__]: the target's own value where the source has no such key or
    has it undefined; the merge of the two values where the source has an
    object and the target an object that is no array; and the source's
    value in every other case, [null] and arrays included, so that a source
    can replace a block of settings by a value that is no block.  The
    result is a new object whose prototype is [Object.prototype]. *)
Theorem deepMerge_precedence
        (target : ConfigLoader.data) (fields : object) (k : jsstring) :
  distinct_keys fields ->
  lookup ConfigLoader.proto_key fields = None ->
  k <> ConfigLoader.proto_key ->
  (exists own,
      ConfigLoader.deepMerge target (VObj fields)
      = ConfigLoader.DObj own ConfigLoader.ObjectPrototype)
  /\ (lookup k fields = None \/ lookup k fields = Some VUndefined ->
      ConfigLoader.assoc k
        (ConfigLoader.own_properties (ConfigLoader.deepMerge target (VObj fields)))
      = ConfigLoader.assoc k (ConfigLoader.own_properties target))
  /\ (forall sourceFields targetValue,
         lookup k fields = Some (VObj sourceFields) ->
         ConfigLoader.assoc k (ConfigLoader.own_properties target)
         = Some targetValue ->
         ConfigLoader.mergeable targetValue = true ->
         ConfigLoader.assoc k
           (ConfigLoader.own_properties (ConfigLoader.deepMerge target (VObj fields)))
         = Some (ConfigLoader.deepMerge targetValue (VObj sourceFields)))
  /\ (forall sourceValue,
         lookup k fields = Some sourceValue ->
         sourceValue <> VUndefined ->
         (forall sourceFields targetValue,
             sourceValue = VObj sourceFields ->
             ConfigLoader.assoc k (ConfigLoader.own_properties target)
             = Some targetValue ->
             ConfigLoader.mergeable targetValue = false) ->
         ConfigLoader.assoc k
           (ConfigLoader.own_properties (ConfigLoader.deepMerge target (VObj fields)))
         = Some (ConfigLoader.of_value sourceValue)).
Proof.
  intros D P N.
  destruct (deepMerge_lookup target fields k D P N) as (own' & E & L).
  rewrite E. simpl ConfigLoader.own_properties. rewrite L.
  split; [exists own'; reflexivity|]. split; [|split].
  - intros [F | F]; rewrite F; reflexivity.
  - intros sourceFields targetValue Es Et M. rewrite Es, Et. simpl. rewrite M.
    reflexivity.
  - intros sourceValue Es Nu No. rewrite Es. unfold merged_value.
    destruct sourceValue as [| | b | n | s | items | o]; try reflexivity;
      [congruence|].
    destruct (ConfigLoader.assoc k (ConfigLoader.own_properties target))
      as [t|]; [|reflexivity].
    rewrite (No o t eq_refl eq_refl). reflexivity.
Qed.

(** A setting of a block of the source is the setting of the merge. *)
Lemma merged_setting (target : ConfigLoader.data) (fields : object)
      (block k : string) (settings : object) (v : value) :
  distinct_keys fields ->
  lookup (js block) fields = Some (VObj settings) ->
  distinct_keys settings ->
  lookup (js k) settings = Some v ->
  setting v = true ->
  block <> "__proto__"%string ->
  k <> "__proto__"%string ->
  own_prop (own_prop (ConfigLoader.deepMerge target (VObj fields)) block) k
  = ConfigLoader.of_value v.
Proof.
  intros Df Lb Ds Lk Sv Nb Nk.
  assert (Pb : js block <> ConfigLoader.proto_key)
    by (intros H; apply Nb; apply js_injective; exact H).
  assert (Pk : js k <> ConfigLoader.proto_key)
    by (intros H; apply Nk; apply js_injective; exact H).
  assert (Uv : v <> VUndefined) by (intros ->; discriminate).
  assert (Ub : VObj settings <> VUndefined) by discriminate.
  destruct (deepMerge_writes target fields (js block) (VObj settings) Df Lb Pb Ub)
    as (written & E & W).
  unfold own_prop at 2. rewrite E.
  destruct W as [-> | (sourceFields & targetValue & _ & ->)].
  - unfold own_prop. simpl ConfigLoader.own_properties.
    rewrite assoc_of_value, Lk. reflexivity.
  - destruct (deepMerge_writes targetValue settings (js k) v Ds Lk Pk Uv)
      as (leaf & El & Wl).
    unfold own_prop. rewrite El.
    destruct Wl as [-> | (leafFields & t & -> & _)]; [reflexivity | discriminate].
Qed.

Lemma merged_setting_is (target : ConfigLoader.data) (fields : object)
      (block k : string) (settings : object) (v : value) (d : ConfigLoader.data) :
  distinct_keys fields ->
  lookup (js block) fields = Some (VObj settings) ->
  distinct_keys settings ->
  lookup (js k) settings = Some v ->
  setting v = true ->
  block <> "__proto__"%string ->
  k <> "__proto__"%string ->
  ConfigLoader.of_value v = d ->
  own_prop (own_prop (ConfigLoader.deepMerge target (VObj fields)) block) k = d.
Proof. intros Df Lb Ds Lk Sv Nb Nk <-. apply merged_setting with settings; assumption. Qed.

(** A block the source does not have is the block of the target. *)
Lemma untouched_block (target : ConfigLoader.data) (fields : object)
      (block : string) :
  lookup (js block) fields = None ->
  own_prop (ConfigLoader.deepMerge target (VObj fields)) block
  = own_prop target block.
Proof.
  intros Lb. unfold own_prop. rewrite (deepMerge_keeps target fields _ Lb).
  reflexivity.
Qed.

Section Sources.

Variable parseInt10 : value -> number.
Variable env : string -> option jsstring.
Variable file : ConfigLoader.ConfigFile.

Local Abbreviation merged := (ConfigLoader.mergedConfig parseInt10 env file).
Local Abbreviation from_env := (ConfigLoader.set_in env).

Ltac env_cases :=
  unfold ConfigLoader.mergedConfig, ConfigLoader.loadEnvConfig;
  destruct (from_env "MONEY_MANAGER_BASE_URL") as [url|];
  destruct (from_env "MONEY_MANAGER_TIMEOUT") as [time|];
  destruct (from_env "MONEY_MANAGER_RETRY_COUNT") as [count|];
  destruct (from_env "MONEY_MANAGER_LOG_LEVEL") as [level|];
  destruct (from_env "MONEY_MANAGER_SESSION_PERSIST") as [persist|].

Ltac distinct := unfold distinct_keys; simpl; repeat constructor; simpl;
                 intuition discriminate.

Ltac env_setting :=
  eapply merged_setting_is;
  [distinct | reflexivity | distinct | reflexivity | reflexivity
   | discriminate | discriminate | reflexivity].

(** X22.  One server variable is enough to set the whole server block from
    the environment and the defaults: when any of
    [MONEY_MANAGER_BASE_URL], [MONEY_MANAGER_TIMEOUT] and
    [MONEY_MANAGER_RETRY_COUNT] is set, each of the four server settings of
    the merged configuration is the one its variable gives, or else the
    default, and [retryDelay] is always the default 1000: nothing the
    configuration file says about the server is kept. *)
Theorem server_variable_overrides_the_file :
  from_env "MONEY_MANAGER_BASE_URL" <> None
  \/ from_env "MONEY_MANAGER_TIMEOUT" <> None
  \/ from_env "MONEY_MANAGER_RETRY_COUNT" <> None ->
  own_prop (own_prop merged "server") "baseUrl"
  = match from_env "MONEY_MANAGER_BASE_URL" with
    | Some url => ConfigLoader.DStr url
    | None => ConfigLoader.DStr (js "http://192.168.1.1:8888")
    end
  /\ own_prop (own_prop merged "server") "timeout"
     = match from_env "MONEY_MANAGER_TIMEOUT" with
       | Some text => ConfigLoader.DNum (parseInt10 (VStr text))
       | None => ConfigLoader.DNum (Dec 30000 0)
       end
  /\ own_prop (own_prop merged "server") "retryCount"
     = match from_env "MONEY_MANAGER_RETRY_COUNT" with
       | Some text => ConfigLoader.DNum (parseInt10 (VStr text))
       | None => ConfigLoader.DNum (Dec 3 0)
       end
  /\ own_prop (own_prop merged "server") "retryDelay"
     = ConfigLoader.DNum (Dec 1000 0).
Proof.
  env_cases; intros H;
    try (exfalso; destruct H as [H | [H | H]]; apply H; reflexivity);
    clear H; cbv beta iota zeta;
    repeat split; env_setting.
Qed.

(** X23.  The variables of the session and of the log level reset their
    siblings too: with [MONEY_MANAGER_SESSION_PERSIST] set, the session
    persists exactly when the variable is the text [true], and the cookie
    file is the default one; with [MONEY_MANAGER_LOG_LEVEL] set, the level
    is the variable's text, whatever it is, and the format is [json]; in
    both cases whatever the configuration file says. *)
Theorem session_and_logging_variables :
  (forall text,
      from_env "MONEY_MANAGER_SESSION_PERSIST" = Some text ->
      own_prop (own_prop merged "session") "persist"
      = ConfigLoader.DBool (str_eqb text (js "true"))
      /\ own_prop (own_prop merged "session") "cookieFile"
         = ConfigLoader.DStr (js ".session-cookies.json"))
  /\ (forall text,
         from_env "MONEY_MANAGER_LOG_LEVEL" = Some text ->
         own_prop (own_prop merged "logging") "level" = ConfigLoader.DStr text
         /\ own_prop (own_prop merged "logging") "format"
            = ConfigLoader.DStr (js "json")).
Proof.
  split; intros text; env_cases; intros H; try discriminate;
    injection H as ->; cbv beta iota zeta;
    split; env_setting.
Qed.

(** The environment has distinct keys. *)
Lemma loadEnvConfig_distinct :
  exists fields,
    ConfigLoader.loadEnvConfig parseInt10 env = VObj fields
    /\ distinct_keys fields.
Proof.
  env_cases; cbv beta iota zeta; eexists; (split; [reflexivity|]); distinct.
Qed.

(** X24.  A setting of the configuration file is kept where the
    environment is silent on its block: when the file holds an object with
    distinct keys whose [block] is an object with distinct keys that gives
    [k] a setting [v], neither [block] nor [k] is [__proto__], and no
    variable of that block is set (three variables for [server], one for
    [logging], one for [session], none for any other block), the merged
    configuration has [v] at [k] of [block], whatever the default is and
    whatever else the file holds. *)
Theorem file_setting_is_kept
        (fields settings : object) (block k : string) (v : value) :
  ConfigLoader.loadConfigFile file = VObj fields ->
  distinct_keys fields ->
  lookup (js block) fields = Some (VObj settings) ->
  distinct_keys settings ->
  lookup (js k) settings = Some v ->
  setting v = true ->
  block <> "__proto__"%string ->
  k <> "__proto__"%string ->
  lookup (js block) (ConfigLoader.spread (ConfigLoader.loadEnvConfig parseInt10 env))
  = None ->
  own_prop (own_prop merged block) k = ConfigLoader.of_value v.
Proof.
  intros Lf Df Lb Ds Lk Sv Nb Nk Le.
  destruct loadEnvConfig_distinct as (efields & Ee & De).
  unfold ConfigLoader.mergedConfig. cbv zeta. rewrite Ee in *. rewrite Lf.
  simpl ConfigLoader.spread in Le.
  rewrite (untouched_block _ efields block Le).
  apply (merged_setting _ fields block k settings v Df Lb Ds Lk Sv Nb Nk).
Qed.

(** X25.  Without a usable file and without variables the configuration is
    the default one: when the file is absent, cannot be read or holds no
    JSON, and none of the five variables is set to a text that is not
    empty, the merge is [DEFAULT_CONFIG]. *)
Theorem no_source_is_the_defaults :
  (file = ConfigLoader.Absent \/ file = ConfigLoader.Unreadable
   \/ exists text pos, file = ConfigLoader.Content text
                       /\ JSON.parse text = JSON.SyntaxError pos) ->
  (forall name, In name ["MONEY_MANAGER_BASE_URL"; "MONEY_MANAGER_TIMEOUT";
                         "MONEY_MANAGER_RETRY_COUNT"; "MONEY_MANAGER_LOG_LEVEL";
                         "MONEY_MANAGER_SESSION_PERSIST"]%string ->
                env name = None \/ env name = Some []) ->
  merged = ConfigLoader.of_value ConfigLoader.DEFAULT_CONFIG.
Proof.
  intros Hf He.
  assert (Silent : forall name,
             In name ["MONEY_MANAGER_BASE_URL"; "MONEY_MANAGER_TIMEOUT";
                      "MONEY_MANAGER_RETRY_COUNT"; "MONEY_MANAGER_LOG_LEVEL";
                      "MONEY_MANAGER_SESSION_PERSIST"]%string ->
             from_env name = None).
  { intros name Hn. unfold ConfigLoader.set_in.
    destruct (He name Hn) as [E | E]; rewrite E; reflexivity. }
  assert (Ef : ConfigLoader.loadConfigFile file = VObj []).
  { destruct Hf as [-> | [-> | (text & pos & -> & P)]]; try reflexivity.
    simpl. rewrite P. reflexivity. }
  unfold ConfigLoader.mergedConfig, ConfigLoader.loadEnvConfig.
  rewrite !Silent by (simpl; tauto). rewrite Ef. reflexivity.
Qed.

End Sources.

(** X30.  A key [__proto__] of the configuration file is no setting: it
    sets the prototype of the object under merge.  With no variable set and
    a file that holds [__proto__] with a block [extra], and after it a
    block [extra] of its own, the merged configuration has no own property
    [__proto__], and its [extra] is the merge of the two blocks, the first
    having been read through the prototype; with the two keys of the file
    the other way round, its [extra] is the file's own block alone.  Either
    way the prototype of the merged configuration is [Object.prototype]:
    the second merge starts from a copy of the own properties. *)
Theorem proto_key_is_no_setting :
  ConfigLoader.deepMerge (ConfigLoader.of_value ConfigLoader.DEFAULT_CONFIG)
                         (ConfigLoader.loadConfigFile a_proto_file)
  = ConfigLoader.DObj
      (ConfigLoader.own_properties
         (ConfigLoader.of_value ConfigLoader.DEFAULT_CONFIG)
         ++ [(js "extra",
              ConfigLoader.of_value (VObj [(js "a", VNum (Dec 1 0));
                                           (js "b", VNum (Dec 2 0))]))])
      (ConfigLoader.of_value
         (VObj [(js "extra", VObj [(js "a", VNum (Dec 1 0))])]))
  /\ ConfigLoader.mergedConfig parse_numeral (environment []) a_proto_file
     = ConfigLoader.DObj
         (ConfigLoader.own_properties
            (ConfigLoader.of_value ConfigLoader.DEFAULT_CONFIG)
            ++ [(js "extra",
                 ConfigLoader.of_value (VObj [(js "a", VNum (Dec 1 0));
                                              (js "b", VNum (Dec 2 0))]))])
         ConfigLoader.ObjectPrototype
  /\ ConfigLoader.assoc ConfigLoader.proto_key
       (ConfigLoader.own_properties
          (ConfigLoader.mergedConfig parse_numeral (environment []) a_proto_file))
     = None
  /\ ConfigLoader.mergedConfig parse_numeral (environment []) a_late_proto_file
     = ConfigLoader.DObj
         (ConfigLoader.own_properties
            (ConfigLoader.of_value ConfigLoader.DEFAULT_CONFIG)
            ++ [(js "extra",
                 ConfigLoader.of_value (VObj [(js "b", VNum (Dec 2 0))]))])
         ConfigLoader.ObjectPrototype.
Proof.
  repeat split; vm_compute; reflexivity.
Qed.

(** X21 on a run: a file that sets one server setting and puts [null] in
    the place of the logging block. *)
Lemma deepMerge_precedence_run :
  ConfigLoader.assoc (js "defaults")
    (ConfigLoader.own_properties
       (ConfigLoader.deepMerge
          (ConfigLoader.of_value ConfigLoader.DEFAULT_CONFIG)
          (VObj [(js "server", VObj [(js "retryDelay", VNum (Dec 250 0))]);
                 (js "logging", VNull)])))
  = Some (ConfigLoader.of_value (VObj [(js "dateFormat", VStr (js "YYYY-MM-DD"))]))
  /\ ConfigLoader.assoc (js "logging")
       (ConfigLoader.own_properties
          (ConfigLoader.deepMerge
             (ConfigLoader.of_value ConfigLoader.DEFAULT_CONFIG)
             (VObj [(js "server", VObj [(js "retryDelay", VNum (Dec 250 0))]);
                    (js "logging", VNull)])))
     = Some ConfigLoader.DNull.
Proof.
  assert (D : distinct_keys [(js "server", VObj [(js "retryDelay", VNum (Dec 250 0))]);
                             (js "logging", VNull)])
    by (unfold distinct_keys; simpl; repeat constructor; simpl;
        intuition discriminate).
  pose proof (deepMerge_precedence
                (ConfigLoader.of_value ConfigLoader.DEFAULT_CONFIG) _
                (js "defaults") D eq_refl ltac:(discriminate)) as A.
  pose proof (deepMerge_precedence
                (ConfigLoader.of_value ConfigLoader.DEFAULT_CONFIG) _
                (js "logging") D eq_refl ltac:(discriminate)) as B.
  destruct A as (_ & A & _ & _). destruct B as (_ & _ & _ & B).
  split.
  - rewrite A; [reflexivity | left; reflexivity].
  - apply (B VNull); [reflexivity | discriminate | discriminate].
Defined.

(** X22 on a run: the file names its own server and a retry delay of 250,
    and the environment sets the timeout only. *)
Lemma server_variable_overrides_the_file_run :
  own_prop (own_prop (ConfigLoader.mergedConfig parse_numeral
                        (environment [("MONEY_MANAGER_TIMEOUT", "5000")]%string)
                        a_config_file) "server") "baseUrl"
  = ConfigLoader.DStr (js "http://192.168.1.1:8888")
  /\ own_prop (own_prop (ConfigLoader.mergedConfig parse_numeral
                           (environment [("MONEY_MANAGER_TIMEOUT", "5000")]%string)
                           a_config_file) "server") "timeout"
     = ConfigLoader.DNum (Dec 5000 0)
  /\ own_prop (own_prop (ConfigLoader.mergedConfig parse_numeral
                           (environment [("MONEY_MANAGER_TIMEOUT", "5000")]%string)
                           a_config_file) "server") "retryCount"
     = ConfigLoader.DNum (Dec 3 0)
  /\ own_prop (own_prop (ConfigLoader.mergedConfig parse_numeral
                           (environment [("MONEY_MANAGER_TIMEOUT", "5000")]%string)
                           a_config_file) "server") "retryDelay"
     = ConfigLoader.DNum (Dec 1000 0).
Proof.
  apply (server_variable_overrides_the_file parse_numeral
           (environment [("MONEY_MANAGER_TIMEOUT", "5000")]%string) a_config_file).
  right. left. discriminate.
Defined.

(** X24 on a run: with no variable set, the file's server and retry delay
    are those of the merged configuration. *)
Lemma file_setting_is_kept_run :
  own_prop (own_prop (ConfigLoader.mergedConfig parse_numeral (environment [])
                                                a_config_file) "server") "retryDelay"
  = ConfigLoader.DNum (Dec 250 0).
Proof.
  apply (file_setting_is_kept parse_numeral (environment []) a_config_file
           [(js "server", VObj [(js "baseUrl", VStr (js "http://10.0.0.2:8888"));
                                (js "retryDelay", VNum (Dec 250 0))])]
           [(js "baseUrl", VStr (js "http://10.0.0.2:8888"));
            (js "retryDelay", VNum (Dec 250 0))]
           "server" "retryDelay" (VNum (Dec 250 0))).
  - vm_compute. reflexivity.
  - unfold distinct_keys; simpl; repeat constructor; simpl; intuition discriminate.
  - reflexivity.
  - unfold distinct_keys; simpl; repeat constructor; simpl; intuition discriminate.
  - reflexivity.
  - reflexivity.
  - discriminate.
  - discriminate.
  - reflexivity.
Defined.

(** X25 on a run: a file that holds no JSON, and an empty variable. *)
Lemma no_source_is_the_defaults_run :
  ConfigLoader.mergedConfig parse_numeral
    (environment [("MONEY_MANAGER_TIMEOUT", EmptyString)]%string)
    (ConfigLoader.Content (js "{server:"))
  = ConfigLoader.of_value ConfigLoader.DEFAULT_CONFIG.
Proof.
  apply (no_source_is_the_defaults parse_numeral
           (environment [("MONEY_MANAGER_TIMEOUT", EmptyString)]%string)
           (ConfigLoader.Content (js "{server:"))).
  - right. right. exists (js "{server:"). eexists. split; [reflexivity|].
    vm_compute. reflexivity.
  - intros name H. simpl in H.
    repeat (destruct H as [<- | H]; [first [left; reflexivity | right; reflexivity]|]).
    contradiction.
Defined.

(* ================================================================== *)
(** * Decoding object literals with string values *)
(* ================================================================== *)

Lemma isIdentPart_ranges (c : code_unit) :
  isIdentPart c = true ->
  (48 <= c <= 57 \/ 65 <= c <= 90 \/ c = 95 \/ 97 <= c <= 122)%N.
Proof.
  unfold isIdentPart, isIdentStart, between.
  rewrite !orb_true_iff, !andb_true_iff, !N.leb_le, N.eqb_eq. lia.
Qed.

Lemma isIdentStart_part (c : code_unit) : isIdentStart c = true -> isIdentPart c = true.
Proof. unfold isIdentPart. intros ->. reflexivity. Qed.

Ltac outside_ranges H :=
  apply isIdentPart_ranges in H;
  unfold plain_unit;
  unfold isSpace, isWhiteSpace, isLineTerminator, isOpener, JSON.isJsonSpace,
    among, between, DQUOTE, SQUOTE, COLON;
  simpl existsb;
  repeat match goal with
         | |- context [N.eqb ?a ?b] => destruct (N.eqb_spec a b); [lia|]
         | |- context [N.leb ?a ?b] => destruct (N.leb_spec a b); [|]
         | |- context [N.ltb ?a ?b] => destruct (N.ltb_spec a b); [|]
         end;
  simpl; try reflexivity; try lia; try (exfalso; lia).

Lemma ident_not_space (c : code_unit) : isIdentPart c = true -> isSpace c = false.
Proof. intros H. outside_ranges H. Qed.

Lemma ident_plain (c : code_unit) : isIdentPart c = true -> plain_unit c = true.
Proof. intros H. outside_ranges H. Qed.

Lemma ident_not_colon (c : code_unit) : isIdentPart c = true -> N.eqb c COLON = false.
Proof. intros H. outside_ranges H. Qed.

Lemma ident_not_json_space (c : code_unit) :
  isIdentPart c = true -> JSON.isJsonSpace c = false.
Proof. intros H. outside_ranges H. Qed.

Lemma plain_unit_facts (c : code_unit) :
  plain_unit c = true ->
  N.eqb c SQUOTE = false /\ N.eqb c DQUOTE = false /\ N.eqb c 92 = false
  /\ isOpener c = false /\ isLineTerminator c = false /\ N.ltb c 32 = false.
Proof.
  unfold plain_unit, among. simpl existsb.
  rewrite !andb_true_iff, !negb_true_iff, !orb_false_iff.
  intros [[[(A & B & C & _) D] E] F]. repeat split; assumption.
Qed.

Lemma identifier_units (id : jsstring) :
  identifier id = true ->
  exists c rest, id = c :: rest /\ isIdentStart c = true
                 /\ forallb isIdentPart (c :: rest) = true.
Proof.
  destruct id as [|c rest]; [discriminate|]. simpl.
  rewrite andb_true_iff. intros [A B]. exists c, rest.
  split; [reflexivity|]. split; [exact A|].
  rewrite (isIdentStart_part c A). exact B.
Qed.

Lemma forallb_impl {A : Type} (p q : A -> bool) (l : list A) :
  (forall x, p x = true -> q x = true) ->
  forallb p l = true -> forallb q l = true.
Proof.
  intros H. induction l as [|x l IH]; simpl; [reflexivity|].
  rewrite !andb_true_iff. intros [P L]. split; [apply H; exact P | apply IH; exact L].
Qed.

Lemma identifier_plain (id : jsstring) :
  identifier id = true -> forallb plain_unit id = true.
Proof.
  intros H. destruct (identifier_units id H) as (c & rest & -> & _ & F).
  exact (forallb_impl _ _ _ ident_plain F).
Qed.

Lemma fields_text_bare (q open : code_unit) (k v : jsstring)
      (rest : list (jsstring * jsstring)) :
  fields_text q false open ((k, v) :: rest)
  = open :: k ++ COLON :: q :: v ++ q :: fields_text q false 44%N rest.
Proof.
  simpl. unfold field_text. simpl. rewrite <- !app_assoc. simpl.
  rewrite <- !app_assoc. reflexivity.
Qed.

Lemma fields_text_quoted (q open : code_unit) (k v : jsstring)
      (rest : list (jsstring * jsstring)) :
  fields_text q true open ((k, v) :: rest)
  = open :: DQUOTE :: k ++ DQUOTE :: COLON :: q :: v
         ++ q :: fields_text q true 44%N rest.
Proof.
  simpl. unfold field_text. simpl. rewrite <- !app_assoc. simpl.
  rewrite <- !app_assoc. reflexivity.
Qed.

Lemma plain_field_cons (k v : jsstring) (rest : list (jsstring * jsstring)) :
  forallb plain_field ((k, v) :: rest) = true ->
  identifier k = true /\ forallb plain_unit v = true
  /\ forallb plain_field rest = true.
Proof.
  simpl forallb. unfold plain_field at 1. simpl fst. simpl snd.
  rewrite !andb_true_iff. tauto.
Qed.

(** ** Step 1 *)

Lemma replaceSingleQuotes_plain (w : jsstring) :
  forallb plain_unit w = true -> replaceSingleQuotes w = w.
Proof.
  unfold replaceSingleQuotes. induction w as [|c w IH]; simpl; [reflexivity|].
  rewrite andb_true_iff. intros [P W].
  destruct (plain_unit_facts c P) as (S & _). rewrite S, (IH W). reflexivity.
Qed.

Lemma replaceSingleQuotes_app (a b : jsstring) :
  replaceSingleQuotes (a ++ b) = replaceSingleQuotes a ++ replaceSingleQuotes b.
Proof. apply map_app. Qed.

Lemma step1_fields (open : code_unit) (fields : list (jsstring * jsstring)) :
  N.eqb open SQUOTE = false ->
  forallb plain_field fields = true ->
  replaceSingleQuotes (fields_text SQUOTE false open fields)
  = fields_text DQUOTE false open fields.
Proof.
  revert open. induction fields as [|[k v] rest IH]; intros open Ho F;
    [reflexivity|].
  destruct (plain_field_cons k v rest F) as (K & V & R).
  rewrite !fields_text_bare.
  change (replaceSingleQuotes (open :: ?x))
    with ((if N.eqb open SQUOTE then DQUOTE else open) :: replaceSingleQuotes x).
  rewrite Ho. f_equal.
  rewrite replaceSingleQuotes_app.
  rewrite (replaceSingleQuotes_plain k (identifier_plain k K)). f_equal.
  change (replaceSingleQuotes (COLON :: SQUOTE :: ?x))
    with (COLON :: DQUOTE :: replaceSingleQuotes x).
  do 2 f_equal. rewrite replaceSingleQuotes_app.
  rewrite (replaceSingleQuotes_plain v V). f_equal.
  change (replaceSingleQuotes (SQUOTE :: ?x)) with (DQUOTE :: replaceSingleQuotes x).
  f_equal. apply IH; [reflexivity | exact R].
Qed.

(** ** Step 2 *)

Lemma span_all (p : code_unit -> bool) (w t : jsstring) :
  forallb p w = true ->
  match t with c :: _ => p c = false | [] => True end ->
  span p (w ++ t) = (w, t).
Proof.
  intros W T. induction w as [|c w IH]; simpl.
  - destruct t as [|c t]; [reflexivity|]. simpl. rewrite T. reflexivity.
  - simpl in W. apply andb_true_iff in W. destruct W as [C W].
    rewrite C, (IH W). reflexivity.
Qed.

Lemma matchKey_identifier (k t : jsstring) :
  identifier k = true ->
  matchKey (k ++ COLON :: t) = Some (k, List.length (k ++ [COLON])).
Proof.
  intros K. destruct (identifier_units k K) as (c & rest & -> & S & F).
  simpl in F. apply andb_true_iff in F. destruct F as [C F].
  unfold matchKey. simpl app.
  change (span isSpace (c :: ?x))
    with (if isSpace c then let (a, b) := span isSpace x in (c :: a, b)
          else ([], c :: x)).
  rewrite (ident_not_space c C), S.
  rewrite (span_all isIdentPart rest (COLON :: t) F eq_refl).
  change (span isSpace (COLON :: t)) with (@nil code_unit, COLON :: t).
  cbv beta iota. rewrite N.eqb_refl.
  simpl List.length. rewrite length_app. simpl List.length. f_equal. f_equal. lia.
Qed.

Lemma quoteKeysAfterOpener_skip (w t : jsstring) :
  quoteKeysAfterOpener (List.length w) (w ++ t) = quoteKeysAfterOpener 0 t.
Proof. induction w as [|c w IH]; simpl; [reflexivity | exact IH]. Qed.

Lemma quoteKeysAfterOpener_pass (w t : jsstring) :
  forallb (fun c => negb (isOpener c)) w = true ->
  quoteKeysAfterOpener 0 (w ++ t) = w ++ quoteKeysAfterOpener 0 t.
Proof.
  induction w as [|c w IH]; simpl; [reflexivity|].
  rewrite andb_true_iff, negb_true_iff. intros [C W]. rewrite C, (IH W).
  reflexivity.
Qed.

Lemma plain_not_opener (w : jsstring) :
  forallb plain_unit w = true -> forallb (fun c => negb (isOpener c)) w = true.
Proof.
  apply forallb_impl. intros c P. destruct (plain_unit_facts c P) as (_ & _ & _ & O & _).
  rewrite O. reflexivity.
Qed.

Lemma step2_fields (open : code_unit) (fields : list (jsstring * jsstring)) :
  isOpener open = true ->
  forallb plain_field fields = true ->
  quoteKeysAfterOpener 0 (fields_text DQUOTE false open fields ++ [125%N])
  = fields_text DQUOTE true open fields ++ [125%N].
Proof.
  revert open. induction fields as [|[k v] rest IH]; intros open Ho F;
    [reflexivity|].
  destruct (plain_field_cons k v rest F) as (K & V & R).
  rewrite fields_text_bare, fields_text_quoted.
  rewrite <- !app_comm_cons, <- !app_assoc, <- !app_comm_cons, <- !app_assoc,
    <- !app_comm_cons.
  change (quoteKeysAfterOpener 0 (open :: ?x))
    with (if isOpener open
          then match matchKey x with
               | Some (id, n) =>
                   open :: DQUOTE :: id ++ DQUOTE :: COLON :: quoteKeysAfterOpener n x
               | None => open :: quoteKeysAfterOpener 0 x
               end
          else open :: quoteKeysAfterOpener 0 x).
  rewrite Ho, (matchKey_identifier k _ K).
  do 2 f_equal. f_equal. do 2 f_equal.
  replace (k ++ COLON :: DQUOTE :: v ++ DQUOTE :: fields_text DQUOTE false 44%N rest
             ++ [125%N])
    with ((k ++ [COLON]) ++ (DQUOTE :: v ++ [DQUOTE])
                         ++ fields_text DQUOTE false 44%N rest ++ [125%N])
    by (rewrite <- !app_assoc; simpl; rewrite <- !app_assoc; reflexivity).
  rewrite quoteKeysAfterOpener_skip.
  rewrite quoteKeysAfterOpener_pass.
  - rewrite (IH 44%N eq_refl R). simpl. rewrite <- !app_assoc. reflexivity.
  - simpl. rewrite forallb_app, (plain_not_opener v V). reflexivity.
Qed.

(** ** Step 3 *)

Lemma quoteKeysAtLineStart_pass (s : jsstring) :
  forallb (fun c => negb (isLineTerminator c)) s = true ->
  quoteKeysAtLineStart 0 false s = s.
Proof.
  induction s as [|c s IH]; simpl; [reflexivity|].
  rewrite andb_true_iff, negb_true_iff. intros [C S]. rewrite C, (IH S).
  reflexivity.
Qed.

(** A class of code units that holds the punctuation of the text holds
    the text. *)
Lemma fields_text_units (p : code_unit -> bool) (open : code_unit)
      (fields : list (jsstring * jsstring)) :
  (forall c, plain_unit c = true -> p c = true) ->
  p open = true -> p 44%N = true -> p DQUOTE = true -> p COLON = true ->
  forallb plain_field fields = true ->
  forallb p (fields_text DQUOTE true open fields) = true.
Proof.
  intros Hp Ho Hc Hd Hn. revert open Ho.
  induction fields as [|[k v] rest IH]; intros open Ho F; [reflexivity|].
  destruct (plain_field_cons k v rest F) as (K & V & R).
  rewrite fields_text_quoted.
  assert (Pk : forallb p k = true)
    by exact (forallb_impl _ _ _ Hp (identifier_plain k K)).
  assert (Pv : forallb p v = true) by exact (forallb_impl _ _ _ Hp V).
  simpl forallb. rewrite Ho, Hd. simpl andb.
  rewrite forallb_app, Pk. simpl. rewrite Hd, Hn. simpl.
  rewrite forallb_app, Pv. simpl. rewrite Hd. simpl. apply (IH 44%N Hc R).
Qed.

Lemma step3_fields (fields : list (jsstring * jsstring)) :
  forallb plain_field fields = true ->
  quoteKeysAtLineStart 0 true (fields_text DQUOTE true 123%N fields ++ [125%N])
  = fields_text DQUOTE true 123%N fields ++ [125%N].
Proof.
  intros F. destruct fields as [|[k v] rest]; [reflexivity|].
  assert (L : forallb (fun c => negb (isLineTerminator c))
                      (fields_text DQUOTE true 123%N ((k, v) :: rest) ++ [125%N])
              = true).
  { rewrite forallb_app. rewrite fields_text_units; try reflexivity; [|exact F].
    intros c P. destruct (plain_unit_facts c P) as (_ & _ & _ & _ & T & _).
    rewrite T. reflexivity. }
  rewrite fields_text_quoted in *. rewrite <- app_comm_cons in *.
  change (quoteKeysAtLineStart 0 true (123%N :: ?x))
    with (match matchKey (123%N :: x) with
          | Some (id, n) =>
              DQUOTE :: id ++ DQUOTE :: COLON :: quoteKeysAtLineStart (n - 1) false x
          | None => 123%N :: quoteKeysAtLineStart 0 (isLineTerminator 123%N) x
          end).
  change (matchKey (123%N :: ?x)) with (@None (jsstring * nat)).
  change (isLineTerminator 123%N) with false. cbv iota. f_equal.
  apply quoteKeysAtLineStart_pass. simpl in L. exact L.
Qed.

(** ** Step 4 *)

Lemma collapse_other (c : code_unit) (s : jsstring) :
  N.eqb c DQUOTE = false ->
  collapseDoubledQuotes (c :: s) = c :: collapseDoubledQuotes s.
Proof. intros C. destruct s as [|d s]; simpl; rewrite ?C; reflexivity. Qed.

Lemma collapse_quote_other (c : code_unit) (s : jsstring) :
  N.eqb c DQUOTE = false ->
  collapseDoubledQuotes (DQUOTE :: c :: s)
  = DQUOTE :: collapseDoubledQuotes (c :: s).
Proof.
  intros C. change (collapseDoubledQuotes (DQUOTE :: c :: s))
    with (if N.eqb DQUOTE DQUOTE && N.eqb c DQUOTE
          then DQUOTE :: collapseDoubledQuotes s
          else DQUOTE :: collapseDoubledQuotes (c :: s)).
  rewrite C, andb_false_r. reflexivity.
Qed.

Lemma collapse_pass (w t : jsstring) :
  forallb plain_unit w = true ->
  collapseDoubledQuotes (w ++ t) = w ++ collapseDoubledQuotes t.
Proof.
  induction w as [|c w IH]; [reflexivity|]. simpl forallb.
  rewrite andb_true_iff. intros [C W].
  destruct (plain_unit_facts c C) as (_ & D & _).
  rewrite <- !app_comm_cons, (collapse_other c _ D), (IH W). reflexivity.
Qed.

(** A text between double quotes that is not empty, before a code unit
    that is no double quote. *)
Lemma collapse_quoted (w t : jsstring) (c : code_unit) :
  forallb plain_unit w = true -> w <> [] -> N.eqb c DQUOTE = false ->
  collapseDoubledQuotes (DQUOTE :: w ++ DQUOTE :: c :: t)
  = DQUOTE :: w ++ DQUOTE :: collapseDoubledQuotes (c :: t).
Proof.
  intros W N C. destruct w as [|x w]; [congruence|].
  pose proof W as W'. simpl in W'. apply andb_true_iff in W'. destruct W' as [X _].
  destruct (plain_unit_facts x X) as (_ & D & _).
  rewrite <- app_comm_cons, (collapse_quote_other x _ D).
  rewrite app_comm_cons, (collapse_pass (x :: w) _ W), (collapse_quote_other c t C).
  reflexivity.
Qed.

Lemma fields_text_head (open : code_unit) (fields : list (jsstring * jsstring)) :
  N.eqb open DQUOTE = false ->
  exists c t, fields_text DQUOTE true open fields ++ [125%N] = c :: t
              /\ N.eqb c DQUOTE = false.
Proof.
  intros O. destruct fields as [|[k v] rest].
  - exists 125%N, []. split; reflexivity.
  - rewrite fields_text_quoted. eexists. eexists. split; [reflexivity | exact O].
Qed.

Lemma step4_fields (open : code_unit) (fields : list (jsstring * jsstring)) :
  N.eqb open DQUOTE = false ->
  forallb plain_field fields = true ->
  forallb (fun kv => negb (str_eqb (snd kv) [])) fields = true ->
  collapseDoubledQuotes (fields_text DQUOTE true open fields ++ [125%N])
  = fields_text DQUOTE true open fields ++ [125%N].
Proof.
  revert open. induction fields as [|[k v] rest IH]; intros open O F E;
    [reflexivity|].
  destruct (plain_field_cons k v rest F) as (K & V & R).
  simpl in E. apply andb_true_iff in E. destruct E as [Ev Er].
  assert (Nv : v <> []) by (intros ->; discriminate).
  assert (Nk : k <> []) by (intros ->; discriminate).
  specialize (IH 44%N eq_refl R Er).
  destruct (fields_text_head 44%N rest eq_refl) as (c & t & Et & Ec).
  rewrite fields_text_quoted. rewrite <- !app_comm_cons, <- !app_assoc.
  rewrite <- !app_comm_cons, <- !app_assoc, <- !app_comm_cons.
  rewrite Et in *.
  rewrite (collapse_other open _ O). f_equal.
  change (DQUOTE :: k ++ DQUOTE :: COLON :: DQUOTE :: v ++ DQUOTE :: c :: t)
    with (DQUOTE :: k ++ DQUOTE :: COLON :: (DQUOTE :: v ++ DQUOTE :: c :: t)).
  rewrite (collapse_quoted k _ COLON (identifier_plain k K) Nk eq_refl).
  rewrite (collapse_other COLON _ eq_refl).
  rewrite (collapse_quoted v t c V Nv Ec), IH. reflexivity.
Qed.

(** ** The normalized text is JSON *)

Lemma run_plain (stack : list JSON.frame) (is_key : bool) (w t acc : jsstring)
      (pos : nat) :
  forallb plain_unit w = true ->
  JSON.run (stack, JSON.MString is_key acc JSON.Plain) pos (w ++ t)
  = JSON.run (stack, JSON.MString is_key (rev w ++ acc) JSON.Plain)
             (pos + List.length w) t.
Proof.
  revert acc pos. induction w as [|c w IH]; intros acc pos W.
  - simpl. rewrite Nat.add_0_r. reflexivity.
  - simpl in W. apply andb_true_iff in W. destruct W as [C W].
    destruct (plain_unit_facts c C) as (_ & D & B & _ & _ & L).
    unfold DQUOTE in D.
    simpl app. simpl JSON.run. unfold JSON.step_string. rewrite D, B, L.
    rewrite (IH (c :: acc) (S pos) W). simpl rev. rewrite <- app_assoc.
    simpl List.length. rewrite Nat.add_succ_r. reflexivity.
Qed.

Lemma run_field (done : object) (first : bool) (k v t : jsstring) (pos : nat) :
  identifier k = true ->
  forallb plain_unit v = true ->
  exists pos',
    JSON.run ([JSON.InObject done None], JSON.MKey first) pos
             (DQUOTE :: k ++ DQUOTE :: COLON :: DQUOTE :: v ++ DQUOTE :: t)
    = JSON.run ([JSON.InObject (rev (obj_set k (VStr v) (rev done))) None],
                JSON.MAfter) pos' t.
Proof.
  intros K V. eexists.
  change (JSON.run ([JSON.InObject done None], JSON.MKey first) pos (DQUOTE :: ?x))
    with (JSON.run ([JSON.InObject done None], JSON.MString true [] JSON.Plain)
                   (S pos) x).
  rewrite (run_plain _ true k _ [] (S pos) (identifier_plain k K)).
  rewrite app_nil_r.
  match goal with
  | |- JSON.run ?s ?p (DQUOTE :: COLON :: DQUOTE :: ?x) = _ =>
      change (JSON.run s p (DQUOTE :: COLON :: DQUOTE :: x))
        with (JSON.run ([JSON.InObject done (Some (rev (rev k)))],
                        JSON.MString false [] JSON.Plain) (S (S (S p))) x)
  end.
  rewrite (run_plain _ false v _ [] _ V). rewrite app_nil_r, !rev_involutive.
  match goal with
  | |- JSON.run ?s ?p (DQUOTE :: ?x) = _ =>
      change (JSON.run s p (DQUOTE :: x))
        with (JSON.run ([JSON.InObject (rev (obj_set k (VStr (rev (rev v)))
                                                     (rev done))) None],
                        JSON.MAfter) (S p) x)
  end.
  rewrite rev_involutive. reflexivity.
Qed.

Lemma run_rest (rest : list (jsstring * jsstring)) :
  forallb plain_field rest = true ->
  forall (done : object) (pos : nat),
    JSON.run ([JSON.InObject done None], JSON.MAfter) pos
             (fields_text DQUOTE true 44%N rest ++ [125%N])
    = JSON.Parsed
        (VObj (fold_left (fun o kv => obj_set (fst kv) (VStr (snd kv)) o)
                         rest (rev done))).
Proof.
  induction rest as [|[k v] rest IH]; intros F done pos; [reflexivity|].
  destruct (plain_field_cons k v rest F) as (K & V & R).
  rewrite fields_text_quoted. rewrite <- app_comm_cons.
  change (JSON.run ([JSON.InObject done None], JSON.MAfter) pos (44%N :: ?x))
    with (JSON.run ([JSON.InObject done None], JSON.MKey false) (S pos) x).
  rewrite <- !app_comm_cons, <- !app_assoc, <- !app_comm_cons, <- !app_assoc,
    <- !app_comm_cons.
  destruct (run_field done false k v
                      (fields_text DQUOTE true 44%N rest ++ [125%N]) (S pos) K V)
    as (pos' & E).
  rewrite E, (IH R), rev_involutive. reflexivity.
Qed.

Lemma json_text_parses (fields : list (jsstring * jsstring)) :
  forallb plain_field fields = true ->
  JSON.parse (json_text fields) = JSON.Parsed (object_of fields).
Proof.
  intros F. destruct fields as [|[k v] rest]; [reflexivity|].
  destruct (plain_field_cons k v rest F) as (K & V & R).
  unfold json_text, object_text, JSON.parse. rewrite fields_text_quoted.
  rewrite <- app_comm_cons.
  change (JSON.run ([], JSON.MValue false) 0 (123%N :: ?x))
    with (JSON.run ([JSON.InObject [] None], JSON.MKey true) 1 x).
  rewrite <- !app_comm_cons, <- !app_assoc, <- !app_comm_cons, <- !app_assoc,
    <- !app_comm_cons.
  destruct (run_field [] true k v
                      (fields_text DQUOTE true 44%N rest ++ [125%N]) 1 K V)
    as (pos' & E).
  rewrite E, (run_rest rest R), rev_involutive. reflexivity.
Qed.

Lemma literal_text_is_no_json (fields : list (jsstring * jsstring)) :
  forallb plain_field fields = true -> fields <> [] ->
  JSON.parse (literal_text fields) = JSON.SyntaxError 1.
Proof.
  intros F N. destruct fields as [|[k v] rest]; [congruence|].
  destruct (plain_field_cons k v rest F) as (K & _ & _).
  destruct (identifier_units k K) as (c & id & -> & S & _).
  pose proof (isIdentStart_part c S) as P.
  unfold literal_text, object_text, JSON.parse. rewrite fields_text_bare.
  rewrite <- !app_comm_cons.
  change (JSON.run ([], JSON.MValue false) 0 (123%N :: c :: ?x))
    with (match JSON.step ([JSON.InObject [] None], JSON.MKey true) c with
          | Some s' => JSON.run s' 2 x
          | None => JSON.SyntaxError 1
          end).
  unfold JSON.step. rewrite (ident_not_json_space c P).
  assert (Q : N.eqb c 34 = false /\ N.eqb c 125 = false).
  { apply isIdentPart_ranges in P.
    split; [destruct (N.eqb_spec c 34) | destruct (N.eqb_spec c 125)];
      try reflexivity; lia. }
  destruct Q as [Q1 Q2]. rewrite Q1, Q2. reflexivity.
Qed.

Lemma first_three_steps (fields : list (jsstring * jsstring)) :
  forallb plain_field fields = true -> fields <> [] ->
  quoteKeysAtLineStart 0 true
    (quoteKeysAfterOpener 0 (replaceSingleQuotes (literal_text fields)))
  = fields_text DQUOTE true 123%N fields ++ [125%N].
Proof.
  intros F N. unfold literal_text, object_text.
  destruct fields as [|kv rest] eqn:E; [congruence|]. rewrite <- E in *.
  rewrite replaceSingleQuotes_app, (step1_fields 123%N fields eq_refl F).
  change (replaceSingleQuotes [125%N]) with [125%N].
  rewrite (step2_fields 123%N fields eq_refl F).
  apply (step3_fields fields F).
Qed.

Lemma normal_form (fields : list (jsstring * jsstring)) :
  forallb plain_field fields = true ->
  forallb (fun kv => negb (str_eqb (snd kv) [])) fields = true ->
  convertJsLiteralToJson (literal_text fields) = json_text fields.
Proof.
  intros F E. destruct fields as [|kv rest] eqn:Ef; [reflexivity|].
  rewrite <- Ef in *. unfold convertJsLiteralToJson.
  rewrite (first_three_steps fields F) by (rewrite Ef; discriminate).
  rewrite (step4_fields 123%N fields eq_refl F E).
  unfold json_text, object_text. rewrite Ef. reflexivity.
Qed.

(** X26.  The normalization turns an object literal with bare identifier
    keys and single-quoted plain values into the JSON text of the same
    fields, which denotes the object of these fields, provided no value is
    empty.  An empty value loses one of its two quotes in the last step,
    which takes two double quotes in a row for a doubled quote, and what is
    left is no JSON. *)
Theorem literal_is_normalized (fields : list (jsstring * jsstring)) :
  forallb plain_field fields = true ->
  (forallb (fun kv => negb (str_eqb (snd kv) [])) fields = true ->
   convertJsLiteralToJson (literal_text fields) = json_text fields
   /\ JSON.parse (json_text fields) = JSON.Parsed (object_of fields))
  /\ (forall k,
         fields = [(k, [])] ->
         convertJsLiteralToJson (literal_text fields)
         = 123%N :: DQUOTE :: k ++ [DQUOTE; COLON; DQUOTE; 125%N]
         /\ exists pos,
             JSON.parse (convertJsLiteralToJson (literal_text fields))
             = JSON.SyntaxError pos).
Proof.
  intros F. split.
  - intros E. split; [exact (normal_form fields F E)|].
    exact (json_text_parses fields F).
  - intros k ->. unfold convertJsLiteralToJson.
    rewrite (first_three_steps _ F) by discriminate.
    destruct (plain_field_cons k [] [] F) as (K & _ & _).
    assert (Nk : k <> []) by (intros ->; discriminate).
    rewrite fields_text_quoted. simpl app. simpl fields_text.
    rewrite <- ?app_comm_cons, <- ?app_assoc, <- ?app_comm_cons.
    rewrite (collapse_other 123%N _ eq_refl).
    rewrite (collapse_quoted k _ COLON (identifier_plain k K) Nk eq_refl).
    change (collapseDoubledQuotes [COLON; DQUOTE; DQUOTE; 125%N])
      with [COLON; DQUOTE; 125%N].
    split; [reflexivity|].
    unfold JSON.parse.
    change (JSON.run ([], JSON.MValue false) 0 (123%N :: DQUOTE :: ?x))
      with (JSON.run ([JSON.InObject [] None], JSON.MString true [] JSON.Plain)
                     2 x).
    rewrite (run_plain _ true k _ [] 2 (identifier_plain k K)).
    eexists. reflexivity.
Qed.

Section LiteralDecoding.

Variable World : Type.
Variable syntaxErrorMessage : jsstring -> nat -> jsstring.
Variable evalFunction : jsstring -> option (outcome value).
Variable config : Config.

Local Abbreviation decode :=
  (parseJsLiteralResponse (World := World) syntaxErrorMessage evalFunction config).

Lemma literal_text_not_blank (fields : list (jsstring * jsstring)) :
  blank (literal_text fields) = false.
Proof. destruct fields as [|[k v] rest]; reflexivity. Qed.

(** X27.  The decoder reads an object literal with bare identifier keys and
    single-quoted plain values that are not empty as the object of its
    fields, where a repeated key keeps its first place and takes its last
    value; it does so without the evaluator and leaves the state as it
    was. *)
Theorem literal_decodes (fields : list (jsstring * jsstring)) (st : Client World) :
  forallb plain_field fields = true ->
  forallb (fun kv => negb (str_eqb (snd kv) [])) fields = true ->
  decode (literal_text fields) st = (Return (object_of fields), st).
Proof.
  intros F E. unfold parseJsLiteralResponse.
  rewrite blank_test, literal_text_not_blank.
  destruct fields as [|kv rest] eqn:Ef; [reflexivity|]. rewrite <- Ef in *.
  rewrite (literal_text_is_no_json fields F) by (rewrite Ef; discriminate).
  rewrite (normal_form fields F E), (json_text_parses fields F). reflexivity.
Qed.

End LiteralDecoding.

(** X26 on a run: two fields. *)
Lemma literal_is_normalized_run :
  convertJsLiteralToJson (js "{mbid:'x',name:'Cash'}")
  = json_text [(js "mbid", js "x"); (js "name", js "Cash")]
  /\ JSON.parse (json_text [(js "mbid", js "x"); (js "name", js "Cash")])
     = JSON.Parsed (VObj [(js "mbid", VStr (js "x")); (js "name", VStr (js "Cash"))]).
Proof.
  apply (literal_is_normalized [(js "mbid", js "x"); (js "name", js "Cash")]);
    reflexivity.
Defined.

(** X27 on a run: the same two fields, decoded. *)
Lemma literal_decodes_run :
  parseJsLiteralResponse v8_message no_expression DEFAULT_CONFIG
                         (js "{mbid:'x',name:'Cash'}") (fresh 0%nat)
  = (Return (VObj [(js "mbid", VStr (js "x")); (js "name", VStr (js "Cash"))]),
     fresh 0%nat).
Proof.
  apply (literal_decodes nat v8_message no_expression DEFAULT_CONFIG
           [(js "mbid", js "x"); (js "name", js "Cash")] (fresh 0%nat));
    reflexivity.
Defined.
